(** * The iterative research loop of app.py

    A shallow embedding of the research control loop of [app.py]
    (the status channel, the search / browse / summarise helpers and
    the orchestrator [search_and_add_background_references]) together
    with the properties of that loop.

    Python values are embedded as the inductive [pyval]; the coroutines
    become computations in a state-and-exception monad [M] whose state
    is a logical clock (the identity of the next external call) and the
    trace of external calls issued so far.  The external services
    (chat completion, search provider, page fetch, websocket sinks) are
    oracles of a [World]; library functions that are not part of the
    repository ([json.loads], [json.dumps], the [prompts] table,
    BeautifulSoup's paragraph extraction) are fields of a [Runtime]. *)

From Stdlib Require Import Ascii String.
From stdpp Require Import gmap strings list pretty.

Set Warnings "-register-all".

Local Open Scope string_scope.
Local Open Scope list_scope.

(** ** Python values *)

(** What [json.loads] can produce, plus [None].  A [dict] keeps its
    insertion order, as Python's does. *)
Inductive pyval : Type :=
| PNone
| PBool (b : bool)
| PInt (n : Z)
| PFloat (lexeme : string)
| PStr (s : string)
| PList (items : list pyval)
| PDict (entries : list (string * pyval)).

Abbreviation dict := (list (string * pyval)).

(** [x is None] / [x == None] on values that come from JSON. *)
Definition is_none (v : pyval) : bool :=
  match v with PNone => true | _ => false end.

(** [x == "literal"] for a value [x] and a string literal. *)
Definition eq_str (v : pyval) (lit : string) : bool :=
  match v with PStr s => String.eqb s lit | _ => false end.

(** [key in obj] for a dict. *)
Definition dict_mem (key : string) (obj : dict) : bool :=
  existsb (fun kv => String.eqb (fst kv) key) obj.

(** [obj[key]] as a lookup, [None] when the key is absent. *)
Fixpoint dict_get (key : string) (obj : dict) : option pyval :=
  match obj with
  | [] => None
  | (k, v) :: rest => if String.eqb k key then Some v else dict_get key rest
  end.

(** [del obj[key]]. *)
Definition dict_del (key : string) (obj : dict) : dict :=
  List.filter (fun kv => negb (String.eqb (fst kv) key)) obj.

(** ** Exceptions and outcomes *)

Inductive exn : Type :=
| KeyError (key : string)
| IndexError
| TypeError
| JSONDecodeError (doc : string)
| ExternalError (msg : string) (status_code : option Z).

(** [getattr(ex, "status_code")] when [hasattr(ex, "status_code")]. *)
Definition exn_status_code (ex : exn) : option Z :=
  match ex with
  | ExternalError _ sc => sc
  | _ => None
  end.

(** The outcome of running a coroutine: a value, a raised exception,
    or no outcome at all within the given number of loop rounds. *)
Inductive res (A : Type) : Type :=
| Ok (a : A)
| Raise (ex : exn)
| Diverge.
Arguments Ok {A} a.
Arguments Raise {A} ex.
Arguments Diverge {A}.

(** ** External calls, traces and the monad *)

(** Which function issued a [send_private_chat]; a label on the trace
    only, the chat oracle does not see it. *)
Inductive chat_caller : Type :=
| ByIdentifySearches
| ByGetUrlsToBrowse
| ByProcessUrl
| ByIsBackgroundInfoSufficient.

Inductive event : Type :=
| EvChat (caller : chat_caller) (system_preamble system_message : option string)
| EvSearch (search : pyval)
| EvFetch (url : pyval)
| EvNotify (message page_instance_id : string)
| EvStream (system_preamble : option string).

Record state : Type := MkState {
  clock : nat;
  trace : list event
}.

Definition M (A : Type) : Type := state -> res A * state.

Definition ret {A} (a : A) : M A := fun s => (Ok a, s).

Definition raise {A} (ex : exn) : M A := fun s => (Raise ex, s).

Definition bind {A B} (m : M A) (k : A -> M B) : M B :=
  fun s =>
    match m s with
    | (Ok a, s') => k a s'
    | (Raise ex, s') => (Raise ex, s')
    | (Diverge, s') => (Diverge, s')
    end.

(** [try: body except Exception as ex: handler(ex)]. *)
Definition try_except {A} (body : M A) (handler : exn -> M A) : M A :=
  fun s =>
    match body s with
    | (Raise ex, s') => handler ex s'
    | other => other
    end.

Declare Scope py_scope.
Delimit Scope py_scope with py.
Notation "x <- m ;; k" := (bind m (fun x => k))
  (at level 100, m at next level, right associativity) : py_scope.
Notation "m ;;; k" := (bind m (fun _ => k))
  (at level 100, right associativity) : py_scope.
Local Open Scope py_scope.

(** One awaited external call: it takes the current clock value as its
    identity, is appended to the trace, and yields the service's reply. *)
Definition external {A} (ev : event) (reply : nat -> A + exn) : M A :=
  fun s =>
    let s' := MkState (S (clock s)) (trace s ++ [ev]) in
    match reply (clock s) with
    | inl a => (Ok a, s')
    | inr ex => (Raise ex, s')
    end.

(** A [for] loop whose body may [return]: the body maps the loop state
    to either the next loop state or the function's return value. *)
Fixpoint for_each {A S R} (body : A -> S -> M (S + R)) (xs : list A) (acc : S)
  : M (S + R) :=
  match xs with
  | [] => ret (inl acc)
  | x :: rest =>
      step <- body x acc ;;
      match step with
      | inl acc' => for_each body rest acc'
      | inr r => ret (inr r)
      end
  end.

(** Iterating a value: lists yield their items, strings their
    characters, dicts their keys; nothing else from JSON is iterable. *)
Definition py_iter (v : pyval) : res (list pyval) :=
  match v with
  | PList items => Ok items
  | PStr s => Ok (map (fun c => PStr (String c EmptyString)) (String.list_ascii_of_string s))
  | PDict entries => Ok (map (fun kv => PStr (fst kv)) entries)
  | _ => Raise TypeError
  end.

Definition lift {A} (r : res A) : M A := fun s => (r, s).

(** ** The runtime and the world *)

(** Library functions and tables the module imports. *)
Record Runtime : Type := MkRuntime {
  (** [json.loads(text)], raising [JSONDecodeError] on malformed text. *)
  json_loads : string -> pyval + exn;
  (** [json.dumps(value)]. *)
  json_dumps : pyval -> string;
  (** [json.dumps(value, indent=4)]. *)
  json_dumps_indent4 : pyval -> string;
  (** [from prompts import prompts]: the table of instruction texts. *)
  prompts : string -> string;
  (** [' '.join(p.get_text() for p in BeautifulSoup(content).find_all('p'))]. *)
  paragraphs_text : string -> string
}.

(** The external services.  Every reply may depend on the identity of
    the call (the clock value at which it is issued), so the same
    request can be answered differently at different times. *)
Record World : Type := MkWorld {
  (** the completion returned to [send_private_chat] for the given
      system preamble and system message *)
  chat_reply : nat -> option string -> option string -> string + exn;
  (** what [search_bing] returns: the provider's result list, or
      [None] after any failure (caught inside [search_bing]) *)
  bing_reply : nat -> pyval -> option (list dict);
  (** [requests.get(url)]: status code and body, or an exception *)
  fetch_reply : nat -> pyval -> (Z * string) + exn;
  (** the global [clients] registry as it stands when read; the
      websocket listeners of other connections mutate it concurrently *)
  clients_at : nat -> gmap string nat;
  (** [sink.send(message)]: [None] when delivered *)
  send_reply : nat -> nat -> string -> option exn;
  (** the user-facing [stream_chat_request], yielding the response body *)
  stream_reply : nat -> option string -> string + exn;
  (** completion order of the [n] tasks handed to [asyncio.gather] *)
  gather_order : nat -> nat -> list nat
}.

(** ** String helpers *)

(** The newline character and the double quote, which the source writes
    as escapes inside its literals. *)
Definition nl : string := String "010"%char EmptyString.
Definition dq : string := String "034"%char EmptyString.

(** [s[-1]], when [s] is not empty. *)
Fixpoint str_last (s : string) : option ascii :=
  match s with
  | EmptyString => None
  | String c EmptyString => Some c
  | String _ rest => str_last rest
  end.

(** [s[-1] != c] for a non-empty [s]. *)
Definition last_differs (s : string) (c : ascii) : bool :=
  match str_last s with
  | Some d => negb (Ascii.eqb d c)
  | None => true
  end.

(** ** The status channel: the [clients] registry and the [ws] listener *)

(** [clients[page_instance_id] = websocket._get_current_object()]. *)
Definition ws_register (page_instance_id : string) (sink : nat)
    (clients : gmap string nat) : gmap string nat :=
  <[page_instance_id := sink]> clients.

(** The listener's [finally]: [if page_instance_id in clients: del ...]. *)
Definition ws_unregister (page_instance_id : string)
    (clients : gmap string nat) : gmap string nat :=
  match clients !! page_instance_id with
  | Some _ => delete page_instance_id clients
  | None => clients
  end.

(** ** The stripped search-result fields *)

Definition proparray : list string :=
  [ "dateLastCrawled"; "language"; "richFacts"; "isNavigational";
    "isFamilyFriendly"; "displayUrl"; "searchTags"; "noCache";
    "cachedPageUrl"; "datePublishedDisplayText"; "datePublished"; "id";
    "primaryImageOfPage"; "thumbnailUrl" ].

(** [for prop in proparray: if prop in obj: del obj[prop]]. *)
Definition strip_obj (obj : dict) : dict :=
  fold_left
    (fun obj prop => if dict_mem prop obj then dict_del prop obj else obj)
    proparray obj.

(** ** The request *)

(** The part of [request_body] the loop itself reads; the conversation
    it carries is what the world's replies answer. *)
Record request_body : Type := MkRequest {
  rb_page_instance_id : option string
}.

(** What [conversation_internal] hands back to the route. *)
Inductive http_response : Type :=
| StreamResponse (body : string)
| ErrorResponse (ex : exn) (status : Z).

(** ** The program *)

Section Program.

Variable rt : Runtime.
Variable w : World.

(** [json.loads(text)] as a step of a coroutine. *)
Definition loads (text : string) : M pyval :=
  lift (match json_loads rt text with
        | inl v => Ok v
        | inr ex => Raise ex
        end).

(** The text that closes the planner's instructions. *)
Definition original_system_prompt : string :=
  nl +:+ nl +:+ "Original System Prompt:" +:+ nl.

(** [await clients[page_instance_id].send(message)]: the lookup raises
    [KeyError] before anything is sent when the id is not registered,
    and nothing catches what [send] raises. *)
Definition set_status_message (message page_instance_id : string) : M unit :=
  fun s =>
    match clients_at w (clock s) !! page_instance_id with
    | None => (Raise (KeyError page_instance_id), s)
    | Some sink =>
        external (EvNotify message page_instance_id)
          (fun t => match send_reply w t sink message with
                    | None => inl tt
                    | Some ex => inr ex
                    end) s
    end.

(** One request to the search provider.  The [try] / [except] of the
    source is inside the reply: it is [None] when the request raised. *)
Definition search_bing (search : pyval) : M (option (list dict)) :=
  external (EvSearch search) (fun t => inl (bing_reply w t search)).

(** One private, non-streamed completion; what the transport raises
    is raised to the caller. *)
Definition send_private_chat (caller : chat_caller)
    (system_preamble system_message : option string) : M string :=
  external (EvChat caller system_preamble system_message)
    (fun t => chat_reply w t system_preamble system_message).

(** The user-facing completion, with the preamble it is given. *)
Definition stream_chat_request (system_preamble : option string) : M string :=
  external (EvStream system_preamble)
    (fun t => stream_reply w t system_preamble).

(** The body of the [for search in searches] loop.  Its last statement,
    [return allresults], sits inside the loop's [else] branch. *)
Definition get_search_results_body (search : pyval)
    (allresults : option (list dict)) : M (option (list dict) + pyval) :=
  results <- search_bing search ;;
  match results with
  | None => ret (inr (PStr "Search error."))
  | Some results =>
      let allresults :=
        match allresults with
        | None => results
        | Some allresults => allresults ++ results
        end in
      let allresults := map strip_obj allresults in
      ret (inr (PList (map PDict allresults)))
  end.

Definition get_search_results (searches : pyval) : M pyval :=
  searches <- lift (py_iter searches) ;;
  out <- for_each get_search_results_body searches None ;;
  match out with
  | inl _ => ret PNone
  | inr v => ret v
  end.

Definition identify_searches (Summaries : option (list pyval)) : M pyval :=
  let system_preamble :=
    match Summaries with
    | None => prompts rt "identify_searches"
    | Some Summaries =>
        prompts rt "identify_additional_searches"
        +:+ json_dumps_indent4 rt (PList Summaries)
        +:+ original_system_prompt
    end in
  searches <- send_private_chat ByIdentifySearches (Some system_preamble) None ;;
  if String.eqb searches "No searches required." then ret PNone
  else
    match searches with
    | EmptyString => raise IndexError
    | String c _ =>
        let searches :=
          if negb (Ascii.eqb c "[") then "[" +:+ searches else searches in
        let searches :=
          if last_differs searches "]" then searches +:+ "]" else searches in
        loads searches
    end.

Definition get_urls_to_browse (searches : pyval) : M string :=
  searchresults <- get_search_results searches ;;
  if eq_str searchresults "Search error." then ret "Search error."
  else
    let strsearchresults := json_dumps_indent4 rt searchresults in
    let system_preamble :=
      prompts rt "get_urls_to_browse" +:+ strsearchresults
      +:+ original_system_prompt in
    send_private_chat ByGetUrlsToBrowse None (Some system_preamble).

Definition fetch_and_parse_url (url : pyval) : M (option string) :=
  response <- external (EvFetch url) (fun t => fetch_reply w t url) ;;
  if (fst response =? 200)%Z
  then ret (Some (paragraphs_text rt (snd response)))
  else ret None.

Definition summary_prompt (URL page_content : string) : string :=
  "The Original System Prompt that follows is your primary objective, "
  +:+ "but for this chat you identified the following URL for further research "
  +:+ "to give your answer: " +:+ URL
  +:+ ". Your task now is to provide a summary of relevant content on the page "
  +:+ "that will help us address the feedback on the URL provided by the user "
  +:+ "and document current sources. Return nothing except your summary of the "
  +:+ "key points and any important quotes the content on the page in a single string."
  +:+ nl +:+ nl
  +:+ "Page Content:" +:+ nl +:+ nl +:+ page_content
  +:+ nl +:+ nl +:+ "Original System Prompt:" +:+ nl +:+ nl.

(** The text handed to [json.loads] to build one summary entry. *)
Definition summary_text (URL summary : string) : string :=
  "{" +:+ dq +:+ "URL" +:+ dq +:+ " : " +:+ dq +:+ URL +:+ dq +:+ "," +:+ nl
  +:+ dq +:+ "summary" +:+ dq +:+ " : " +:+ json_dumps rt (PStr summary) +:+ "}".

Definition process_url (URL : pyval) : M pyval :=
  page_content <- fetch_and_parse_url URL ;;
  match page_content with
  | Some page_content =>
      match URL with
      | PStr URL =>
          summary <- send_private_chat ByProcessUrl None
                       (Some (summary_prompt URL page_content)) ;;
          loads (summary_text URL summary)
      | _ => raise TypeError
      end
  | None => ret PNone
  end.

(** *** [asyncio.gather]

    The join of the task list handed to [asyncio.gather], without
    [return_exceptions].  Every task is started, in the order of the
    list.  The page fetch is a blocking [requests.get], and the
    completion request is the first point at which a page task yields:
    so a task, once started, has issued its fetch and, the page
    obtained, its summary request before the next task starts.  The
    calls of all tasks are therefore issued in the order of the list,
    before any task is joined and whatever the others do later: an
    exception in one task cancels none of the others.

    The tasks then complete in the order the world picks; each result
    is stored at the position of its task, and the awaiting caller
    resumes when all have completed.  The first exception raised, in
    completion order, is propagated to the caller at once.  Task number
    [i] issues its external calls under the identities [t + 2 * i] and
    [t + 2 * i + 1], where [t] is the clock when the tasks are
    created. *)

Definition run_task {A} (task : M A) (t : nat) : res A * list event :=
  let (r, s) := task (MkState t []) in (r, trace s).

(** The calls the started tasks have issued, in the order of the
    list. *)
Definition issued {A} (outs : list (res A * list event)) : list event :=
  concat (map snd outs).

Fixpoint join {A} (order : list nat) (outs : list (res A * list event))
    (slots : list (option A)) : res (list (option A)) :=
  match order with
  | [] => Ok slots
  | i :: order' =>
      match outs !! i with
      | Some (Ok a, _) => join order' outs (<[i := Some a]> slots)
      | Some (Raise ex, _) => Raise ex
      | Some (Diverge, _) => Diverge
      | None => join order' outs slots
      end
  end.

Definition gather {A B} (f : A -> M B) (xs : list A) : M (list B) :=
  fun s =>
    let n := length xs in
    let outs := imap (fun i x => run_task (f x) (clock s + 2 * i)) xs in
    let s' := MkState (clock s + 2 * n) (trace s ++ issued outs) in
    match join (gather_order w (clock s) n) outs (replicate n None) with
    | Ok slots =>
        match mapM id slots with
        | Some results => (Ok results, s')
        | None => (Diverge, s')
        end
    | Raise ex => (Raise ex, s')
    | Diverge => (Diverge, s')
    end.

Definition get_article_summaries (URLsToBrowse : string) : M (list pyval) :=
  URLsToBrowse <- loads URLsToBrowse ;;
  URLsToBrowse <- lift (py_iter URLsToBrowse) ;;
  results <- gather process_url URLsToBrowse ;;
  ret (List.filter (fun summary => negb (is_none summary)) results).

Definition is_background_info_sufficient (Summaries : list pyval) : M bool :=
  let strSummaries := json_dumps_indent4 rt (PList Summaries) in
  let system_preamble :=
    prompts rt "is_background_info_sufficient" +:+ strSummaries
    +:+ original_system_prompt in
  response <- send_private_chat ByIsBackgroundInfoSufficient
                (Some system_preamble) None ;;
  if String.eqb response "More information needed." then ret false
  else ret true.

(** The evidence preamble returned once the summaries are sufficient. *)
Definition background_info (Summaries : list pyval) : string :=
  prompts rt "background_info_preamble"
  +:+ json_dumps_indent4 rt (PList Summaries)
  +:+ nl +:+ nl +:+ "Original System Prompt:" +:+ nl +:+ nl.

(** The [while NeedsMoreSummaries] loop; [fuel] bounds the number of
    rounds that are run, and [Summaries] is the loop variable. *)
Fixpoint research_loop (fuel : nat) (page_instance_id : string)
    (Summaries : option (list pyval)) : M (option string) :=
  match fuel with
  | O => lift Diverge
  | S fuel =>
      searches <- identify_searches None ;;
      if is_none searches then
        set_status_message "Generating answer..." page_instance_id ;;;
        ret None
      else
        set_status_message "Searching..." page_instance_id ;;;
        URLsToBrowse <- get_urls_to_browse searches ;;
        if String.eqb URLsToBrowse "Search error." then
          ret (Some "Search error.")
        else
          set_status_message "Browsing and analyzing..." page_instance_id ;;;
          newSummaries <- get_article_summaries URLsToBrowse ;;
          let Summaries :=
            match Summaries with
            | None => newSummaries
            | Some Summaries => Summaries ++ newSummaries
            end in
          set_status_message "Double checking sources..." page_instance_id ;;;
          AreWeDone <- is_background_info_sufficient Summaries ;;
          if AreWeDone then
            set_status_message "Generating answer..." page_instance_id ;;;
            ret (Some (background_info Summaries))
          else
            research_loop fuel page_instance_id (Some Summaries)
  end.

Definition search_and_add_background_references (fuel : nat)
    (rb : request_body) : M (option string) :=
  page_instance_id <-
    match rb_page_instance_id rb with
    | Some page_instance_id => ret page_instance_id
    | None => raise (KeyError "page_instance_id")
    end ;;
  research_loop fuel page_instance_id None.

(** [system_preamble != "Search error."], for a preamble that is
    [None] or a string. *)
Definition differs_from (system_preamble : option string) (lit : string) : bool :=
  match system_preamble with
  | Some p => negb (String.eqb p lit)
  | None => true
  end.

Definition conversation_internal (fuel : nat) (rb : request_body)
  : M http_response :=
  try_except
    (system_preamble <- search_and_add_background_references fuel rb ;;
     result <-
       (if differs_from system_preamble "Search error." then
          stream_chat_request system_preamble
        else
          stream_chat_request (Some (prompts rt "search_error_preamble"))) ;;
     ret (StreamResponse result))
    (fun ex =>
       match exn_status_code ex with
       | Some status_code => ret (ErrorResponse ex status_code)
       | None => ret (ErrorResponse ex 500)
       end).

End Program.

(** ** A sample runtime

    A concrete [Runtime] for the worked examples.  Its [json_loads] and
    [json_dumps] cover the JSON documents the examples use: arrays and
    objects built from escape-free string literals and the three
    literals [null], [true], [false]; on those they agree with Python's
    [json] module.  Other documents are rejected. *)

Module Sample.

Definition is_ws (c : ascii) : bool :=
  (c =? " ")%char || (c =? "009")%char || (c =? "010")%char || (c =? "013")%char.

Fixpoint skip_ws (l : list ascii) : list ascii :=
  match l with
  | c :: r => if is_ws c then skip_ws r else l
  | [] => []
  end.

(** The rest of a string literal, after its opening quote. *)
Fixpoint scan_string (l : list ascii) (acc : list ascii)
  : option (string * list ascii) :=
  match l with
  | [] => None
  | c :: r =>
      if (c =? "034")%char then Some (string_of_list_ascii (rev acc), r)
      else if (c =? "\")%char then None
      else if (nat_of_ascii c <? 32)%nat then None
      else scan_string r (c :: acc)
  end.

(** [d[k] = v] on an insertion-ordered dict. *)
Fixpoint dict_set (k : string) (v : pyval) (d : dict) : dict :=
  match d with
  | [] => [(k, v)]
  | (k', v') :: rest =>
      if String.eqb k' k then (k', v) :: rest else (k', v') :: dict_set k v rest
  end.

Fixpoint parse_value (fuel : nat) (l : list ascii) : option (pyval * list ascii) :=
  match fuel with
  | O => None
  | S fuel =>
      let parse_items :=
        fix items (n : nat) (l : list ascii) (acc : list pyval)
          : option (pyval * list ascii) :=
          match n with
          | O => None
          | S n =>
              match parse_value fuel l with
              | Some (v, l1) =>
                  match skip_ws l1 with
                  | c :: l2 =>
                      if (c =? ",")%char then items n l2 (acc ++ [v])
                      else if (c =? "]")%char then Some (PList (acc ++ [v]), l2)
                      else None
                  | [] => None
                  end
              | None => None
              end
          end in
      let parse_members :=
        fix members (n : nat) (l : list ascii) (acc : dict)
          : option (pyval * list ascii) :=
          match n with
          | O => None
          | S n =>
              match skip_ws l with
              | q :: l0 =>
                  if (q =? "034")%char then
                    match scan_string l0 [] with
                    | Some (k, l1) =>
                        match skip_ws l1 with
                        | c :: l2 =>
                            if (c =? ":")%char then
                              match parse_value fuel l2 with
                              | Some (v, l3) =>
                                  match skip_ws l3 with
                                  | c' :: l4 =>
                                      if (c' =? ",")%char
                                      then members n l4 (dict_set k v acc)
                                      else if (c' =? "}")%char
                                      then Some (PDict (dict_set k v acc), l4)
                                      else None
                                  | [] => None
                                  end
                              | None => None
                              end
                            else None
                        | [] => None
                        end
                    | None => None
                    end
                  else None
              | [] => None
              end
          end in
      match skip_ws l with
      | [] => None
      | c :: r =>
          if (c =? "[")%char then
            match skip_ws r with
            | c' :: r' =>
                if (c' =? "]")%char then Some (PList [], r')
                else parse_items (length r) r []
            | [] => None
            end
          else if (c =? "{")%char then
            match skip_ws r with
            | c' :: r' =>
                if (c' =? "}")%char then Some (PDict [], r')
                else parse_members (length r) r []
            | [] => None
            end
          else if (c =? "034")%char then
            match scan_string r [] with
            | Some (s, r') => Some (PStr s, r')
            | None => None
            end
          else
            match c :: r with
            | "n" :: "u" :: "l" :: "l" :: r' => Some (PNone, r')
            | "t" :: "r" :: "u" :: "e" :: r' => Some (PBool true, r')
            | "f" :: "a" :: "l" :: "s" :: "e" :: r' => Some (PBool false, r')
            | _ => None
            end
      end
  end%char.

Definition loads (text : string) : pyval + exn :=
  match parse_value (S (String.length text)) (list_ascii_of_string text) with
  | Some (v, rest) =>
      match skip_ws rest with
      | [] => inl v
      | _ => inr (JSONDecodeError text)
      end
  | None => inr (JSONDecodeError text)
  end.

Definition join_with (sep : string) (parts : list string) : string :=
  match parts with
  | [] => ""
  | p :: ps => fold_left (fun acc q => acc +:+ sep +:+ q) ps p
  end.

Fixpoint dumps (v : pyval) : string :=
  match v with
  | PNone => "null"
  | PBool true => "true"
  | PBool false => "false"
  | PInt n => pretty n
  | PFloat lexeme => lexeme
  | PStr s => dq +:+ s +:+ dq
  | PList items => "[" +:+ join_with ", " (map dumps items) +:+ "]"
  | PDict entries =>
      "{" +:+ join_with ", "
                (map (fun kv => dq +:+ fst kv +:+ dq +:+ ": " +:+ dumps (snd kv))
                     entries)
      +:+ "}"
  end.

Fixpoint pad (level : nat) : string :=
  match level with
  | O => ""
  | S level => "    " +:+ pad level
  end.

Fixpoint dumps_indent4 (level : nat) (v : pyval) : string :=
  match v with
  | PList [] => "[]"
  | PList items =>
      "[" +:+ nl +:+ pad (S level)
      +:+ join_with ("," +:+ nl +:+ pad (S level))
            (map (dumps_indent4 (S level)) items)
      +:+ nl +:+ pad level +:+ "]"
  | PDict [] => "{}"
  | PDict entries =>
      "{" +:+ nl +:+ pad (S level)
      +:+ join_with ("," +:+ nl +:+ pad (S level))
            (map (fun kv => dq +:+ fst kv +:+ dq +:+ ": "
                            +:+ dumps_indent4 (S level) (snd kv))
                 entries)
      +:+ nl +:+ pad level +:+ "}"
  | _ => dumps v
  end.

(** The instruction table: each key stands for its own text. *)
Definition prompt_table (key : string) : string :=
  "<" +:+ key +:+ ">".

Definition rt : Runtime :=
  MkRuntime loads dumps (dumps_indent4 0) prompt_table (fun content => content).

(** ["a"] *)
Definition quoted (s : string) : string := dq +:+ s +:+ dq.

(** The document [["a", "b", ...]]. *)
Definition array_text (items : list string) : string :=
  "[" +:+ join_with ", " (map quoted items) +:+ "]".

(** Does [s] start with [p]? *)
Fixpoint starts_with (p s : string) : bool :=
  match p with
  | EmptyString => true
  | String a p' =>
      match s with
      | String b s' => Ascii.eqb a b && starts_with p' s'
      | EmptyString => false
      end
  end.

(** A chat endpoint that tells the four kinds of planner question
    apart by the instruction they carry: [plan] answers
    [identify_searches], [verdict] answers
    [is_background_info_sufficient], [urls] answers
    [get_urls_to_browse], and [summary] answers the summarisation of a
    page, given the whole instruction. *)
Definition chat_of (plan verdict urls : nat -> string + exn)
    (summary : string -> string + exn)
    (t : nat) (system_preamble system_message : option string) : string + exn :=
  match system_preamble, system_message with
  | Some p, _ =>
      if starts_with "<identify_" p then plan t else verdict t
  | None, Some m =>
      if starts_with "<get_urls_to_browse>" m then urls t else summary m
  | None, None => inr (ExternalError "empty instruction" None)
  end.

(** Does the instruction [m] mention [u]? *)
Definition mentions (u m : string) : bool :=
  match String.index 0 u m with
  | Some _ => true
  | None => false
  end.

Definition page_instance : string := "page-1".

(** The registry while the observer of [page_instance] is connected. *)
Definition connected : gmap string nat := ws_register page_instance 7 ∅.

(** The registry after that observer's listener has cleaned up. *)
Definition disconnected : gmap string nat := ws_unregister page_instance connected.

Definition request : request_body := MkRequest (Some page_instance).

Definition start : state := MkState 0 [].

(** A world in which every service answers and every message is
    delivered; the examples override single services. *)
Definition calm (chat : nat -> option string -> option string -> string + exn)
    (bing : nat -> pyval -> option (list dict))
    (fetch : nat -> pyval -> (Z * string) + exn) : World :=
  MkWorld chat bing fetch
    (fun _ => connected)
    (fun _ _ _ => None)
    (fun _ _ => inl "answer")
    (fun _ n => seq 0 n).

(** *** Worlds for the search examples *)

Definition result_a : dict :=
  [ ("name", PStr "A"); ("id", PStr "https://api/#1"); ("url", PStr "http://a");
    ("language", PStr "en"); ("snippet", PStr "about a") ].

Definition result_b : dict :=
  [ ("name", PStr "B"); ("url", PStr "http://b"); ("isNavigational", PBool false) ].

(** The provider knows the queries ["a"] and ["b"] and fails on
    every other one. *)
Definition bing_ab (t : nat) (search : pyval) : option (list dict) :=
  if eq_str search "a" then Some [result_a]
  else if eq_str search "b" then Some [result_b]
  else None.

Definition no_chat (t : nat) (system_preamble system_message : option string)
  : string + exn :=
  inr (ExternalError "unused" None).

Definition no_fetch (t : nat) (url : pyval) : (Z * string) + exn :=
  inr (ExternalError "unused" None).

Definition search_world : World := calm no_chat bing_ab no_fetch.

(** *** Worlds for the status-channel examples *)

(** The planner proposes one query. *)
Definition plan_q (t : nat) : string + exn := inl (array_text ["q"]).

Definition silent (t : nat) : string + exn := inr (ExternalError "unused" None).

Definition planning_chat : nat -> option string -> option string -> string + exn :=
  chat_of plan_q silent silent (fun _ => inr (ExternalError "unused" None)).

(** The observer has gone and its listener has removed the sink. *)
Definition lost_observer : World :=
  MkWorld planning_chat bing_ab no_fetch
    (fun _ => disconnected)
    (fun _ _ _ => None)
    (fun _ _ => inl "answer")
    (fun _ n => seq 0 n).

(** The observer has gone but its sink is still registered: sending
    on it fails. *)
Definition closed_socket : exn := ExternalError "connection closed" None.

Definition broken_pipe : World :=
  MkWorld planning_chat bing_ab no_fetch
    (fun _ => connected)
    (fun _ _ _ => Some closed_socket)
    (fun _ _ => inl "answer")
    (fun _ n => seq 0 n).

(** *** Worlds for the planning examples *)

Definition chat_plan (plan : string) : nat -> option string -> option string -> string + exn :=
  chat_of (fun _ => inl plan) silent silent
    (fun _ => inr (ExternalError "unused" None)).

(** The planner answers with the no-search sentinel. *)
Definition no_search_needed : World :=
  calm (chat_plan "No searches required.") bing_ab no_fetch.

(** The planner answers with an empty completion. *)
Definition empty_plan : World := calm (chat_plan "") bing_ab no_fetch.

(** The planner answers with text that is not a JSON list. *)
Definition garbled_plan : World := calm (chat_plan "[what") bing_ab no_fetch.

(** The planner proposes a query the provider fails on. *)
Definition failing_search : World :=
  calm (chat_plan (array_text ["zzz"])) bing_ab no_fetch.

(** *** Worlds for the browsing examples *)

Definition three_urls : string :=
  array_text ["http://a"; "http://b"; "http://c"].

(** Page [a] and page [c] are served, page [b] is not found. *)
Definition fetch_abc (t : nat) (url : pyval) : (Z * string) + exn :=
  if eq_str url "http://a" then inl (200%Z, "page a")
  else if eq_str url "http://c" then inl (200%Z, "page c")
  else inl (404%Z, "").

Definition summarise_abc (instruction : string) : string + exn :=
  if mentions "http://a" instruction then inl "sum a" else inl "sum c".

Definition rate_limited : exn := ExternalError "rate limit" (Some 429%Z).

(** The summarisation of page [c] is refused by the model endpoint. *)
Definition summarise_ab (instruction : string) : string + exn :=
  if mentions "http://a" instruction then inl "sum a" else inr rate_limited.

(** The tasks complete in the reverse of their submission order. *)
Definition last_first (t n : nat) : list nat := rev (seq 0 n).

Definition three_pages : World :=
  MkWorld (chat_of silent silent silent summarise_abc) bing_ab fetch_abc
    (fun _ => connected) (fun _ _ _ => None) (fun _ _ => inl "answer")
    last_first.

Definition failing_summary : World :=
  MkWorld (chat_of silent silent silent summarise_ab) bing_ab fetch_abc
    (fun _ => connected) (fun _ _ _ => None) (fun _ _ => inl "answer")
    last_first.

(** Every page is served. *)
Definition every_page : World :=
  calm (chat_of silent silent silent summarise_abc) bing_ab
    (fun _ _ => inl (200%Z, "page")).

Definition entry (u summary : string) : pyval :=
  PDict [("URL", PStr u); ("summary", PStr summary)].

(** *** Worlds for whole runs *)

Definition plan_a (t : nat) : string + exn := inl (array_text ["a"]).

Definition browse_a (t : nat) : string + exn := inl (array_text ["http://a"]).

Definition browse_ab (t : nat) : string + exn :=
  inl (array_text ["http://a"; "http://b"]).

(** The first sufficiency check, which is the ninth external call of
    the run, asks for more; the second is satisfied. *)
Definition verdict_second_time (t : nat) : string + exn :=
  if (t <? 9)%nat then inl "More information needed." else inl "Yes.".

Definition two_rounds : World :=
  calm (chat_of plan_a verdict_second_time browse_a summarise_abc)
    bing_ab fetch_abc.

(** The model never reports sufficiency. *)
Definition never_satisfied (t : nat) : string + exn :=
  inl "More information needed.".

Definition restless : World :=
  MkWorld (chat_of plan_a never_satisfied browse_ab summarise_abc)
    bing_ab fetch_abc
    (fun _ => connected) (fun _ _ _ => None) (fun _ _ => inl "answer")
    last_first.

End Sample.

(** ** Predicates used in the statements *)

(** Membership in [proparray], as a test. *)
Definition denied (key : string) : bool :=
  existsb (String.eqb key) proparray.

(** [entries] is [obj] without the fields named in [fields]: none of
    them is left, every other field is the provider's, and the order of
    the fields is kept. *)
Record stripped_of (fields : list string) (obj entries : dict) : Prop := {
  denied_absent :
    forall prop, In prop fields ->
      dict_mem prop entries = false /\ dict_get prop entries = None;
  others_verbatim :
    forall key, ~ In key fields -> dict_get key entries = dict_get key obj;
  order_kept :
    entries
    = List.filter (fun kv => negb (existsb (String.eqb (fst kv)) fields)) obj
}.

(** ** The search step as the specification words it

    Follows the specification's words, not the source: one search call
    per query, in list order, each query's results accumulated into one
    array; the sentinel at the first provider failure, and otherwise
    the concatenation of all queries' results, stripped. *)
Fixpoint execute_searches_as_specified (w : World) (searches : list pyval)
    (allresults : list dict) : M pyval :=
  match searches with
  | [] => ret (PList (map PDict (map strip_obj allresults)))
  | search :: rest =>
      (results <- search_bing w search ;;
       match results with
       | None => ret (PStr "Search error.")
       | Some results => execute_searches_as_specified w rest (allresults ++ results)
       end)%py
  end.

(** ** The bracket repair as the specification words it

    Follows the specification's words: prepend ["["] when the first
    character is not ["["], append ["]"] when the last character is not
    ["]"]. *)
Definition with_brackets (response : string) : string :=
  let opened :=
    match response with
    | String c _ => if Ascii.eqb c "[" then response else "[" +:+ response
    | EmptyString => "[" +:+ response
    end in
  if last_differs opened "]" then opened +:+ "]" else opened.

(** The state after one external call [ev]. *)
Definition after (s : state) (ev : event) : state :=
  MkState (S (clock s)) (trace s ++ [ev]).

(** ** The instructions the planner is sent *)

(** The first-round planning instruction. *)
Definition first_plan (rt : Runtime) : string := prompts rt "identify_searches".

(** The later-round planning instruction, which embeds the summaries. *)
Definition additional_plan (rt : Runtime) (Summaries : list pyval) : string :=
  prompts rt "identify_additional_searches"
  +:+ json_dumps_indent4 rt (PList Summaries)
  +:+ original_system_prompt.

(** The instruction of [get_urls_to_browse]. *)
Definition browse_instruction (rt : Runtime) (searchresults : pyval) : string :=
  prompts rt "get_urls_to_browse"
  +:+ json_dumps_indent4 rt searchresults
  +:+ original_system_prompt.

(** The instruction of [is_background_info_sufficient]. *)
Definition sufficiency_instruction (rt : Runtime) (Summaries : list pyval) : string :=
  prompts rt "is_background_info_sufficient"
  +:+ json_dumps_indent4 rt (PList Summaries)
  +:+ original_system_prompt.

(** [Summaries] after a round that gathered [newSummaries]. *)
Definition accumulated (Summaries : option (list pyval))
    (newSummaries : list pyval) : list pyval :=
  match Summaries with
  | None => newSummaries
  | Some Summaries => Summaries ++ newSummaries
  end.

(** The result of [json.loads], as an outcome. *)
Definition parsed (rt : Runtime) (text : string) : res pyval :=
  match json_loads rt text with
  | inl v => Ok v
  | inr ex => Raise ex
  end.

(** The planning instructions found in a trace, in order. *)
Definition planning_requests (tr : list event) : list (option string) :=
  omap (fun ev =>
          match ev with
          | EvChat ByIdentifySearches system_preamble _ => Some system_preamble
          | _ => None
          end) tr.

(** The response [conversation_internal] builds for an exception. *)
Definition error_response (ex : exn) : http_response :=
  match exn_status_code ex with
  | Some status_code => ErrorResponse ex status_code
  | None => ErrorResponse ex 500
  end.

(** ** The pages of a batch *)

(** How one page fares, for the task whose first call has identity
    [t]: either the fetch answers with a status other than 200 and the
    page yields nothing, or it answers 200, the summarisation call
    returns, and the entry text built from the URL and the summary
    parses to the pair of both. *)
Inductive page_outcome (rt : Runtime) (w : World) (t : nat) (u : string)
  : option pyval -> Prop :=
| page_dropped status_code content :
    fetch_reply w t (PStr u) = inl (status_code, content) ->
    status_code <> 200%Z ->
    page_outcome rt w t u None
| page_summarised content summary :
    fetch_reply w t (PStr u) = inl (200%Z, content) ->
    chat_reply w (S t) None
      (Some (summary_prompt u (paragraphs_text rt content))) = inl summary ->
    json_loads rt (summary_text rt u summary)
      = inl (PDict [("URL", PStr u); ("summary", PStr summary)]) ->
    page_outcome rt w t u
      (Some (PDict [("URL", PStr u); ("summary", PStr summary)])).

(** The pages of a URL list, the first task starting at [t] and each
    task owning two call identities. *)
Inductive pages_outcome (rt : Runtime) (w : World)
  : nat -> list string -> list (option pyval) -> Prop :=
| pages_nil t : pages_outcome rt w t [] []
| pages_cons t u urls o outs :
    page_outcome rt w t u o ->
    pages_outcome rt w (t + 2) urls outs ->
    pages_outcome rt w t (u :: urls) (o :: outs).

(** The URLs whose page yielded a summary, in input order. *)
Fixpoint kept_urls (urls : list string) (outs : list (option pyval)) : list string :=
  match urls, outs with
  | u :: urls, Some _ :: outs => u :: kept_urls urls outs
  | _ :: urls, None :: outs => kept_urls urls outs
  | _, _ => []
  end.

(** The number of pages that yielded nothing. *)
Fixpoint dropped (outs : list (option pyval)) : nat :=
  match outs with
  | [] => 0
  | None :: outs => S (dropped outs)
  | Some _ :: outs => dropped outs
  end.

(** [summary["URL"]] of a summary entry. *)
Definition summary_url (summary : pyval) : option pyval :=
  match summary with
  | PDict entries => dict_get "URL" entries
  | _ => None
  end.

(** The value a task returns for a page outcome. *)
Definition task_value (o : option pyval) : pyval :=
  match o with
  | Some v => v
  | None => PNone
  end.

(** ** What a computation adds to the trace *)

(** [m] only appends to the trace, and every call it appends
    satisfies [P]. *)
Definition emits {A} (P : event -> Prop) (m : M A) : Prop :=
  forall s r s',
    m s = (r, s') ->
    exists evs, trace s' = trace s ++ evs /\ Forall P evs.

(** A planning call that carries the first-round instruction and no
    summaries; calls of the other kinds are unconstrained. *)
Definition plans_from_scratch (rt : Runtime) (ev : event) : Prop :=
  match ev with
  | EvChat ByIdentifySearches system_preamble system_message =>
      system_preamble = Some (first_plan rt) /\ system_message = None
  | _ => True
  end.

(** * Further functions of app.py *)

(** ** [concatenate_json_arrays] *)

(** Is [c] one of [chars]? *)
Definition in_chars (chars : list ascii) (c : ascii) : bool :=
  existsb (Ascii.eqb c) chars.

(** [s.lstrip(chars)] *)
Fixpoint lstrip (chars : list ascii) (s : string) : string :=
  match s with
  | String c rest => if in_chars chars c then lstrip chars rest else s
  | EmptyString => EmptyString
  end.

(** [s.rstrip(chars)] *)
Fixpoint rstrip (chars : list ascii) (s : string) : string :=
  match s with
  | EmptyString => EmptyString
  | String c rest =>
      match rstrip chars rest with
      | EmptyString =>
          if in_chars chars c then EmptyString else String c EmptyString
      | kept => String c kept
      end
  end.

(** The characters [rstrip] is given: a closing bracket, newline,
    carriage return, space. *)
Definition closing_chars : list ascii := ["]"; "010"; "013"; " "]%char.

(** The characters [lstrip] is given: an opening bracket, newline,
    carriage return, space. *)
Definition opening_chars : list ascii := ["["; "010"; "013"; " "]%char.

Definition concatenate_json_arrays (json_array1 json_array2 : string) : string :=
  let json_array1 := rstrip closing_chars json_array1 in
  let json_array2 := lstrip opening_chars json_array2 in
  json_array1 +:+ ", " +:+ json_array2.

(** Every character of [s] is one of [chars]. *)
Fixpoint only_chars (chars : list ascii) (s : string) : bool :=
  match s with
  | EmptyString => true
  | String c rest => in_chars chars c && only_chars chars rest
  end.

(** ** The websocket listener [ws] *)

(** What one [websocket.receive()] does: it yields a message, raises,
    or is cancelled when the connection is torn down. *)
Inductive received : Type :=
| Message
| ReceiveFailed (ex : exn)
| ReceiveCancelled.

(** How the listener stands: it returned, it was left by an exception,
    it was cancelled, or it is still receiving. *)
Inductive ws_outcome : Type :=
| WsReturned
| WsRaised (ex : exn)
| WsCancelled
| WsListening.

(** The [while True: await websocket.receive()] loop: the first
    receive that does not yield a message ends it; [fuel] bounds the
    number of messages received, [k] counts them. *)
Fixpoint ws_receive (fuel : nat) (inbox : nat -> received) (k : nat)
  : option received :=
  match fuel with
  | O => None
  | S fuel =>
      match inbox k with
      | Message => ws_receive fuel inbox (S k)
      | ended => Some ended
      end
  end.

(** The listener, as a change of the [clients] registry.  The sink is
    registered and the greeting sent before the [try]; the [except]
    catches what [receive] raises, a cancellation passes through it,
    and the [finally] unregisters in both cases. *)
Definition ws (fuel : nat) (page_instance_id : string) (sink : nat)
    (greeting : option exn) (inbox : nat -> received)
    (clients : gmap string nat) : ws_outcome * gmap string nat :=
  let clients := ws_register page_instance_id sink clients in
  match greeting with
  | Some ex => (WsRaised ex, clients)
  | None =>
      match ws_receive fuel inbox 0 with
      | Some (ReceiveFailed _) =>
          (WsReturned, ws_unregister page_instance_id clients)
      | Some ReceiveCancelled =>
          (WsCancelled, ws_unregister page_instance_id clients)
      | Some Message => (WsListening, clients)
      | None => (WsListening, clients)
      end
  end.

(** ** [process_raw_response] *)

(** [s.split('\n')] *)
Fixpoint split_lines (s : string) : list string :=
  match s with
  | EmptyString => [EmptyString]
  | String c rest =>
      if Ascii.eqb c "010" then EmptyString :: split_lines rest
      else
        match split_lines rest with
        | line :: lines => String c line :: lines
        | [] => [String c EmptyString]
        end
  end.

(** [not line.strip()]: the line holds white space only.  A string
    stands for its UTF-8 encoding, so the white-space characters beyond
    ASCII are matched as byte sequences: U+0085, U+00A0, U+1680,
    U+2000 to U+200A, U+2028, U+2029, U+202F, U+205F and U+3000. *)
Fixpoint all_space (line : string) : bool :=
  match line with
  | EmptyString => true
  | String c rest =>
      let n := nat_of_ascii c in
      if ((9 <=? n) && (n <=? 13)) || ((28 <=? n) && (n <=? 32)) then
        all_space rest
      else
        match rest with
        | String d rest1 =>
            let m := nat_of_ascii d in
            if (n =? 194) && ((m =? 133) || (m =? 160)) then all_space rest1
            else
              match rest1 with
              | String e rest2 =>
                  let k := nat_of_ascii e in
                  if ((n =? 225) && (m =? 154) && (k =? 128))
                     || ((n =? 226) && (m =? 128)
                         && (((128 <=? k) && (k <=? 138))
                             || (k =? 168) || (k =? 169) || (k =? 175)))
                     || ((n =? 226) && (m =? 129) && (k =? 159))
                     || ((n =? 227) && (m =? 128) && (k =? 128))
                  then all_space rest2
                  else false
              | EmptyString => false
              end
        | EmptyString => false
        end
  end%nat.

(** [[json.loads(line) for line in lines]]: the first line that does
    not parse raises. *)
Fixpoint load_lines (rt : Runtime) (lines : list string) : res (list pyval) :=
  match lines with
  | [] => Ok []
  | line :: rest =>
      match json_loads rt line with
      | inl obj =>
          match load_lines rt rest with
          | Ok objs => Ok (obj :: objs)
          | other => other
          end
      | inr ex => Raise ex
      end
  end.

(** [obj.get(key, default)] on a dict. *)
Definition py_get (obj : dict) (key : string) (default : pyval) : pyval :=
  match dict_get key obj with
  | Some v => v
  | None => default
  end.

(** The variables the chunk loop updates: [combined_content], the
    ["model"] and ["history_metadata"] entries of [final_json], and
    [chat_id]. *)
Record raw_state : Type := MkRaw {
  combined_content : string;
  final_model : pyval;
  final_history_metadata : pyval;
  chat_id : pyval
}.

Definition raw_initial : raw_state := MkRaw "" PNone PNone (PStr "").

(** [for message in messages: combined_content += message.get("content", "")].
    The flag is [false] when a statement raised: a message that is not
    a dict has no [get], a content that is not a string cannot be
    appended.  What was appended before stays appended. *)
Fixpoint absorb_messages (messages : list pyval) (combined : string)
  : string * bool :=
  match messages with
  | [] => (combined, true)
  | PDict message :: rest =>
      match py_get message "content" (PStr "") with
      | PStr content => absorb_messages rest (combined +:+ content)
      | _ => (combined, false)
      end
  | _ :: _ => (combined, false)
  end.

(** [for choice in choices: for message in choice.get("messages", []): ...] *)
Fixpoint absorb_choices (choices : list pyval) (combined : string)
  : string * bool :=
  match choices with
  | [] => (combined, true)
  | PDict choice :: rest =>
      match py_iter (py_get choice "messages" (PList [])) with
      | Ok messages =>
          let (combined, ok) := absorb_messages messages combined in
          if ok then absorb_choices rest combined else (combined, false)
      | _ => (combined, false)
      end
  | _ :: _ => (combined, false)
  end.

(** The body of [for obj in json_response], whose [except Exception]
    moves on to the next object. *)
Definition absorb (st : raw_state) (obj : pyval) : raw_state :=
  match obj with
  | PDict obj =>
      let st :=
        if is_none (final_model st) then
          MkRaw (combined_content st) (py_get obj "model" PNone)
                (py_get obj "history_metadata" PNone) (py_get obj "id" PNone)
        else st in
      match py_iter (py_get obj "choices" (PList [])) with
      | Ok choices =>
          MkRaw (absorb_choices choices (combined_content st)).1
                (final_model st) (final_history_metadata st) (chat_id st)
      | _ => st
      end
  | _ => st
  end.

(** The dict [process_raw_response] returns for a loop state. *)
Definition final_json (date : string) (st : raw_state) : pyval :=
  PDict [ ("messages",
           PList [PDict [ ("id", chat_id st); ("role", PStr "assistant");
                          ("content", PStr (combined_content st));
                          ("date", PStr date) ]]);
          ("model", final_model st);
          ("history_metadata", final_history_metadata st) ].

(** [process_raw_response], from its second statement on: the argument
    is the decoded text, and [date] is the time stamp the source
    formats from [datetime.now]. *)
Definition process_raw_response (rt : Runtime) (date : string)
    (decoded_content : string) : res pyval :=
  let lines := split_lines decoded_content in
  match load_lines rt (List.filter (fun line => negb (all_space line)) lines) with
  | Ok json_response => Ok (final_json date (fold_left absorb json_response raw_initial))
  | Raise ex => Raise ex
  | Diverge => Diverge
  end.

(** [combined_json["messages"][0]["content"]], the value
    [send_private_chat] returns. *)
Definition messages_0_content (combined_json : pyval) : res pyval :=
  match combined_json with
  | PDict entries =>
      match dict_get "messages" entries with
      | Some (PList (PDict message :: _)) =>
          match dict_get "content" message with
          | Some content => Ok content
          | None => Raise (KeyError "content")
          end
      | Some (PList []) => Raise IndexError
      | Some _ => Raise TypeError
      | None => Raise (KeyError "messages")
      end
  | _ => Raise TypeError
  end.

(** The text every line of which is one chunk: what the chunks of a
    response add to [combined_content]. *)
Definition chunks_content (json_response : list pyval) : string :=
  combined_content (fold_left absorb json_response raw_initial).

(** A chunk of the shape the completion endpoint streams: an object
    whose choices are objects whose messages are objects with a string
    content (or none). *)
Definition plain_message (message : pyval) : option string :=
  match message with
  | PDict entries =>
      match py_get entries "content" (PStr "") with
      | PStr content => Some content
      | _ => None
      end
  | _ => None
  end.

(** ** The messages sent to the model *)

(** The two settings the messages depend on:
    [app_settings.azure_openai.system_message], and whether
    [app_settings.datasource] is set. *)
Record settings : Type := MkSettings {
  st_system_message : string;
  st_datasource : bool
}.

(** [message.get("role") == 'tool'] *)
Definition role_is_tool (message : dict) : bool :=
  match dict_get "role" message with
  | Some role => eq_str role "tool"
  | None => false
  end.

(** The filter of [send_chat_request]: the messages whose role is not
    ['tool'], which become [request_body['messages']]. *)
Definition filtered_messages (messages : list dict) : list dict :=
  List.filter (fun message => negb (role_is_tool message)) messages.

(** The [system_message] of [prepare_model_args]. *)
Definition system_content (st : settings)
    (system_preamble system_prompt : option string) : string :=
  match system_prompt with
  | Some system_prompt => system_prompt
  | None =>
      match system_preamble with
      | Some system_preamble => system_preamble +:+ nl +:+ nl
      | None => ""
      end +:+ st_system_message st
  end.

(** [for message in request_messages: if message: messages.append(...)]:
    an empty message is skipped, a missing key raises. *)
Fixpoint copy_messages (request_messages : list dict) : res (list dict) :=
  match request_messages with
  | [] => Ok []
  | [] :: rest => copy_messages rest
  | message :: rest =>
      match dict_get "role" message with
      | None => Raise (KeyError "role")
      | Some role =>
          match dict_get "content" message with
          | None => Raise (KeyError "content")
          | Some content =>
              match copy_messages rest with
              | Ok copied => Ok ([("role", role); ("content", content)] :: copied)
              | other => other
              end
          end
      end
  end.

(** The ["messages"] entry of the dict [prepare_model_args] returns. *)
Definition prepare_model_args (st : settings) (request_messages : list dict)
    (system_preamble system_prompt : option string) : res (list dict) :=
  let messages :=
    if negb (st_datasource st) || bool_decide (is_Some system_preamble)
       || bool_decide (is_Some system_prompt)
    then [[("role", PStr "system");
           ("content", PStr (system_content st system_preamble system_prompt))]]
    else [] in
  match copy_messages request_messages with
  | Ok copied => Ok (messages ++ copied)
  | other => other
  end.

(** The messages [send_chat_request] hands to the completion endpoint. *)
Definition send_chat_request (st : settings) (messages : list dict)
    (system_preamble system_prompt : option string) : res (list dict) :=
  prepare_model_args st (filtered_messages messages) system_preamble system_prompt.

(** [messages[-1:]] *)
Definition last_slice {A} (messages : list A) : list A :=
  match last messages with
  | Some message => [message]
  | None => []
  end.

(** The messages a private chat hands to the completion endpoint:
    [send_private_chat] keeps the last message of the conversation and
    goes through [stream_chat_request] and [send_chat_request]. *)
Definition private_chat_messages (st : settings) (messages : list dict)
    (system_preamble system_message : option string) : res (list dict) :=
  send_chat_request st (last_slice messages) system_preamble system_message.

(** ** [generate_title] *)

Definition title_prompt : string :=
  "Summarize the conversation so far into a 4-word or less title. "
  +:+ "Do not use any quotation marks or punctuation. "
  +:+ "Do not include any other commentary or description.".

(** [[{"role": msg["role"], "content": msg["content"]} for msg in ...]] *)
Fixpoint role_content (conversation_messages : list dict) : res (list dict) :=
  match conversation_messages with
  | [] => Ok []
  | msg :: rest =>
      match dict_get "role" msg with
      | None => Raise (KeyError "role")
      | Some role =>
          match dict_get "content" msg with
          | None => Raise (KeyError "content")
          | Some content =>
              match role_content rest with
              | Ok messages => Ok ([("role", role); ("content", content)] :: messages)
              | other => other
              end
          end
      end
  end.

(** [messages[-2]] *)
Definition second_last {A} (messages : list A) : option A :=
  match rev messages with
  | _ :: x :: _ => Some x
  | _ => None
  end.

(** [generate_title]; [completion] is the title request to the model,
    with everything its [try] block can raise. *)
Definition generate_title (completion : list dict -> pyval + exn)
    (conversation_messages : list dict) : res pyval :=
  match role_content conversation_messages with
  | Ok messages =>
      let messages :=
        messages ++ [[("role", PStr "user"); ("content", PStr title_prompt)]] in
      match completion messages with
      | inl title => Ok title
      | inr _ =>
          match second_last messages with
          | Some message =>
              match dict_get "content" message with
              | Some content => Ok content
              | None => Raise (KeyError "content")
              end
          | None => Raise IndexError
          end
      end
  | Raise ex => Raise ex
  | Diverge => Diverge
  end.

(** ** Well-formed chunks *)

Definition concat_strings (parts : list string) : string :=
  fold_right String.append "" parts.

(** A choice whose messages are objects with a string content (or
    none), and the text they hold together. *)
Definition choice_says (choice : pyval) (text : string) : Prop :=
  exists entries messages parts,
    choice = PDict entries
    /\ py_get entries "messages" (PList []) = PList messages
    /\ Forall2 (fun message part => plain_message message = Some part)
               messages parts
    /\ text = concat_strings parts.

(** A chunk whose choices are such choices, and the text they hold. *)
Definition chunk_says (obj : pyval) (text : string) : Prop :=
  exists entries choices texts,
    obj = PDict entries
    /\ py_get entries "choices" (PList []) = PList choices
    /\ Forall2 choice_says choices texts
    /\ text = concat_strings texts.

(** Does the chunk carry a ["model"] other than [None]? *)
Definition has_model (obj : pyval) : bool :=
  match obj with
  | PDict entries => negb (is_none (py_get entries "model" PNone))
  | _ => false
  end.

(** The line is [line.strip()]-empty or parses. *)
Definition line_loads (rt : Runtime) (line : string) : Prop :=
  all_space line = true \/ exists obj, json_loads rt line = inl obj.

(** The text holds no newline. *)
Fixpoint one_line (s : string) : bool :=
  match s with
  | EmptyString => true
  | String c rest => negb (Ascii.eqb c "010") && one_line rest
  end.

(** *** Sample chunks *)

Module SampleChunks.

(** The line of a streamed chunk with the given id, model and piece of
    content. *)
Definition chunk_line (id model content : string) : string :=
  "{" +:+ Sample.quoted "id" +:+ ": " +:+ Sample.quoted id +:+ ", "
  +:+ Sample.quoted "model" +:+ ": " +:+ Sample.quoted model +:+ ", "
  +:+ Sample.quoted "choices" +:+ ": [{" +:+ Sample.quoted "messages" +:+ ": [{"
  +:+ Sample.quoted "role" +:+ ": " +:+ Sample.quoted "assistant" +:+ ", "
  +:+ Sample.quoted "content" +:+ ": " +:+ Sample.quoted content +:+ "}]}]}".

Definition chunk (id model content : string) : pyval :=
  PDict [ ("id", PStr id); ("model", PStr model);
          ("choices",
           PList [PDict [("messages",
                          PList [PDict [("role", PStr "assistant");
                                        ("content", PStr content)]])]]) ].

End SampleChunks.

(** *** A search result with every metadata field *)

(** A provider result that carries each of the fourteen metadata
    fields among the fields the planner is to see. *)
Definition result_full : dict :=
  [ ("id", PStr "https://api/#7"); ("name", PStr "N"); ("url", PStr "http://n");
    ("datePublished", PStr "2024-01-01"); ("datePublishedDisplayText", PStr "Jan 1");
    ("isFamilyFriendly", PBool true); ("displayUrl", PStr "n"); ("snippet", PStr "about n");
    ("dateLastCrawled", PStr "2024-02-02"); ("primaryImageOfPage", PDict []);
    ("cachedPageUrl", PStr "http://cache/n"); ("language", PStr "en");
    ("isNavigational", PBool false); ("richFacts", PList []); ("noCache", PBool false);
    ("thumbnailUrl", PStr "http://t/n"); ("searchTags", PList []);
    ("deepLinks", PList []) ].

(** The provider answers every query with that one result. *)
Definition full_results : World :=
  Sample.calm Sample.no_chat (fun _ _ => Some [result_full]) Sample.no_fetch.

(** *** No search needed, and nobody listening *)

(** The planner answers with the no-search sentinel, and the observer
    has gone: its listener has removed the sink. *)
Definition unobserved_no_search : World :=
  MkWorld (Sample.chat_plan "No searches required.") Sample.bing_ab Sample.no_fetch
    (fun _ => Sample.disconnected)
    (fun _ _ _ => None)
    (fun _ _ => inl "answer")
    (fun _ n => seq 0 n).

(** ** Rounds and calls of the orchestrator *)

(** The four status messages. *)
Definition status_messages : list string :=
  [ "Generating answer..."; "Searching..."; "Browsing and analyzing...";
    "Double checking sources..." ].

(** The external calls a run for the session [page_instance_id] can
    issue. *)
Inductive orchestrator_call (rt : Runtime) (page_instance_id : string)
  : event -> Prop :=
| call_plan :
    orchestrator_call rt page_instance_id
      (EvChat ByIdentifySearches (Some (first_plan rt)) None)
| call_notify message :
    In message status_messages ->
    orchestrator_call rt page_instance_id (EvNotify message page_instance_id)
| call_search search :
    orchestrator_call rt page_instance_id (EvSearch search)
| call_browse searchresults :
    orchestrator_call rt page_instance_id
      (EvChat ByGetUrlsToBrowse None (Some (browse_instruction rt searchresults)))
| call_fetch url :
    orchestrator_call rt page_instance_id (EvFetch url)
| call_summary URL page_content :
    orchestrator_call rt page_instance_id
      (EvChat ByProcessUrl None (Some (summary_prompt URL page_content)))
| call_sufficiency Summaries :
    orchestrator_call rt page_instance_id
      (EvChat ByIsBackgroundInfoSufficient
         (Some (sufficiency_instruction rt Summaries)) None).

(** What the model is given as system message in a private chat, by
    the function that issues it: the planning and the sufficiency
    check give their instruction as preamble, and it is followed by the
    configured system message; the URL choice and the summarisation
    give theirs as prompt, and it stands alone. *)
Definition system_content_by_caller (st : settings) (ev : event) : Prop :=
  match ev with
  | EvChat caller system_preamble system_prompt =>
      exists instruction,
        match caller with
        | ByIdentifySearches | ByIsBackgroundInfoSufficient =>
            system_preamble = Some instruction /\ system_prompt = None
            /\ system_content st system_preamble system_prompt
               = instruction +:+ nl +:+ nl +:+ st_system_message st
        | ByGetUrlsToBrowse | ByProcessUrl =>
            system_preamble = None /\ system_prompt = Some instruction
            /\ system_content st system_preamble system_prompt = instruction
        end
  | _ => True
  end.

(** The calls of one request for the session [page_instance_id]: those
    of the orchestrator, then at most one streamed completion. *)
Definition request_calls (rt : Runtime) (page_instance_id : string)
    (evs : list event) : Prop :=
  exists calls streamed,
    evs = calls ++ streamed
    /\ Forall (orchestrator_call rt page_instance_id) calls
    /\ (streamed = [] \/ exists system_preamble, streamed = [EvStream system_preamble]).

(** A round that has planned, searched, obtained the URL reply
    [URLsToBrowse] and announced the browsing, from state [s] to
    state [s4]. *)
Definition round_searched (rt : Runtime) (w : World) (page_instance_id : string)
    (s : state) (URLsToBrowse : string) (s4 : state) : Prop :=
  exists searches s1 s2 s3,
    identify_searches rt w None s = (Ok searches, s1)
    /\ is_none searches = false
    /\ set_status_message w "Searching..." page_instance_id s1 = (Ok tt, s2)
    /\ get_urls_to_browse rt w searches s2 = (Ok URLsToBrowse, s3)
    /\ URLsToBrowse <> "Search error."
    /\ set_status_message w "Browsing and analyzing..." page_instance_id s3
       = (Ok tt, s4).

(** A round that has also gathered [newSummaries] and announced the
    sufficiency check, from state [s] to state [s6]. *)
Definition round_browsed (rt : Runtime) (w : World) (page_instance_id : string)
    (s : state) (newSummaries : list pyval) (s6 : state) : Prop :=
  exists URLsToBrowse s4 s5,
    round_searched rt w page_instance_id s URLsToBrowse s4
    /\ get_article_summaries rt w URLsToBrowse s4 = (Ok newSummaries, s5)
    /\ set_status_message w "Double checking sources..." page_instance_id s5
       = (Ok tt, s6).

(** A world in which the first sufficiency check is satisfied. *)
Definition one_round : World :=
  Sample.calm
    (Sample.chat_of Sample.plan_a (fun _ => inl "Yes.") Sample.browse_a
       Sample.summarise_abc)
    Sample.bing_ab Sample.fetch_abc.

(** The planner's URL reply is not JSON. *)
Definition unreadable_urls : World :=
  Sample.calm
    (Sample.chat_of Sample.plan_a (fun _ => inl "Yes.")
       (fun _ => inl "http://a and http://b") Sample.summarise_abc)
    Sample.bing_ab Sample.fetch_abc.

(** A run whose batch of three page tasks is lost: page [b] is not
    found, the summarisation of page [c] is refused, and the task of
    page [c] is the first to complete. *)
Definition lost_batch : World :=
  MkWorld
    (Sample.chat_of Sample.plan_a Sample.never_satisfied
       (fun _ => inl Sample.three_urls) Sample.summarise_ab)
    Sample.bing_ab Sample.fetch_abc
    (fun _ => Sample.connected) (fun _ _ _ => None) (fun _ _ => inl "answer")
    Sample.last_first.

(** ** The status messages of the loop *)

(** A round that ended with the verdict that more information is
    needed: the loop variable becomes [Summaries'] and the next round
    starts in state [s']. *)
Definition round_unsatisfied (rt : Runtime) (w : World) (page_instance_id : string)
    (Summaries : option (list pyval)) (s : state)
    (Summaries' : option (list pyval)) (s' : state) : Prop :=
  exists newSummaries s6,
    round_browsed rt w page_instance_id s newSummaries s6
    /\ is_background_info_sufficient rt w (accumulated Summaries newSummaries) s6
       = (Ok false, s')
    /\ Summaries' = Some (accumulated Summaries newSummaries).

(** [n] such rounds in a row. *)
Inductive rounds_run (rt : Runtime) (w : World) (page_instance_id : string)
  : nat -> option (list pyval) -> state -> option (list pyval) -> state -> Prop :=
| rounds_none Summaries s :
    rounds_run rt w page_instance_id 0 Summaries s Summaries s
| rounds_more n Summaries s Summaries1 s1 Summaries2 s2 :
    round_unsatisfied rt w page_instance_id Summaries s Summaries1 s1 ->
    rounds_run rt w page_instance_id n Summaries1 s1 Summaries2 s2 ->
    rounds_run rt w page_instance_id (S n) Summaries s Summaries2 s2.

(** The five calls of [set_status_message] in
    [search_and_add_background_references]: the round that starts in
    state [s0] with the loop variable [Summaries] reaches, in state
    [s], the call that sends [message]. *)
Inductive notifies (rt : Runtime) (w : World) (page_instance_id : string)
    (Summaries : option (list pyval)) (s0 : state) : string -> state -> Prop :=
| notifies_no_search searches s :
    identify_searches rt w None s0 = (Ok searches, s) ->
    is_none searches = true ->
    notifies rt w page_instance_id Summaries s0 "Generating answer..." s
| notifies_searching searches s :
    identify_searches rt w None s0 = (Ok searches, s) ->
    is_none searches = false ->
    notifies rt w page_instance_id Summaries s0 "Searching..." s
| notifies_browsing searches s1 s2 URLsToBrowse s :
    identify_searches rt w None s0 = (Ok searches, s1) ->
    is_none searches = false ->
    set_status_message w "Searching..." page_instance_id s1 = (Ok tt, s2) ->
    get_urls_to_browse rt w searches s2 = (Ok URLsToBrowse, s) ->
    URLsToBrowse <> "Search error." ->
    notifies rt w page_instance_id Summaries s0 "Browsing and analyzing..." s
| notifies_double_checking URLsToBrowse s4 newSummaries s :
    round_searched rt w page_instance_id s0 URLsToBrowse s4 ->
    get_article_summaries rt w URLsToBrowse s4 = (Ok newSummaries, s) ->
    notifies rt w page_instance_id Summaries s0 "Double checking sources..." s
| notifies_generating newSummaries s6 s :
    round_browsed rt w page_instance_id s0 newSummaries s6 ->
    is_background_info_sufficient rt w (accumulated Summaries newSummaries) s6
      = (Ok true, s) ->
    notifies rt w page_instance_id Summaries s0 "Generating answer..." s.

(** The run of [Sample.two_rounds] in which the send issued as call
    number [k] fails. *)
Definition pipe_breaks_at (k : nat) : World :=
  MkWorld
    (Sample.chat_of Sample.plan_a Sample.verdict_second_time Sample.browse_a
       Sample.summarise_abc)
    Sample.bing_ab Sample.fetch_abc
    (fun _ => Sample.connected)
    (fun t _ _ => if (t =? k)%nat then Some Sample.closed_socket else None)
    (fun _ _ => inl "answer")
    (fun _ n => seq 0 n).
(** * Properties *)

(** ** Running computations step by step *)

Section MonadFacts.

Context {A B : Type}.

Lemma bind_Ok (m : M A) (k : A -> M B) s a s' :
  m s = (Ok a, s') -> bind m k s = k a s'.
Proof. intros H. unfold bind. now rewrite H. Qed.

Lemma bind_Raise (m : M A) (k : A -> M B) s ex s' :
  m s = (Raise ex, s') -> bind m k s = (Raise ex, s').
Proof. intros H. unfold bind. now rewrite H. Qed.

Lemma bind_Diverge (m : M A) (k : A -> M B) s s' :
  m s = (Diverge, s') -> bind m k s = (Diverge, s').
Proof. intros H. unfold bind. now rewrite H. Qed.

Lemma external_inl (ev : event) (reply : nat -> A + exn) s a :
  reply (clock s) = inl a ->
  external ev reply s = (Ok a, MkState (S (clock s)) (trace s ++ [ev])).
Proof. intros H. unfold external. now rewrite H. Qed.

Lemma external_inr (ev : event) (reply : nat -> A + exn) s ex :
  reply (clock s) = inr ex ->
  external ev reply s = (Raise ex, MkState (S (clock s)) (trace s ++ [ev])).
Proof. intros H. unfold external. now rewrite H. Qed.

End MonadFacts.

(** ** Dicts and the stripped fields *)

Lemma dict_del_absent key obj :
  dict_mem key obj = false -> dict_del key obj = obj.
Proof.
  unfold dict_mem, dict_del. induction obj as [|[k v] obj IH]; simpl; [easy|].
  intros H. apply orb_false_iff in H as [Hk Hrest].
  rewrite Hk. simpl. f_equal. now apply IH.
Qed.

Lemma strip_step key obj :
  (if dict_mem key obj then dict_del key obj else obj) = dict_del key obj.
Proof.
  destruct (dict_mem key obj) eqn:E; [easy|]. symmetry. now apply dict_del_absent.
Qed.

Lemma fold_del_filter (props : list string) (obj : dict) :
  fold_left (fun obj prop => if dict_mem prop obj then dict_del prop obj else obj)
            props obj
  = List.filter (fun kv => negb (existsb (String.eqb (fst kv)) props)) obj.
Proof.
  revert obj. induction props as [|p props IH]; intros obj; simpl.
  - induction obj as [|kv obj IHo]; simpl; [easy|]. now rewrite <- IHo.
  - rewrite strip_step, IH. unfold dict_del.
    induction obj as [|[k v] obj IHo]; simpl; [easy|].
    destruct (String.eqb k p) eqn:E; simpl.
    + exact IHo.
    + destruct (existsb (String.eqb k) props); simpl; [exact IHo|].
      now rewrite IHo.
Qed.

(** Stripping keeps exactly the entries whose key is not denied, in
    their original order. *)
Lemma strip_obj_filter obj :
  strip_obj obj = List.filter (fun kv => negb (denied (fst kv))) obj.
Proof. unfold strip_obj, denied. apply fold_del_filter. Qed.

Lemma dict_get_filter_kept (keep : string -> bool) key obj :
  keep key = true ->
  dict_get key (List.filter (fun kv => keep (fst kv)) obj) = dict_get key obj.
Proof.
  intros Hk. induction obj as [|[k v] obj IH]; simpl; [easy|].
  destruct (String.eqb k key) eqn:E.
  - apply String.eqb_eq in E. subst k. rewrite Hk. simpl.
    now rewrite String.eqb_refl.
  - destruct (keep k); simpl; [now rewrite E|easy].
Qed.

Lemma dict_get_filter_dropped (keep : string -> bool) key obj :
  keep key = false ->
  dict_get key (List.filter (fun kv => keep (fst kv)) obj) = None.
Proof.
  intros Hk. induction obj as [|[k v] obj IH]; simpl; [easy|].
  destruct (keep k) eqn:Ek; simpl; [|easy].
  destruct (String.eqb k key) eqn:E; [|easy].
  apply String.eqb_eq in E. congruence.
Qed.

Lemma dict_mem_filter_dropped (keep : string -> bool) key obj :
  keep key = false ->
  dict_mem key (List.filter (fun kv => keep (fst kv)) obj) = false.
Proof.
  intros Hk. unfold dict_mem. induction obj as [|[k v] obj IH]; simpl; [easy|].
  destruct (keep k) eqn:Ek; simpl; [|easy].
  rewrite IH, orb_false_r. apply String.eqb_neq. intros ->. congruence.
Qed.

Lemma denied_In key : denied key = true <-> In key proparray.
Proof.
  unfold denied. rewrite existsb_exists. split.
  - intros (p & Hp & E). apply String.eqb_eq in E. now subst.
  - intros H. exists key. split; [easy|apply String.eqb_refl].
Qed.

Lemma strip_obj_stripped obj : stripped_of proparray obj (strip_obj obj).
Proof.
  rewrite strip_obj_filter. split.
  - intros prop Hin. apply denied_In in Hin. split.
    + apply (dict_mem_filter_dropped (fun k => negb (denied k))). now rewrite Hin.
    + apply (dict_get_filter_dropped (fun k => negb (denied k))). now rewrite Hin.
  - intros key Hout.
    apply (dict_get_filter_kept (fun k => negb (denied k))).
    destruct (denied key) eqn:E; [|easy]. apply denied_In in E. contradiction.
  - reflexivity.
Qed.

(** ** The search step *)

Section SearchFacts.

Variable w : World.

Lemma get_search_results_nil s :
  get_search_results w (PList []) s = (Ok PNone, s).
Proof. reflexivity. Qed.

(** What [get_search_results] does on a non-empty list: one call for
    the first query, whose outcome is returned. *)
Lemma get_search_results_cons search rest s :
  get_search_results w (PList (search :: rest)) s =
  (match bing_reply w (clock s) search with
   | Some results => Ok (PList (map PDict (map strip_obj results)))
   | None => Ok (PStr "Search error.")
   end, MkState (S (clock s)) (trace s ++ [EvSearch search])).
Proof.
  cbv [get_search_results lift bind for_each get_search_results_body
       search_bing external ret py_iter].
  destruct (bing_reply w (clock s) search); reflexivity.
Qed.

(** The queries after the first have no influence on the outcome. *)
Lemma get_search_results_first_only search rest s :
  get_search_results w (PList (search :: rest)) s
  = get_search_results w (PList [search]) s.
Proof. now rewrite !get_search_results_cons. Qed.

Lemma get_search_results_iter searches s :
  get_search_results w searches s =
  match py_iter searches with
  | Ok items => get_search_results w (PList items) s
  | Raise ex => (Raise ex, s)
  | Diverge => (Diverge, s)
  end.
Proof.
  unfold get_search_results at 1. unfold bind at 1. unfold lift at 1.
  destruct (py_iter searches) as [items| |] eqn:E; try reflexivity.
Qed.

(** C3: every item of a batch returned by [get_search_results] is a
    provider result without the fourteen fields [dateLastCrawled],
    [language], [richFacts], [isNavigational], [isFamilyFriendly],
    [displayUrl], [searchTags], [noCache], [cachedPageUrl],
    [datePublishedDisplayText], [datePublished], [id],
    [primaryImageOfPage] and [thumbnailUrl]: none of them is left, every
    other field keeps the provider's value, and the fields keep their
    order.  The batch has one item per provider result, in the
    provider's order. *)
Theorem stripped_fields_never_reach_planner searches s items s' :
  get_search_results w searches s = (Ok (PList items), s') ->
  exists search rest raw,
    py_iter searches = Ok (search :: rest) /\
    bing_reply w (clock s) search = Some raw /\
    Forall2 (fun obj item =>
               exists entries,
                 item = PDict entries
                 /\ stripped_of
                      [ "dateLastCrawled"; "language"; "richFacts";
                        "isNavigational"; "isFamilyFriendly"; "displayUrl";
                        "searchTags"; "noCache"; "cachedPageUrl";
                        "datePublishedDisplayText"; "datePublished"; "id";
                        "primaryImageOfPage"; "thumbnailUrl" ]
                      obj entries)
            raw items.
Proof.
  rewrite get_search_results_iter.
  destruct (py_iter searches) as [[|search rest]| |] eqn:E; try discriminate.
  rewrite get_search_results_cons.
  destruct (bing_reply w (clock s) search) as [raw|] eqn:Hb; [|discriminate].
  intros [= <- _]. exists search, rest, raw.
  split; [reflexivity|]. split; [exact Hb|].
  clear. induction raw as [|obj raw IH]; simpl; constructor; [|exact IH].
  exists (strip_obj obj). split; [reflexivity|].
  exact (strip_obj_stripped obj).
Qed.

End SearchFacts.

Lemma stripped_fields_witness :
  get_search_results full_results (PList [PStr "n"]) Sample.start
  = (Ok (PList [PDict [("name", PStr "N"); ("url", PStr "http://n");
                       ("snippet", PStr "about n"); ("deepLinks", PList [])]]),
     MkState 1 [EvSearch (PStr "n")])
  /\ stripped_of
       [ "dateLastCrawled"; "language"; "richFacts"; "isNavigational";
         "isFamilyFriendly"; "displayUrl"; "searchTags"; "noCache";
         "cachedPageUrl"; "datePublishedDisplayText"; "datePublished"; "id";
         "primaryImageOfPage"; "thumbnailUrl" ]
       result_full
       [("name", PStr "N"); ("url", PStr "http://n");
        ("snippet", PStr "about n"); ("deepLinks", PList [])].
Proof.
  split; [reflexivity|].
  destruct (stripped_fields_never_reach_planner full_results
              (PList [PStr "n"]) Sample.start _ _ eq_refl)
    as (search & rest & raw & Hit & Hb & Hall).
  injection Hb as <-.
  inversion Hall as [|obj item raw' items' (entries & He & Hs) Hrest]; subst.
  injection He as <-. exact Hs.
Defined.

(** C1, at the input [["a", "b"]]: the source answers with the results
    of ["a"] alone after a single search call, where the specified
    search step issues both calls and returns both results; and when
    the provider fails on the second query the source still returns the
    first query's results instead of the sentinel. *)
Theorem get_search_results_returns_inside_loop :
  get_search_results Sample.search_world (PList [PStr "a"; PStr "b"]) Sample.start
  = (Ok (PList [PDict [("name", PStr "A"); ("url", PStr "http://a");
                       ("snippet", PStr "about a")]]),
     MkState 1 [EvSearch (PStr "a")])
  /\ execute_searches_as_specified Sample.search_world [PStr "a"; PStr "b"] []
       Sample.start
  = (Ok (PList [PDict [("name", PStr "A"); ("url", PStr "http://a");
                       ("snippet", PStr "about a")];
                PDict [("name", PStr "B"); ("url", PStr "http://b")]]),
     MkState 2 [EvSearch (PStr "a"); EvSearch (PStr "b")])
  /\ get_search_results Sample.search_world (PList [PStr "a"; PStr "zzz"]) Sample.start
  = (Ok (PList [PDict [("name", PStr "A"); ("url", PStr "http://a");
                       ("snippet", PStr "about a")]]),
     MkState 1 [EvSearch (PStr "a")])
  /\ execute_searches_as_specified Sample.search_world [PStr "a"; PStr "zzz"] []
       Sample.start
  = (Ok (PStr "Search error."),
     MkState 2 [EvSearch (PStr "a"); EvSearch (PStr "zzz")]).
Proof. repeat split. Qed.

(** ** The status channel *)

Section StatusFacts.

Variable w : World.

(** What [set_status_message] does, case by case. *)
Lemma set_status_message_cases message page_instance_id s :
  set_status_message w message page_instance_id s =
  match clients_at w (clock s) !! page_instance_id with
  | None => (Raise (KeyError page_instance_id), s)
  | Some sink =>
      match send_reply w (clock s) sink message with
      | None => (Ok tt, after s (EvNotify message page_instance_id))
      | Some ex => (Raise ex, after s (EvNotify message page_instance_id))
      end
  end.
Proof.
  unfold set_status_message, external, after.
  destruct (clients_at w (clock s) !! page_instance_id) as [sink|]; [|reflexivity].
  destruct (send_reply w (clock s) sink message); reflexivity.
Qed.

Lemma set_status_message_delivered message page_instance_id s sink :
  clients_at w (clock s) !! page_instance_id = Some sink ->
  send_reply w (clock s) sink message = None ->
  set_status_message w message page_instance_id s
  = (Ok tt, after s (EvNotify message page_instance_id)).
Proof. intros Hc Hs. rewrite set_status_message_cases. now rewrite Hc, Hs. Qed.

(** The registry after the listener's cleanup has no sink for the id. *)
Lemma ws_unregister_lookup page_instance_id clients :
  ws_unregister page_instance_id clients !! page_instance_id = None.
Proof.
  unfold ws_unregister.
  destruct (clients !! page_instance_id) eqn:E; [apply lookup_delete_eq|exact E].
Qed.

Lemma ws_register_lookup page_instance_id sink clients :
  ws_register page_instance_id sink clients !! page_instance_id = Some sink.
Proof. apply lookup_insert_eq. Qed.

End StatusFacts.

(** ** The planner *)

Section PlannerFacts.

Variable rt : Runtime.
Variable w : World.

Lemma loads_parsed text s : loads rt text s = (parsed rt text, s).
Proof. reflexivity. Qed.

(** The bracket repair of the source agrees with the specified one on
    every non-empty response. *)
Lemma repair_with_brackets c rest :
  (let searches := String c rest in
   let searches :=
     if negb (Ascii.eqb c "[") then "[" +:+ searches else searches in
   if last_differs searches "]" then searches +:+ "]" else searches)
  = with_brackets (String c rest).
Proof.
  unfold with_brackets. cbv zeta.
  destruct (Ascii.eqb c "[") eqn:E; reflexivity.
Qed.

(** [identify_searches] without summaries: one planning call, then the
    sentinel test, the bracket repair and the parse. *)
Lemma identify_searches_first s :
  identify_searches rt w None s =
  let s1 := after s (EvChat ByIdentifySearches (Some (first_plan rt)) None) in
  match chat_reply w (clock s) (Some (first_plan rt)) None with
  | inl response =>
      if String.eqb response "No searches required." then (Ok PNone, s1)
      else
        match response with
        | EmptyString => (Raise IndexError, s1)
        | String _ _ => (parsed rt (with_brackets response), s1)
        end
  | inr ex => (Raise ex, s1)
  end.
Proof.
  unfold identify_searches, send_private_chat, first_plan, after.
  unfold bind at 1. unfold external.
  destruct (chat_reply w (clock s) (Some (prompts rt "identify_searches")) None)
    as [response|ex]; [|reflexivity].
  cbv zeta.
  destruct (String.eqb response "No searches required."); [reflexivity|].
  destruct response as [|c rest]; [reflexivity|].
  rewrite <- repair_with_brackets. reflexivity.
Qed.

(** With summaries, the planning call carries them. *)
Lemma identify_searches_additional Summaries s :
  exists r,
    identify_searches rt w (Some Summaries) s
    = (r, after s (EvChat ByIdentifySearches
                     (Some (additional_plan rt Summaries)) None)).
Proof.
  unfold identify_searches, send_private_chat, additional_plan, after.
  unfold bind at 1. unfold external.
  destruct (chat_reply w (clock s) _ None) as [response|ex]; [|eauto].
  destruct (String.eqb response "No searches required."); [eauto|].
  destruct response as [|c rest]; [eauto|].
  rewrite loads_parsed. eauto.
Qed.

(** A non-empty response other than the sentinel is repaired and
    parsed, and the outcome of the parse is the outcome of
    [identify_searches]: a parse error is raised to the caller. *)
Lemma identify_searches_parses response s :
  chat_reply w (clock s) (Some (first_plan rt)) None = inl response ->
  response <> "No searches required." ->
  response <> "" ->
  identify_searches rt w None s
  = (parsed rt (with_brackets response),
     after s (EvChat ByIdentifySearches (Some (first_plan rt)) None)).
Proof.
  intros Hr Hs He. rewrite identify_searches_first, Hr. cbv zeta.
  apply String.eqb_neq in Hs. rewrite Hs.
  destruct response; [contradiction|reflexivity].
Qed.

(** [get_urls_to_browse] after the search step. *)
Lemma get_urls_to_browse_cases searches s :
  get_urls_to_browse rt w searches s =
  match get_search_results w searches s with
  | (Ok searchresults, s1) =>
      if eq_str searchresults "Search error." then (Ok "Search error.", s1)
      else
        let ev := EvChat ByGetUrlsToBrowse None
                    (Some (browse_instruction rt searchresults)) in
        match chat_reply w (clock s1) None
                (Some (browse_instruction rt searchresults)) with
        | inl URLsToBrowse => (Ok URLsToBrowse, after s1 ev)
        | inr ex => (Raise ex, after s1 ev)
        end
  | (Raise ex, s1) => (Raise ex, s1)
  | (Diverge, s1) => (Diverge, s1)
  end.
Proof.
  unfold get_urls_to_browse. unfold bind at 1.
  destruct (get_search_results w searches s) as [[searchresults|ex|] s1];
    try reflexivity.
  destruct (eq_str searchresults "Search error."); [reflexivity|].
  unfold send_private_chat, external, browse_instruction, after.
  destruct (chat_reply w (clock s1) None _); reflexivity.
Qed.

Lemma is_background_info_sufficient_cases Summaries s :
  is_background_info_sufficient rt w Summaries s =
  let ev := EvChat ByIsBackgroundInfoSufficient
              (Some (sufficiency_instruction rt Summaries)) None in
  match chat_reply w (clock s) (Some (sufficiency_instruction rt Summaries)) None with
  | inl response =>
      (Ok (negb (String.eqb response "More information needed.")), after s ev)
  | inr ex => (Raise ex, after s ev)
  end.
Proof.
  unfold is_background_info_sufficient, send_private_chat,
    sufficiency_instruction, after.
  unfold bind at 1. unfold external.
  destruct (chat_reply w (clock s) _ None) as [response|ex]; [|reflexivity].
  cbv zeta.
  destruct (String.eqb response "More information needed."); reflexivity.
Qed.

End PlannerFacts.

(** ** The orchestrator *)

Section LoopFacts.

Variable rt : Runtime.
Variable w : World.

Lemma research_loop_S fuel page_instance_id Summaries :
  research_loop rt w (S fuel) page_instance_id Summaries =
  (searches <- identify_searches rt w None ;;
   if is_none searches then
     set_status_message w "Generating answer..." page_instance_id ;;;
     ret None
   else
     set_status_message w "Searching..." page_instance_id ;;;
     URLsToBrowse <- get_urls_to_browse rt w searches ;;
     if String.eqb URLsToBrowse "Search error." then
       ret (Some "Search error.")
     else
       set_status_message w "Browsing and analyzing..." page_instance_id ;;;
       newSummaries <- get_article_summaries rt w URLsToBrowse ;;
       set_status_message w "Double checking sources..." page_instance_id ;;;
       AreWeDone <- is_background_info_sufficient rt w
                      (accumulated Summaries newSummaries) ;;
       if AreWeDone then
         set_status_message w "Generating answer..." page_instance_id ;;;
         ret (Some (background_info rt (accumulated Summaries newSummaries)))
       else
         research_loop rt w fuel page_instance_id
           (Some (accumulated Summaries newSummaries))).
Proof. reflexivity. Qed.

Lemma search_and_add_registered fuel rb page_instance_id :
  rb_page_instance_id rb = Some page_instance_id ->
  search_and_add_background_references rt w fuel rb
  = research_loop rt w fuel page_instance_id None.
Proof.
  intros H. unfold search_and_add_background_references. now rewrite H.
Qed.

(** An exception raised by the planning step leaves the loop. *)
Lemma research_loop_planning_raises fuel page_instance_id Summaries s ex s1 :
  identify_searches rt w None s = (Raise ex, s1) ->
  research_loop rt w (S fuel) page_instance_id Summaries s = (Raise ex, s1).
Proof. intros H. rewrite research_loop_S. now rewrite (bind_Raise _ _ _ _ _ H). Qed.

(** An exception raised by the orchestrator becomes an error response
    at the request boundary, and no answer is streamed. *)
Lemma conversation_internal_raises fuel rb s ex s1 :
  search_and_add_background_references rt w fuel rb s = (Raise ex, s1) ->
  conversation_internal rt w fuel rb s = (Ok (error_response ex), s1).
Proof.
  intros H. unfold conversation_internal, try_except.
  rewrite (bind_Raise _ _ _ _ _ H). unfold error_response.
  destruct (exn_status_code ex); reflexivity.
Qed.

(** What the request boundary does once the orchestrator has returned. *)
Lemma conversation_internal_returns fuel rb s system_preamble s1 :
  search_and_add_background_references rt w fuel rb s = (Ok system_preamble, s1) ->
  conversation_internal rt w fuel rb s =
  let sent :=
    if differs_from system_preamble "Search error." then system_preamble
    else Some (prompts rt "search_error_preamble") in
  match stream_reply w (clock s1) sent with
  | inl body => (Ok (StreamResponse body), after s1 (EvStream sent))
  | inr ex => (Ok (error_response ex), after s1 (EvStream sent))
  end.
Proof.
  intros H. unfold conversation_internal, try_except.
  rewrite (bind_Ok _ _ _ _ _ H). cbv zeta.
  unfold bind, stream_chat_request, external, after, ret, error_response.
  destruct (differs_from system_preamble "Search error.").
  - destruct (stream_reply w (clock s1) system_preamble) as [body|ex];
      [reflexivity|]. destruct (exn_status_code ex); reflexivity.
  - destruct (stream_reply w (clock s1) _) as [body|ex];
      [reflexivity|]. destruct (exn_status_code ex); reflexivity.
Qed.

(** C4, as the source has it: when the planner answers
    ["No searches required."], [identify_searches] returns [None] and
    the round issues the planning call and the ["Generating answer..."]
    notification, and no search, page fetch or summarisation.  When the
    notification is delivered the orchestrator returns [None], the
    no-search outcome.  When the session is not registered the
    notification raises [KeyError], and when the send fails it raises
    the send's exception: the orchestrator is then ended by the
    exception instead of returning the no-search outcome. *)
Theorem no_searches_required_ends_research fuel page_instance_id Summaries s :
  chat_reply w (clock s) (Some (first_plan rt)) None
    = inl "No searches required." ->
  let s1 := after s (EvChat ByIdentifySearches (Some (first_plan rt)) None) in
  let s2 := after s1 (EvNotify "Generating answer..." page_instance_id) in
  identify_searches rt w None s = (Ok PNone, s1)
  /\ (forall sink,
        clients_at w (clock s1) !! page_instance_id = Some sink ->
        send_reply w (clock s1) sink "Generating answer..." = None ->
        research_loop rt w (S fuel) page_instance_id Summaries s = (Ok None, s2))
  /\ (clients_at w (clock s1) !! page_instance_id = None ->
      research_loop rt w (S fuel) page_instance_id Summaries s
      = (Raise (KeyError page_instance_id), s1))
  /\ (forall sink ex,
        clients_at w (clock s1) !! page_instance_id = Some sink ->
        send_reply w (clock s1) sink "Generating answer..." = Some ex ->
        research_loop rt w (S fuel) page_instance_id Summaries s = (Raise ex, s2))
  /\ (forall rb,
        rb_page_instance_id rb = Some page_instance_id ->
        search_and_add_background_references rt w (S fuel) rb s
        = research_loop rt w (S fuel) page_instance_id Summaries s).
Proof.
  intros Hr s1 s2.
  assert (Hid : identify_searches rt w None s = (Ok PNone, s1)).
  { rewrite identify_searches_first, Hr. reflexivity. }
  assert (Hround : forall Sm,
    research_loop rt w (S fuel) page_instance_id Sm s =
     match clients_at w (clock s1) !! page_instance_id with
     | Some sink =>
         match send_reply w (clock s1) sink "Generating answer..." with
         | None => (Ok None, s2)
         | Some ex => (Raise ex, s2)
         end
     | None => (Raise (KeyError page_instance_id), s1)
     end).
  { intros Sm. rewrite research_loop_S, (bind_Ok _ _ _ _ _ Hid).
    change (is_none PNone) with true. cbv beta iota.
    unfold bind. rewrite set_status_message_cases.
    destruct (clients_at w (clock s1) !! page_instance_id) as [sink|];
      [|reflexivity].
    destruct (send_reply w (clock s1) sink "Generating answer...");
      reflexivity. }
  split; [exact Hid|]. split; [|split; [|split]].
  - intros sink Hc Hs. now rewrite Hround, Hc, Hs.
  - intros Hc. now rewrite Hround, Hc.
  - intros sink ex Hc Hs. now rewrite Hround, Hc, Hs.
  - intros rb Hrb. rewrite (search_and_add_registered _ _ _ Hrb).
    now rewrite !Hround.
Qed.

(** C7: the search-error sentinel.  [get_urls_to_browse] hands the
    sentinel of the search step on unchanged, without asking the
    planner; a round whose pipeline yields the sentinel returns it at
    once, issuing no further call (no browsing, no summarising, no
    sufficiency check, no further round); and when the orchestrator
    has returned the sentinel the answer is still requested, with the
    search-failure instruction as its system preamble. *)
Theorem search_error_ends_research_and_is_answered :
  (forall searches s s1,
      get_search_results w searches s = (Ok (PStr "Search error."), s1) ->
      get_urls_to_browse rt w searches s = (Ok "Search error.", s1))
  /\ (forall fuel page_instance_id Summaries s searches s1 s2 s3,
        identify_searches rt w None s = (Ok searches, s1) ->
        is_none searches = false ->
        set_status_message w "Searching..." page_instance_id s1 = (Ok tt, s2) ->
        get_urls_to_browse rt w searches s2 = (Ok "Search error.", s3) ->
        research_loop rt w (S fuel) page_instance_id Summaries s
        = (Ok (Some "Search error."), s3))
  /\ (forall fuel rb s s1,
        search_and_add_background_references rt w fuel rb s
          = (Ok (Some "Search error."), s1) ->
        conversation_internal rt w fuel rb s =
        let apology := Some (prompts rt "search_error_preamble") in
        match stream_reply w (clock s1) apology with
        | inl body => (Ok (StreamResponse body), after s1 (EvStream apology))
        | inr ex => (Ok (error_response ex), after s1 (EvStream apology))
        end).
Proof.
  split; [|split].
  - intros searches s s1 H. rewrite get_urls_to_browse_cases, H. reflexivity.
  - intros fuel pid Sm s searches s1 s2 s3 Hid Hsome Hnote Hurls.
    rewrite research_loop_S, (bind_Ok _ _ _ _ _ Hid), Hsome.
    rewrite (bind_Ok _ _ _ _ _ Hnote), (bind_Ok _ _ _ _ _ Hurls).
    reflexivity.
  - intros fuel rb s s1 H.
    rewrite (conversation_internal_returns _ _ _ _ _ H). reflexivity.
Qed.

(** A non-empty planner response that fails to parse: the parse
    error leaves [identify_searches], leaves the orchestrator, and is
    answered with an error response at the request boundary. *)
Lemma parse_error_reaches_boundary fuel rb page_instance_id s response ex :
  rb_page_instance_id rb = Some page_instance_id ->
  chat_reply w (clock s) (Some (first_plan rt)) None = inl response ->
  response <> "No searches required." ->
  response <> "" ->
  json_loads rt (with_brackets response) = inr ex ->
  let s1 := after s (EvChat ByIdentifySearches (Some (first_plan rt)) None) in
  identify_searches rt w None s = (Raise ex, s1)
  /\ search_and_add_background_references rt w (S fuel) rb s = (Raise ex, s1)
  /\ conversation_internal rt w (S fuel) rb s = (Ok (error_response ex), s1).
Proof.
  intros Hrb Hr Hs He Hp s1.
  assert (Hid : identify_searches rt w None s = (Raise ex, s1)).
  { rewrite (identify_searches_parses _ _ _ _ Hr Hs He). unfold parsed.
    now rewrite Hp. }
  assert (Hrun : search_and_add_background_references rt w (S fuel) rb s
                 = (Raise ex, s1)).
  { rewrite (search_and_add_registered _ _ _ Hrb).
    now apply research_loop_planning_raises. }
  repeat split; [exact Hid|exact Hrun|].
  now apply conversation_internal_raises.
Qed.

End LoopFacts.

Lemma no_searches_required_witness :
  chat_reply Sample.no_search_needed 0 (Some (first_plan Sample.rt)) None
    = inl "No searches required."
  /\ search_and_add_background_references Sample.rt Sample.no_search_needed 1
       Sample.request Sample.start
     = (Ok None,
        MkState 2 [EvChat ByIdentifySearches (Some "<identify_searches>") None;
                   EvNotify "Generating answer..." "page-1"]).
Proof.
  split; [reflexivity|].
  destruct (no_searches_required_ends_research Sample.rt Sample.no_search_needed
              0 Sample.page_instance None Sample.start eq_refl)
    as (_ & Hloop & _ & _ & Hrun).
  rewrite (Hrun Sample.request eq_refl).
  exact (Hloop 7 eq_refl eq_refl).
Defined.

(** C4 as stated fails: the planner answers with the sentinel, but the
    observer has gone, and the run ends with the [KeyError] of the
    notification, answered with status 500, instead of the no-search
    outcome. *)
Lemma no_search_outcome_needs_the_observer :
  chat_reply unobserved_no_search 0 (Some (first_plan Sample.rt)) None
    = inl "No searches required."
  /\ identify_searches Sample.rt unobserved_no_search None Sample.start
     = (Ok PNone,
        MkState 1 [EvChat ByIdentifySearches (Some "<identify_searches>") None])
  /\ search_and_add_background_references Sample.rt unobserved_no_search 1
       Sample.request Sample.start
     = (Raise (KeyError "page-1"),
        MkState 1 [EvChat ByIdentifySearches (Some "<identify_searches>") None])
  /\ conversation_internal Sample.rt unobserved_no_search 1 Sample.request
       Sample.start
     = (Ok (ErrorResponse (KeyError "page-1") 500),
        MkState 1 [EvChat ByIdentifySearches (Some "<identify_searches>") None]).
Proof. repeat split. Qed.

Lemma search_error_witness :
  get_urls_to_browse Sample.rt Sample.failing_search (PList [PStr "zzz"])
    (MkState 2 [EvChat ByIdentifySearches (Some "<identify_searches>") None;
                EvNotify "Searching..." "page-1"])
  = (Ok "Search error.",
     MkState 3 [EvChat ByIdentifySearches (Some "<identify_searches>") None;
                EvNotify "Searching..." "page-1"; EvSearch (PStr "zzz")])
  /\ research_loop Sample.rt Sample.failing_search 1 Sample.page_instance None
       Sample.start
  = (Ok (Some "Search error."),
     MkState 3 [EvChat ByIdentifySearches (Some "<identify_searches>") None;
                EvNotify "Searching..." "page-1"; EvSearch (PStr "zzz")])
  /\ conversation_internal Sample.rt Sample.failing_search 1 Sample.request
       Sample.start
  = (Ok (StreamResponse "answer"),
     MkState 4 [EvChat ByIdentifySearches (Some "<identify_searches>") None;
                EvNotify "Searching..." "page-1"; EvSearch (PStr "zzz");
                EvStream (Some "<search_error_preamble>")]).
Proof.
  destruct (search_error_ends_research_and_is_answered Sample.rt
              Sample.failing_search) as (Hfwd & Hloop & Hanswer).
  split; [|split].
  - apply Hfwd. reflexivity.
  - apply Hloop with (searches := PList [PStr "zzz"])
      (s1 := MkState 1 [EvChat ByIdentifySearches (Some "<identify_searches>") None])
      (s2 := MkState 2 [EvChat ByIdentifySearches (Some "<identify_searches>") None;
                        EvNotify "Searching..." "page-1"]);
      reflexivity.
  - rewrite (Hanswer 1 Sample.request Sample.start
               (MkState 3 [EvChat ByIdentifySearches (Some "<identify_searches>") None;
                           EvNotify "Searching..." "page-1"; EvSearch (PStr "zzz")])
               eq_refl).
    reflexivity.
Defined.

(** C5, at the empty response: [identify_searches] indexes the first
    character of the response before repairing it, so an empty
    completion raises [IndexError]; the repair the specification
    describes would turn it into ["[]"], which parses to the empty
    list.  The error is answered with status 500 at the request
    boundary. *)
Theorem empty_plan_raises_index_error :
  identify_searches Sample.rt Sample.empty_plan None Sample.start
  = (Raise IndexError,
     MkState 1 [EvChat ByIdentifySearches (Some "<identify_searches>") None])
  /\ with_brackets "" = "[]"
  /\ parsed Sample.rt (with_brackets "") = Ok (PList [])
  /\ conversation_internal Sample.rt Sample.empty_plan 1 Sample.request Sample.start
  = (Ok (ErrorResponse IndexError 500),
     MkState 1 [EvChat ByIdentifySearches (Some "<identify_searches>") None]).
Proof. repeat split. Qed.

(** A response that is not a list, for comparison: it is repaired to
    ["[what]"], the parse fails, and the parse error is answered with
    status 500. *)
Example garbled_plan_is_refused :
  conversation_internal Sample.rt Sample.garbled_plan 1 Sample.request Sample.start
  = (Ok (ErrorResponse (JSONDecodeError "[what]") 500),
     MkState 1 [EvChat ByIdentifySearches (Some "<identify_searches>") None]).
Proof.
  destruct (parse_error_reaches_boundary Sample.rt Sample.garbled_plan 0
              Sample.request Sample.page_instance Sample.start "[what"
              (JSONDecodeError "[what]") eq_refl eq_refl)
    as (_ & _ & H); [discriminate|discriminate|reflexivity|].
  exact H.
Qed.

(** C8 as stated fails: with the observer gone, the exception of the
    status channel ends the orchestrator and the request is answered
    with an error. *)
Lemma status_failure_escapes :
  set_status_message Sample.broken_pipe "Searching..." Sample.page_instance
    (MkState 1 [EvChat ByIdentifySearches (Some "<identify_searches>") None])
  = (Raise Sample.closed_socket,
     MkState 2 [EvChat ByIdentifySearches (Some "<identify_searches>") None;
                EvNotify "Searching..." "page-1"])
  /\ search_and_add_background_references Sample.rt Sample.broken_pipe 1
       Sample.request Sample.start
  = (Raise Sample.closed_socket,
     MkState 2 [EvChat ByIdentifySearches (Some "<identify_searches>") None;
                EvNotify "Searching..." "page-1"])
  /\ set_status_message Sample.lost_observer "Searching..." Sample.page_instance
       (MkState 1 [EvChat ByIdentifySearches (Some "<identify_searches>") None])
  = (Raise (KeyError "page-1"),
     MkState 1 [EvChat ByIdentifySearches (Some "<identify_searches>") None])
  /\ conversation_internal Sample.rt Sample.lost_observer 1 Sample.request
       Sample.start
  = (Ok (ErrorResponse (KeyError "page-1") 500),
     MkState 1 [EvChat ByIdentifySearches (Some "<identify_searches>") None]).
Proof. repeat split. Qed.

(** ** The concurrent fan-out *)

Section JoinFacts.

Context {A : Type}.

(** When every task returns a value, the join stores each value at the
    position of its task, whatever the completion order. *)
Lemma join_fills (outs : list (res A * list event)) (vals : list A) :
  Forall2 (fun out v => out.1 = Ok v) outs vals ->
  forall order slots,
    length slots = length outs ->
    exists slots',
      join order outs slots = Ok slots'
      /\ forall j, slots' !! j =
                   if decide (j ∈ order /\ j < length outs)
                   then Some <$> vals !! j
                   else slots !! j.
Proof.
  intros Hall order.
  induction order as [|i order IH]; intros slots Hlen.
  - exists slots. split; [reflexivity|]. intros j.
    case_decide as H; [|reflexivity]. destruct H as [H _].
    now apply elem_of_nil in H.
  - simpl. destruct (outs !! i) as [[r evs]|] eqn:Hi.
    + destruct (Forall2_lookup_l _ _ _ _ _ Hall Hi) as (v & Hv & Hr).
      simpl in Hr. subst r.
      destruct (IH (<[i:=Some v]> slots)) as (slots' & Hj & Hlook).
      { now rewrite length_insert. }
      exists slots'. split; [exact Hj|]. intros j. rewrite Hlook.
      assert (Hi' : i < length outs) by (eapply lookup_lt_Some; eauto).
      destruct (decide (j = i)) as [->|Hne].
      * rewrite list_lookup_insert_eq by lia. rewrite Hv. simpl.
        destruct (decide (i ∈ order /\ i < length outs)) as [H1|H1];
          destruct (decide (i ∈ i :: order /\ i < length outs)) as [H2|H2];
          try reflexivity;
          exfalso; apply H2; (split; [apply elem_of_cons; now left|exact Hi']).
      * rewrite list_lookup_insert_ne by congruence.
        destruct (decide (j ∈ order /\ j < length outs)) as [H1|H1];
          destruct (decide (j ∈ i :: order /\ j < length outs)) as [H2|H2];
          try reflexivity; exfalso.
        -- apply H2. split; [apply elem_of_cons; tauto|tauto].
        -- destruct H2 as [Hin Hlt].
           apply elem_of_cons in Hin as [->|Hin]; [congruence|].
           apply H1. split; assumption.
    + destruct (IH slots Hlen) as (slots' & Hj & Hlook).
      exists slots'. split; [exact Hj|]. intros j. rewrite Hlook.
      apply lookup_ge_None in Hi.
      destruct (decide (j ∈ order /\ j < length outs)) as [H1|H1];
        destruct (decide (j ∈ i :: order /\ j < length outs)) as [H2|H2];
        try reflexivity; exfalso.
      * apply H2. split; [apply elem_of_cons; tauto|tauto].
      * destruct H2 as [Hin Hlt]. apply elem_of_cons in Hin as [->|Hin]; [lia|].
        apply H1. split; assumption.
Qed.

(** When a task that completes raises, and no task hangs, the join
    raises. *)
Lemma join_raises (outs : list (res A * list event)) :
  Forall (fun out => out.1 <> Diverge) outs ->
  forall order slots i ex evs,
    i ∈ order ->
    outs !! i = Some (Raise ex, evs) ->
    exists ex', join order outs slots = Raise ex'.
Proof.
  intros Hnd order.
  induction order as [|j order IH]; intros slots i ex evs Hin Hi.
  - now apply elem_of_nil in Hin.
  - simpl. destruct (outs !! j) as [[r evs']|] eqn:Hj.
    + destruct r as [a|ex'|].
      * apply elem_of_cons in Hin as [->|Hin]; [congruence|].
        eapply IH; eauto.
      * eauto.
      * exfalso. eapply Forall_lookup_1 in Hnd; eauto. now apply Hnd.
    + apply elem_of_cons in Hin as [->|Hin]; [congruence|].
      eapply IH; eauto.
Qed.

End JoinFacts.

Section GatherFacts.

Variable rt : Runtime.
Variable w : World.

(** Whatever the tasks return and whichever is joined first, the
    calls of all of them have been issued, in the order of the list. *)
Lemma gather_issues_all {A B} (f : A -> M B) (xs : list A) s :
  (gather w f xs s).2
  = MkState (clock s + 2 * length xs)
      (trace s ++ issued (imap (fun i x => run_task (f x) (clock s + 2 * i)) xs)).
Proof.
  unfold gather.
  destruct (join _ _ _) as [slots|ex|]; [destruct (mapM id slots)| |];
    reflexivity.
Qed.

Lemma gather_all_ok {A B} (f : A -> M B) (xs : list A) (vals : list B) s :
  (forall i, i < length xs -> i ∈ gather_order w (clock s) (length xs)) ->
  Forall2 (fun out v => out.1 = Ok v)
          (imap (fun i x => run_task (f x) (clock s + 2 * i)) xs) vals ->
  exists tr,
    gather w f xs s = (Ok vals, MkState (clock s + 2 * length xs) tr).
Proof.
  intros Hall Hvals. unfold gather.
  set (outs := imap _ xs) in *.
  assert (Hlen : length outs = length xs) by apply length_imap.
  destruct (join_fills outs vals Hvals (gather_order w (clock s) (length xs))
              (replicate (length xs) None))
    as (slots & Hj & Hlook).
  { now rewrite length_replicate. }
  rewrite Hj. eexists.
  assert (Hslots : slots = Some <$> vals).
  { apply list_eq. intros j. rewrite Hlook, list_lookup_fmap, Hlen.
    destruct (decide (j ∈ gather_order w (clock s) (length xs) /\ j < length xs))
      as [H|H]; [reflexivity|].
    destruct (decide (j < length xs)) as [Hlt|Hge].
    - exfalso. apply H. split; [now apply Hall|exact Hlt].
    - apply Forall2_length in Hvals.
      rewrite (lookup_ge_None_2 vals j) by lia.
      apply lookup_replicate_None. lia. }
  subst slots.
  assert (Hm : mapM id (Some <$> vals) = Some vals).
  { now apply mapM_fmap_Some. }
  now rewrite Hm.
Qed.

Lemma gather_raises {A B} (f : A -> M B) (xs : list A) s i x ex :
  (forall i, i < length xs -> i ∈ gather_order w (clock s) (length xs)) ->
  (forall j y, (run_task (f y) j).1 <> Diverge) ->
  xs !! i = Some x ->
  (run_task (f x) (clock s + 2 * i)).1 = Raise ex ->
  exists ex' s', gather w f xs s = (Raise ex', s').
Proof.
  intros Hall Hnd Hx Hr. unfold gather.
  set (outs := imap _ xs) in *.
  assert (Hout : outs !! i
                 = Some (Raise ex, (run_task (f x) (clock s + 2 * i)).2)).
  { unfold outs. rewrite list_lookup_imap, Hx.
    change (Some (run_task (f x) (clock s + 2 * i))
            = Some (Raise ex, (run_task (f x) (clock s + 2 * i)).2)).
    destruct (run_task (f x) (clock s + 2 * i)) as [r evs].
    simpl in Hr. now subst r. }
  destruct (join_raises outs) with
    (order := gather_order w (clock s) (length xs))
    (slots := replicate (length xs) (@None B))
    (i := i) (ex := ex) (evs := (run_task (f x) (clock s + 2 * i)).2)
    as (ex' & Hj).
  - unfold outs. apply Forall_forall. intros out Hin.
    apply list_elem_of_lookup in Hin as [j Hin].
    rewrite list_lookup_imap in Hin.
    destruct (xs !! j) as [y|]; [|discriminate]. simpl in Hin.
    injection Hin as <-. apply Hnd.
  - apply Hall. eapply lookup_lt_Some; eauto.
  - exact Hout.
  - rewrite Hj. eauto.
Qed.

(** One page task, case by case. *)
Lemma process_url_cases URL s :
  process_url rt w URL s =
  let s1 := after s (EvFetch URL) in
  match fetch_reply w (clock s) URL with
  | inl response =>
      if (response.1 =? 200)%Z then
        match URL with
        | PStr u =>
            let instruction := summary_prompt u (paragraphs_text rt response.2) in
            let s2 := after s1 (EvChat ByProcessUrl None (Some instruction)) in
            match chat_reply w (S (clock s)) None (Some instruction) with
            | inl summary => (parsed rt (summary_text rt u summary), s2)
            | inr ex => (Raise ex, s2)
            end
        | _ => (Raise TypeError, s1)
        end
      else (Ok PNone, s1)
  | inr ex => (Raise ex, s1)
  end.
Proof.
  unfold process_url, fetch_and_parse_url, after.
  unfold bind at 1. unfold bind at 1. unfold external at 1.
  destruct (fetch_reply w (clock s) URL) as [response|ex]; [|reflexivity].
  cbv zeta. destruct (response.1 =? 200)%Z; [|reflexivity].
  unfold ret at 1. cbv beta iota.
  destruct URL; try reflexivity.
  unfold bind, send_private_chat, external. simpl.
  destruct (chat_reply w (S (clock s)) None _); reflexivity.
Qed.

Lemma process_url_returns URL t : (run_task (process_url rt w URL) t).1 <> Diverge.
Proof.
  unfold run_task. rewrite process_url_cases. cbv zeta. simpl clock.
  destruct (fetch_reply w t URL) as [response|ex]; [|discriminate].
  destruct (response.1 =? 200)%Z; [|discriminate].
  destruct URL; try discriminate.
  destruct (chat_reply w (S t) None _); [|discriminate].
  unfold parsed. destruct (json_loads rt _); discriminate.
Qed.

Lemma process_url_outcome t u o :
  page_outcome rt w t u o ->
  (run_task (process_url rt w (PStr u)) t).1 = Ok (task_value o)
  /\ is_none (task_value o) = negb (bool_decide (is_Some o)).
Proof.
  intros H. unfold run_task. rewrite process_url_cases. cbv zeta. simpl clock.
  destruct H as [status_code content Hf Hs|content summary Hf Hc Hp].
  - rewrite Hf. simpl. apply Z.eqb_neq in Hs. rewrite Hs. split; reflexivity.
  - rewrite Hf. simpl. rewrite Hc. unfold parsed. rewrite Hp. split; reflexivity.
Qed.

Lemma tasks_outcome t urls outs :
  pages_outcome rt w t urls outs ->
  Forall2 (fun out v => out.1 = Ok v)
          (imap (fun i x => run_task (process_url rt w x) (t + 2 * i))
                (PStr <$> urls))
          (task_value <$> outs).
Proof.
  induction 1 as [t|t u urls o outs Hpage Hrest IH]; [constructor|].
  rewrite fmap_cons, imap_cons, fmap_cons. constructor.
  - replace (t + 2 * 0) with t by lia. now apply process_url_outcome.
  - erewrite imap_ext; [exact IH|]. intros i x _. simpl. f_equal. lia.
Qed.

Lemma pages_outcome_length t urls outs :
  pages_outcome rt w t urls outs -> length outs = length urls.
Proof. induction 1; simpl; congruence. Qed.

Lemma filter_task_values t urls outs :
  pages_outcome rt w t urls outs ->
  List.filter (fun summary => negb (is_none summary)) (task_value <$> outs)
  = omap id outs.
Proof.
  induction 1 as [t|t u urls o outs Hpage Hrest IH]; [reflexivity|].
  rewrite fmap_cons. simpl List.filter.
  destruct (process_url_outcome _ _ _ Hpage) as [_ Hn]. rewrite Hn.
  destruct o as [v|]; simpl; now rewrite IH.
Qed.

(** The batch when every page task returns: the summaries of the pages
    that yielded one, in the order of the URL list, for every
    completion order in which all tasks complete. *)
Lemma get_article_summaries_joined text urls outs s :
  json_loads rt text = inl (PList (PStr <$> urls)) ->
  (forall i, i < length urls -> i ∈ gather_order w (clock s) (length urls)) ->
  pages_outcome rt w (clock s) urls outs ->
  exists tr,
    get_article_summaries rt w text s
    = (Ok (omap id outs), MkState (clock s + 2 * length urls) tr).
Proof.
  intros Hp Hall Hpages. unfold get_article_summaries.
  rewrite (bind_Ok _ _ s (PList (PStr <$> urls)) s)
    by (rewrite loads_parsed; unfold parsed; now rewrite Hp).
  rewrite (bind_Ok _ _ s (PStr <$> urls) s) by reflexivity.
  destruct (gather_all_ok (process_url rt w) (PStr <$> urls)
              (task_value <$> outs) s) as (tr & Hg).
  { rewrite length_fmap. exact Hall. }
  { now apply tasks_outcome. }
  rewrite (bind_Ok _ _ _ _ _ Hg). unfold ret.
  rewrite (filter_task_values _ _ _ Hpages), length_fmap. eauto.
Qed.

(** The batch when a page task raises: the exception leaves
    [get_article_summaries]. *)
Lemma get_article_summaries_raises text urls s i u ex :
  json_loads rt text = inl (PList (PStr <$> urls)) ->
  (forall i, i < length urls -> i ∈ gather_order w (clock s) (length urls)) ->
  urls !! i = Some u ->
  (run_task (process_url rt w (PStr u)) (clock s + 2 * i)).1 = Raise ex ->
  exists ex' s', get_article_summaries rt w text s = (Raise ex', s').
Proof.
  intros Hp Hall Hu Hr. unfold get_article_summaries.
  rewrite (bind_Ok _ _ s (PList (PStr <$> urls)) s)
    by (rewrite loads_parsed; unfold parsed; now rewrite Hp).
  rewrite (bind_Ok _ _ s (PStr <$> urls) s) by reflexivity.
  destruct (gather_raises (process_url rt w) (PStr <$> urls) s i (PStr u) ex)
    as (ex' & s' & Hg).
  - rewrite length_fmap. exact Hall.
  - intros j y. apply process_url_returns.
  - rewrite list_lookup_fmap, Hu. reflexivity.
  - exact Hr.
  - rewrite (bind_Raise _ _ _ _ _ Hg). eauto.
Qed.

End GatherFacts.

(** ** The batch of summaries *)

Section BatchFacts.

Variable rt : Runtime.
Variable w : World.

Lemma every_task_completes (order : list nat) n :
  order ≡ₚ seq 0 n -> forall i, i < n -> i ∈ order.
Proof.
  intros Hp i Hi. rewrite Hp. apply elem_of_seq. lia.
Qed.

Lemma summaries_count (outs : list (option pyval)) :
  length (omap id outs) + dropped outs = length outs.
Proof.
  induction outs as [|[v|] outs IH]; simpl; [reflexivity| |];
    unfold omap in IH; simpl in IH; lia.
Qed.

Lemma kept_urls_entries t urls outs :
  pages_outcome rt w t urls outs ->
  omap summary_url (omap id outs) = PStr <$> kept_urls urls outs.
Proof.
  induction 1 as [t|t u urls o outs Hpage Hrest IH]; [reflexivity|].
  destruct Hpage as [status_code content Hf Hs|content summary Hf Hc Hp].
  - exact IH.
  - change (PStr u :: omap summary_url (omap id outs)
            = PStr u :: (PStr <$> kept_urls urls outs)).
    now rewrite IH.
Qed.

Lemma kept_urls_sublist t urls outs :
  pages_outcome rt w t urls outs -> kept_urls urls outs `sublist_of` urls.
Proof.
  induction 1 as [t|t u urls o outs Hpage Hrest IH]; [constructor|].
  destruct o; simpl; now constructor.
Qed.

(** The task of a URL whose fetch raises, or whose summarisation call
    raises, raises. *)
Lemma process_url_fetch_raises t u ex :
  fetch_reply w t (PStr u) = inr ex ->
  (run_task (process_url rt w (PStr u)) t).1 = Raise ex.
Proof.
  intros H. unfold run_task. rewrite process_url_cases. cbv zeta. simpl clock.
  now rewrite H.
Qed.

Lemma process_url_summary_raises t u content ex :
  fetch_reply w t (PStr u) = inl (200%Z, content) ->
  chat_reply w (S t) None
    (Some (summary_prompt u (paragraphs_text rt content))) = inr ex ->
  (run_task (process_url rt w (PStr u)) t).1 = Raise ex.
Proof.
  intros Hf Hc. unfold run_task. rewrite process_url_cases. cbv zeta.
  simpl clock. rewrite Hf. simpl. now rewrite Hc.
Qed.

(** C6, as the source has it.  For a URL list whose tasks all
    complete: a page whose fetch answers with a status other than 200
    yields nothing and the batch goes on; a page whose fetch answers
    200 and whose summarisation returns yields exactly one
    [{URL, summary}] entry; so the batch has one entry per URL minus
    the dropped pages, and 3 URLs of which exactly 1 is dropped give
    exactly 2 entries.  An exception raised by a fetch or by a
    summarisation call is not caught: it leaves
    [get_article_summaries] and the batch is lost. *)
Theorem failed_fetches_are_dropped text urls s :
  json_loads rt text = inl (PList (PStr <$> urls)) ->
  gather_order w (clock s) (length urls) ≡ₚ seq 0 (length urls) ->
  (forall outs,
      pages_outcome rt w (clock s) urls outs ->
      exists s',
        get_article_summaries rt w text s = (Ok (omap id outs), s')
        /\ length (omap id outs) = length urls - dropped outs
        /\ (length urls = 3 -> dropped outs = 1 -> length (omap id outs) = 2))
  /\ (forall i u ex,
        urls !! i = Some u ->
        fetch_reply w (clock s + 2 * i) (PStr u) = inr ex ->
        exists ex' s', get_article_summaries rt w text s = (Raise ex', s'))
  /\ (forall i u content ex,
        urls !! i = Some u ->
        fetch_reply w (clock s + 2 * i) (PStr u) = inl (200%Z, content) ->
        chat_reply w (S (clock s + 2 * i)) None
          (Some (summary_prompt u (paragraphs_text rt content))) = inr ex ->
        exists ex' s', get_article_summaries rt w text s = (Raise ex', s')).
Proof.
  intros Hp Hperm. pose proof (every_task_completes _ _ Hperm) as Hall.
  split; [|split].
  - intros outs Hpages.
    destruct (get_article_summaries_joined rt w text urls outs s Hp Hall Hpages)
      as (tr & Hrun).
    eexists. split; [exact Hrun|].
    pose proof (summaries_count outs) as Hn.
    rewrite (pages_outcome_length _ _ _ _ _ Hpages) in Hn.
    split; lia.
  - intros i u ex Hu Hf.
    apply (get_article_summaries_raises rt w text urls s i u ex Hp Hall Hu).
    now apply process_url_fetch_raises.
  - intros i u content ex Hu Hf Hc.
    apply (get_article_summaries_raises rt w text urls s i u ex Hp Hall Hu).
    now apply process_url_summary_raises with content.
Qed.

(** C10: the summaries come back in the order of the URL list, with
    only the dropped pages missing, whatever the order in which the
    tasks complete: the join stores each result at the position of
    its task. *)
Theorem summaries_keep_input_order text urls outs s :
  json_loads rt text = inl (PList (PStr <$> urls)) ->
  gather_order w (clock s) (length urls) ≡ₚ seq 0 (length urls) ->
  pages_outcome rt w (clock s) urls outs ->
  exists summaries s',
    get_article_summaries rt w text s = (Ok summaries, s')
    /\ summaries = omap id outs
    /\ omap summary_url summaries = PStr <$> kept_urls urls outs
    /\ kept_urls urls outs `sublist_of` urls.
Proof.
  intros Hp Hperm Hpages.
  pose proof (every_task_completes _ _ Hperm) as Hall.
  destruct (get_article_summaries_joined rt w text urls outs s Hp Hall Hpages)
    as (tr & Hrun).
  eexists _, _. split; [exact Hrun|]. split; [reflexivity|].
  split; [eapply kept_urls_entries|eapply kept_urls_sublist]; eauto.
Qed.

End BatchFacts.

Lemma three_pages_outcome :
  pages_outcome Sample.rt Sample.three_pages 0
    ["http://a"; "http://b"; "http://c"]
    [Some (Sample.entry "http://a" "sum a"); None;
     Some (Sample.entry "http://c" "sum c")].
Proof.
  apply pages_cons; [now apply page_summarised with (content := "page a")|].
  apply pages_cons; [now apply page_dropped with (status_code := 404%Z) (content := "")|].
  apply pages_cons; [now apply page_summarised with (content := "page c")|].
  apply pages_nil.
Defined.

(** C6 as stated fails: the summarisation of page [c] is refused, and
    the batch is lost with it instead of keeping the summary of page
    [a], although the calls of all three page tasks have been
    issued. *)
Lemma summarisation_failure_aborts_batch :
  get_article_summaries Sample.rt Sample.failing_summary Sample.three_urls
    Sample.start
  = (Raise Sample.rate_limited,
     MkState 6
       [EvFetch (PStr "http://a");
        EvChat ByProcessUrl None (Some (summary_prompt "http://a" "page a"));
        EvFetch (PStr "http://b");
        EvFetch (PStr "http://c");
        EvChat ByProcessUrl None (Some (summary_prompt "http://c" "page c"))])
  /\ ~ exists summaries s',
        get_article_summaries Sample.rt Sample.failing_summary Sample.three_urls
          Sample.start = (Ok summaries, s').
Proof.
  assert (H : get_article_summaries Sample.rt Sample.failing_summary
                Sample.three_urls Sample.start
              = (Raise Sample.rate_limited,
                 MkState 6
                   [EvFetch (PStr "http://a");
                    EvChat ByProcessUrl None
                      (Some (summary_prompt "http://a" "page a"));
                    EvFetch (PStr "http://b");
                    EvFetch (PStr "http://c");
                    EvChat ByProcessUrl None
                      (Some (summary_prompt "http://c" "page c"))]))
    by reflexivity.
  split; [exact H|]. intros (summaries & s' & H'). congruence.
Qed.

(** A URL that contains a double quote, for comparison: it is pasted
    unescaped into the entry text, which then fails to parse, and the
    page task raises. *)
Example quote_in_url_breaks_the_entry :
  (run_task (process_url Sample.rt Sample.every_page
               (PStr ("http://a/" +:+ dq +:+ "x")))
            0).1
  = Raise (JSONDecodeError
             (summary_text Sample.rt ("http://a/" +:+ dq +:+ "x") "sum a")).
Proof. reflexivity. Qed.

Lemma failed_fetches_witness :
  (exists s',
      get_article_summaries Sample.rt Sample.three_pages Sample.three_urls
        Sample.start
      = (Ok [Sample.entry "http://a" "sum a"; Sample.entry "http://c" "sum c"], s'))
  /\ (exists ex' s',
        get_article_summaries Sample.rt Sample.failing_summary Sample.three_urls
          Sample.start = (Raise ex', s')).
Proof.
  split.
  - destruct (failed_fetches_are_dropped Sample.rt Sample.three_pages
                Sample.three_urls ["http://a"; "http://b"; "http://c"]
                Sample.start eq_refl) as (Hok & _ & _).
    { symmetry. apply (Permutation_rev (seq 0 3)). }
    destruct (Hok _ (three_pages_outcome)) as (s' & Hrun & _).
    exists s'. exact Hrun.
  - destruct (failed_fetches_are_dropped Sample.rt Sample.failing_summary
                Sample.three_urls ["http://a"; "http://b"; "http://c"]
                Sample.start eq_refl) as (_ & _ & Hsum).
    { symmetry. apply (Permutation_rev (seq 0 3)). }
    apply (Hsum 2 "http://c" "page c" Sample.rate_limited); reflexivity.
Defined.

Lemma summaries_keep_input_order_witness :
  exists s',
    get_article_summaries Sample.rt Sample.three_pages Sample.three_urls
      Sample.start
    = (Ok [Sample.entry "http://a" "sum a"; Sample.entry "http://c" "sum c"], s').
Proof.
  destruct (summaries_keep_input_order Sample.rt Sample.three_pages
              Sample.three_urls ["http://a"; "http://b"; "http://c"]
              [Some (Sample.entry "http://a" "sum a"); None;
               Some (Sample.entry "http://c" "sum c")]
              Sample.start eq_refl)
    as (summaries & s' & Hrun & -> & _).
  { symmetry. apply (Permutation_rev (seq 0 3)). }
  { exact three_pages_outcome. }
  exists s'. exact Hrun.
Defined.

(** ** The calls a run issues *)

Section EmitFacts.

Variable P : event -> Prop.

Lemma emits_ret {A} (a : A) : emits P (ret a).
Proof.
  intros s r s' [= <- <-]. exists []. now rewrite app_nil_r.
Qed.

Lemma emits_raise {A} ex : emits P (@raise A ex).
Proof.
  intros s r s' [= <- <-]. exists []. now rewrite app_nil_r.
Qed.

Lemma emits_lift {A} (r0 : res A) : emits P (lift r0).
Proof.
  intros s r s' [= <- <-]. exists []. now rewrite app_nil_r.
Qed.

Lemma emits_external {A} ev (reply : nat -> A + exn) :
  P ev -> emits P (external ev reply).
Proof.
  intros Hev s r s'. unfold external.
  destruct (reply (clock s)); intros [= <- <-]; exists [ev];
    (split; [reflexivity|now constructor]).
Qed.

Lemma emits_bind {A B} (m : M A) (k : A -> M B) :
  emits P m -> (forall a, emits P (k a)) -> emits P (bind m k).
Proof.
  intros Hm Hk s r s'. unfold bind.
  destruct (m s) as [[a|ex|] s1] eqn:E.
  - intros Hka. destruct (Hm _ _ _ E) as (evs1 & H1 & F1).
    destruct (Hk a _ _ _ Hka) as (evs2 & H2 & F2).
    exists (evs1 ++ evs2). split; [|now apply Forall_app].
    rewrite H2, H1. now rewrite app_assoc.
  - intros [= <- <-]. eapply Hm; eauto.
  - intros [= <- <-]. eapply Hm; eauto.
Qed.

Lemma emits_for_each {A S R} (body : A -> S -> M (S + R)) xs :
  (forall x acc, emits P (body x acc)) ->
  forall acc, emits P (for_each body xs acc).
Proof.
  intros Hbody. induction xs as [|x xs IH]; intros acc; simpl.
  - apply emits_ret.
  - apply emits_bind; [apply Hbody|].
    intros [acc'|r]; [apply IH|apply emits_ret].
Qed.

Lemma emits_gather {A B} (w : World) (f : A -> M B) xs :
  (forall x, emits P (f x)) -> emits P (gather w f xs).
Proof.
  intros Hf s r s' H.
  pose proof (gather_issues_all w f xs s) as Hs. rewrite H in Hs.
  simpl in Hs. subst s'. eexists. split; [reflexivity|].
  unfold issued. apply Forall_concat, Forall_forall. intros evs Hin.
  apply list_elem_of_In, in_map_iff in Hin as ([rx evs'] & <- & Hin).
  apply list_elem_of_In, list_elem_of_lookup in Hin as [j Hin].
  rewrite list_lookup_imap in Hin.
  destruct (xs !! j) as [x|]; [|discriminate]. simpl in Hin.
  injection Hin as Hin. unfold run_task in Hin.
  destruct (f x _) as [rx' sx] eqn:E. injection Hin as <- <-.
  destruct (Hf _ _ _ _ E) as (evs & Htr & F). simpl in Htr.
  now rewrite Htr.
Qed.

End EmitFacts.

Section PlanningRequests.

Variable rt : Runtime.
Variable w : World.

Lemma emits_set_status_message message page_instance_id :
  emits (plans_from_scratch rt) (set_status_message w message page_instance_id).
Proof.
  intros s r s'. unfold set_status_message.
  destruct (clients_at w (clock s) !! page_instance_id).
  - now apply emits_external.
  - apply emits_raise.
Qed.

Lemma emits_get_urls_to_browse searches :
  emits (plans_from_scratch rt) (get_urls_to_browse rt w searches).
Proof.
  unfold get_urls_to_browse, get_search_results.
  apply emits_bind.
  - apply emits_bind; [apply emits_lift|]. intros items.
    apply emits_bind.
    + apply emits_for_each. intros x acc. unfold get_search_results_body.
      apply emits_bind; [now apply emits_external|].
      intros [results|]; apply emits_ret.
    + intros [acc|v]; apply emits_ret.
  - intros searchresults.
    destruct (eq_str searchresults "Search error."); [apply emits_ret|].
    now apply emits_external.
Qed.

Lemma emits_process_url URL : emits (plans_from_scratch rt) (process_url rt w URL).
Proof.
  unfold process_url, fetch_and_parse_url.
  apply emits_bind.
  - apply emits_bind; [now apply emits_external|].
    intros response. destruct (response.1 =? 200)%Z; apply emits_ret.
  - intros [page_content|]; [|apply emits_ret].
    destruct URL; try apply emits_raise.
    apply emits_bind; [now apply emits_external|].
    intros summary. apply emits_lift.
Qed.

Lemma emits_get_article_summaries text :
  emits (plans_from_scratch rt) (get_article_summaries rt w text).
Proof.
  unfold get_article_summaries.
  apply emits_bind; [apply emits_lift|]. intros v.
  apply emits_bind; [apply emits_lift|]. intros urls.
  apply emits_bind; [|intros; apply emits_ret].
  apply emits_gather. apply emits_process_url.
Qed.

Lemma emits_identify_searches : emits (plans_from_scratch rt) (identify_searches rt w None).
Proof.
  unfold identify_searches.
  apply emits_bind.
  - apply emits_external. split; reflexivity.
  - intros searches.
    destruct (String.eqb searches "No searches required."); [apply emits_ret|].
    destruct searches; [apply emits_raise|apply emits_lift].
Qed.

Lemma emits_is_background_info_sufficient Summaries :
  emits (plans_from_scratch rt) (is_background_info_sufficient rt w Summaries).
Proof.
  unfold is_background_info_sufficient.
  apply emits_bind; [now apply emits_external|].
  intros response.
  destruct (String.eqb response "More information needed."); apply emits_ret.
Qed.

Lemma emits_research_loop fuel page_instance_id :
  forall Summaries, emits (plans_from_scratch rt) (research_loop rt w fuel page_instance_id Summaries).
Proof.
  induction fuel as [|fuel IH]; intros Summaries; [apply emits_lift|].
  rewrite research_loop_S.
  apply emits_bind; [apply emits_identify_searches|]. intros searches.
  destruct (is_none searches).
  { apply emits_bind; [apply emits_set_status_message|].
    intros _. apply emits_ret. }
  apply emits_bind; [apply emits_set_status_message|]. intros _.
  apply emits_bind; [apply emits_get_urls_to_browse|]. intros URLsToBrowse.
  destruct (String.eqb URLsToBrowse "Search error."); [apply emits_ret|].
  apply emits_bind; [apply emits_set_status_message|]. intros _.
  apply emits_bind; [apply emits_get_article_summaries|]. intros newSummaries.
  apply emits_bind; [apply emits_set_status_message|]. intros _.
  apply emits_bind; [apply emits_is_background_info_sufficient|].
  intros [|]; [|apply IH].
  apply emits_bind; [apply emits_set_status_message|].
  intros _. apply emits_ret.
Qed.

(** In no run of the orchestrator does a planning call carry the
    summaries gathered so far: every planning call of every round
    sends the first-round instruction. *)
Lemma every_round_plans_from_scratch fuel rb :
  emits (plans_from_scratch rt) (search_and_add_background_references rt w fuel rb).
Proof.
  unfold search_and_add_background_references.
  apply emits_bind.
  - destruct (rb_page_instance_id rb); [apply emits_ret|apply emits_raise].
  - intros page_instance_id. apply emits_research_loop.
Qed.

End PlanningRequests.

(** ** Rounds of the loop *)

Section RoundFacts.

Variable rt : Runtime.
Variable w : World.

(** C9: the loop has no round cap.  In a world where the planner
    always proposes searches, no search call fails, every page of the
    chosen URL list is either dropped or summarised, the sufficiency
    check always answers ["More information needed."] and the observer
    stays connected, no number of rounds ends the loop: for every
    bound [fuel] the loop is still running after [fuel] rounds, having
    issued at least seven external calls in each. *)
Theorem research_loop_has_no_round_cap
    page_instance_id sink plan search rest urls_text urls :
  (forall t, chat_reply w t (Some (first_plan rt)) None = inl plan) ->
  plan <> "No searches required." ->
  plan <> "" ->
  json_loads rt (with_brackets plan) = inl (PList (search :: rest)) ->
  (forall t, bing_reply w t search <> None) ->
  (forall t searchresults,
      chat_reply w t None (Some (browse_instruction rt searchresults))
      = inl urls_text) ->
  urls_text <> "Search error." ->
  json_loads rt urls_text = inl (PList (PStr <$> urls)) ->
  (forall t n, gather_order w t n ≡ₚ seq 0 n) ->
  (forall t, exists outs, pages_outcome rt w t urls outs) ->
  (forall t Summaries,
      chat_reply w t (Some (sufficiency_instruction rt Summaries)) None
      = inl "More information needed.") ->
  (forall t, clients_at w t !! page_instance_id = Some sink) ->
  (forall t message, send_reply w t sink message = None) ->
  forall fuel,
    (forall Summaries s,
        exists s',
          research_loop rt w fuel page_instance_id Summaries s = (Diverge, s')
          /\ clock s + 7 * fuel <= clock s')
    /\ (forall rb s,
          rb_page_instance_id rb = Some page_instance_id ->
          exists s',
            search_and_add_background_references rt w fuel rb s = (Diverge, s')).
Proof.
  intros Hplan Hns Hne Hparse Hbing Hbrowse Hurls Hload Hord Hpages Hsuff
         Hreg Hsend fuel.
  assert (Hloop : forall Summaries s,
             exists s',
               research_loop rt w fuel page_instance_id Summaries s = (Diverge, s')
               /\ clock s + 7 * fuel <= clock s').
  { induction fuel as [|fuel IH]; intros Summaries s.
    { exists s. split; [reflexivity|lia]. }
    rewrite research_loop_S.
    (* planning *)
    set (s1 := after s (EvChat ByIdentifySearches (Some (first_plan rt)) None)).
    assert (Hid : identify_searches rt w None s
                  = (Ok (PList (search :: rest)), s1)).
    { rewrite (identify_searches_parses rt w plan s (Hplan _) Hns Hne).
      unfold parsed. now rewrite Hparse. }
    rewrite (bind_Ok _ _ _ _ _ Hid).
    change (is_none (PList (search :: rest))) with false. cbv iota.
    (* searching *)
    rewrite (bind_Ok _ _ _ _ _
               (set_status_message_delivered w "Searching..." _ s1 sink
                  (Hreg _) (Hsend _ _))).
    set (s2 := after s1 _).
    assert (Hget : exists searchresults,
               get_urls_to_browse rt w (PList (search :: rest)) s2
               = (Ok urls_text,
                  after (after s2 (EvSearch search))
                    (EvChat ByGetUrlsToBrowse None
                       (Some (browse_instruction rt searchresults))))).
    { rewrite get_urls_to_browse_cases, get_search_results_cons.
      destruct (bing_reply w (clock s2) search) as [results|] eqn:Hb;
        [|now apply Hbing in Hb].
      eexists. change (eq_str (PList _) "Search error.") with false.
      cbv iota zeta. rewrite Hbrowse. reflexivity. }
    destruct Hget as (searchresults & Hget).
    rewrite (bind_Ok _ _ _ _ _ Hget).
    apply String.eqb_neq in Hurls. rewrite Hurls.
    set (s4 := after (after s2 _) _).
    (* browsing *)
    rewrite (bind_Ok _ _ _ _ _
               (set_status_message_delivered w "Browsing and analyzing..." _ s4
                  sink (Hreg _) (Hsend _ _))).
    set (s5 := after s4 _).
    destruct (Hpages (clock s5)) as (outs & Houts).
    destruct (get_article_summaries_joined rt w urls_text urls outs s5 Hload
                (every_task_completes _ _ (Hord _ _)) Houts) as (tr & Hsum).
    rewrite (bind_Ok _ _ _ _ _ Hsum).
    set (s6 := MkState _ tr).
    (* checking *)
    rewrite (bind_Ok _ _ _ _ _
               (set_status_message_delivered w "Double checking sources..." _ s6
                  sink (Hreg _) (Hsend _ _))).
    set (s7 := after s6 _).
    rewrite bind_Ok with (a := false)
      (s' := after s7 (EvChat ByIsBackgroundInfoSufficient
                         (Some (sufficiency_instruction rt
                                  (accumulated Summaries (omap id outs)))) None))
      by (rewrite is_background_info_sufficient_cases, Hsuff; reflexivity).
    (* and again *)
    destruct (IH (Some (accumulated Summaries (omap id outs)))
                (after s7 (EvChat ByIsBackgroundInfoSufficient
                             (Some (sufficiency_instruction rt
                                      (accumulated Summaries (omap id outs))))
                             None)))
      as (s' & Hrec & Hclock).
    exists s'. split; [exact Hrec|].
    simpl in Hclock. simpl. lia. }
  split; [exact Hloop|].
  intros rb s Hrb. rewrite (search_and_add_registered _ _ _ _ _ Hrb).
  destruct (Hloop None s) as (s' & H & _). eauto.
Qed.

End RoundFacts.

Lemma restless_pages t :
  pages_outcome Sample.rt Sample.restless t ["http://a"; "http://b"]
    [Some (Sample.entry "http://a" "sum a"); None].
Proof.
  apply pages_cons; [now apply page_summarised with (content := "page a")|].
  apply pages_cons; [now apply page_dropped with (status_code := 404%Z) (content := "")|].
  apply pages_nil.
Defined.

Lemma research_loop_has_no_round_cap_witness :
  exists s',
    search_and_add_background_references Sample.rt Sample.restless 3
      Sample.request Sample.start = (Diverge, s').
Proof.
  destruct (research_loop_has_no_round_cap Sample.rt Sample.restless
              Sample.page_instance 7 (Sample.array_text ["a"]) (PStr "a") []
              (Sample.array_text ["http://a"; "http://b"])
              ["http://a"; "http://b"]) with (fuel := 3) as (_ & Hrun).
  - intros t. reflexivity.
  - discriminate.
  - discriminate.
  - reflexivity.
  - intros t. discriminate.
  - intros t searchresults. reflexivity.
  - discriminate.
  - reflexivity.
  - intros t n. symmetry. apply (Permutation_rev (seq 0 n)).
  - intros t. eexists. apply restless_pages.
  - intros t Summaries. reflexivity.
  - intros t. reflexivity.
  - intros t message. reflexivity.
  - apply Hrun. reflexivity.
Defined.

(** C2, on a run whose first sufficiency check asks for more: the
    second round sends the planner the first-round instruction again,
    not the instruction that embeds the summaries gathered so far; the
    planner therefore repeats its plan, and the second round's summary
    is appended to the first round's. *)
Theorem second_round_repeats_first_plan :
  let run :=
    search_and_add_background_references Sample.rt Sample.two_rounds 2
      Sample.request Sample.start in
  planning_requests (trace run.2)
  = [Some (first_plan Sample.rt); Some (first_plan Sample.rt)]
  /\ planning_requests (trace run.2)
     <> [Some (first_plan Sample.rt);
         Some (additional_plan Sample.rt [Sample.entry "http://a" "sum a"])]
  /\ run.1
     = Ok (Some (background_info Sample.rt
                   [Sample.entry "http://a" "sum a";
                    Sample.entry "http://a" "sum a"])).
Proof.
  cbv zeta. split; [reflexivity|]. split; [|reflexivity].
  intros H. vm_compute in H. discriminate H.
Qed.

(** * Further properties *)

(** ** Strings and [concatenate_json_arrays] *)

Lemma append_cons c a b : String c a +:+ b = String c (a +:+ b).
Proof. reflexivity. Qed.

Lemma append_empty_r a : a +:+ "" = a.
Proof. induction a as [|c a IH]; [reflexivity|]. now rewrite append_cons, IH. Qed.

Lemma append_assoc a b c : (a +:+ b) +:+ c = a +:+ (b +:+ c).
Proof.
  induction a as [|x a IH]; [reflexivity|]. now rewrite !append_cons, IH.
Qed.

Lemma append_is_empty a b : a +:+ b = "" -> b = "".
Proof. destruct a; [trivial|discriminate]. Qed.

Section Strip.

Variable chars : list ascii.

Lemma rstrip_only t : only_chars chars t = true -> rstrip chars t = "".
Proof.
  induction t as [|c t IH]; [reflexivity|]. simpl.
  intros H. apply andb_true_iff in H as [Hc Ht].
  now rewrite (IH Ht), Hc.
Qed.

(** Trailing characters of the set do not matter to [rstrip]. *)
Lemma rstrip_app_only a t :
  only_chars chars t = true -> rstrip chars (a +:+ t) = rstrip chars a.
Proof.
  intros Ht. induction a as [|c a IH].
  - now apply rstrip_only.
  - rewrite append_cons. simpl. now rewrite IH.
Qed.

(** Leading characters of the set do not matter to [lstrip]. *)
Lemma lstrip_app_only h b :
  only_chars chars h = true -> lstrip chars (h +:+ b) = lstrip chars b.
Proof.
  induction h as [|c h IH]; [reflexivity|].
  intros H. simpl in H. apply andb_true_iff in H as [Hc Hh].
  rewrite append_cons. simpl. rewrite Hc. now apply IH.
Qed.

(** What [rstrip] keeps of a suffix, it keeps with everything before. *)
Lemma rstrip_app_kept a b :
  rstrip chars b <> "" -> rstrip chars (a +:+ b) = a +:+ rstrip chars b.
Proof.
  intros Hb. induction a as [|c a IH]; [reflexivity|].
  rewrite !append_cons. simpl. rewrite IH.
  destruct (a +:+ rstrip chars b) eqn:E; [|reflexivity].
  now apply append_is_empty in E.
Qed.

Lemma rstrip_idempotent s : rstrip chars (rstrip chars s) = rstrip chars s.
Proof.
  induction s as [|c s IH]; [reflexivity|]. simpl.
  destruct (rstrip chars s) as [|d kept] eqn:E.
  - destruct (in_chars chars c) eqn:Hc; [reflexivity|]. simpl. now rewrite Hc.
  - simpl. simpl in IH. rewrite IH. reflexivity.
Qed.

End Strip.

(** X1: padding is ignored, and so are brackets.  Whatever run of
    closing brackets, newlines, carriage returns and spaces ends the
    first text, and whatever run of opening brackets, newlines,
    carriage returns and spaces starts the second, the result is the
    same as without them: the brackets of nested arrays at the seam
    are removed together with the outer ones. *)
Theorem concatenate_json_arrays_ignores_seam a t h b :
  only_chars closing_chars t = true ->
  only_chars opening_chars h = true ->
  concatenate_json_arrays (a +:+ t) (h +:+ b) = concatenate_json_arrays a b.
Proof.
  intros Ht Hh. unfold concatenate_json_arrays.
  now rewrite (rstrip_app_only _ _ _ Ht), (lstrip_app_only _ _ _ Hh).
Qed.

Lemma concatenate_json_arrays_seam_witness :
  concatenate_json_arrays ("[[1], [2" +:+ ("]] " +:+ nl)) ("[[" +:+ "3]]")
  = concatenate_json_arrays "[[1], [2" "3]]"
  /\ concatenate_json_arrays "[[1], [2" "3]]" = "[[1], [2, 3]]".
Proof.
  split; [|reflexivity].
  apply (concatenate_json_arrays_ignores_seam "[[1], [2" ("]] " +:+ nl) "[[" "3]]");
    reflexivity.
Defined.

(** X2: two bracketed texts are joined into one bracketed text.  When
    the inside [x] of the first does not end, and the rest [y] of the
    second does not start, with a character that is stripped, the
    result is ["[" x ", " y]; for an empty first array ([x] empty) it
    therefore starts with ["[, "]. *)
Theorem concatenate_json_arrays_joins x y :
  rstrip closing_chars x = x ->
  lstrip opening_chars y = y ->
  concatenate_json_arrays ("[" +:+ x +:+ "]") ("[" +:+ y)
  = "[" +:+ x +:+ ", " +:+ y.
Proof.
  intros Hx Hy. unfold concatenate_json_arrays.
  assert (H1 : rstrip closing_chars ("[" +:+ x +:+ "]") = "[" +:+ x).
  { change ("[" +:+ x +:+ "]") with (String "[" (x +:+ "]")).
    change ("[" +:+ x) with (String "[" x).
    simpl rstrip. rewrite (rstrip_app_only closing_chars x "]" eq_refl), Hx.
    destruct x; reflexivity. }
  assert (H2 : lstrip opening_chars ("[" +:+ y) = y).
  { change ("[" +:+ y) with (String "[" y). simpl. exact Hy. }
  rewrite H1, H2. now rewrite append_assoc.
Qed.

Lemma concatenate_json_arrays_joins_witness :
  concatenate_json_arrays "[1, 2]" "[3, 4]" = "[1, 2, 3, 4]"
  /\ concatenate_json_arrays "[]" "[3]" = "[, 3]".
Proof.
  split.
  - apply (concatenate_json_arrays_joins "1, 2" "3, 4]"); reflexivity.
  - apply (concatenate_json_arrays_joins "" "3]"); reflexivity.
Defined.

(** ** The websocket listener *)

Lemma ws_receive_ended fuel inbox k ended :
  ws_receive fuel inbox k = Some ended -> ended <> Message.
Proof.
  revert k. induction fuel as [|fuel IH]; intros k; simpl; [discriminate|].
  destruct (inbox k) eqn:E; [apply IH| |]; intros [= <-]; discriminate.
Qed.

Lemma ws_unregister_other page_instance_id other clients :
  other <> page_instance_id ->
  ws_unregister page_instance_id clients !! other = clients !! other.
Proof.
  intros Hne. unfold ws_unregister.
  destruct (clients !! page_instance_id); [|reflexivity].
  apply lookup_delete_ne. congruence.
Qed.

Lemma ws_register_other page_instance_id sink other clients :
  other <> page_instance_id ->
  ws_register page_instance_id sink clients !! other = clients !! other.
Proof. intros Hne. apply lookup_insert_ne. congruence. Qed.

Lemma ws_ended_unregisters fuel page_instance_id sink inbox clients ended :
  ws_receive fuel inbox 0 = Some ended ->
  (ws fuel page_instance_id sink None inbox clients).2
  = ws_unregister page_instance_id (ws_register page_instance_id sink clients).
Proof.
  intros Hend. pose proof (ws_receive_ended _ _ _ _ Hend) as Hne.
  unfold ws. rewrite Hend.
  destruct ended as [|ex|]; [contradiction| |]; reflexivity.
Qed.

(** X3: a connection that ends leaves no trace in the registry.  When
    the greeting is sent and the receive loop ends, by an exception or
    by cancellation, the listener has removed its own session, every
    other session is registered as before, and if the id was fresh the
    registry is exactly what it was. *)
Theorem ws_restores_registry fuel page_instance_id sink inbox clients ended :
  ws_receive fuel inbox 0 = Some ended ->
  let after_ws := (ws fuel page_instance_id sink None inbox clients).2 in
  after_ws !! page_instance_id = None
  /\ (forall other, other <> page_instance_id ->
                    after_ws !! other = clients !! other)
  /\ (clients !! page_instance_id = None -> after_ws = clients)
  /\ (ws fuel page_instance_id sink None inbox clients).1 <> WsListening.
Proof.
  intros Hend. pose proof (ws_receive_ended _ _ _ _ Hend) as Hne.
  unfold ws. rewrite Hend.
  assert (Hclean :
    let c := ws_unregister page_instance_id
               (ws_register page_instance_id sink clients) in
    c !! page_instance_id = None
    /\ (forall other, other <> page_instance_id -> c !! other = clients !! other)
    /\ (clients !! page_instance_id = None -> c = clients)).
  { cbv zeta. split; [apply ws_unregister_lookup|]. split.
    - intros other Ho. rewrite ws_unregister_other by exact Ho.
      now apply ws_register_other.
    - intros Hfresh. unfold ws_unregister. rewrite ws_register_lookup.
      unfold ws_register. now apply delete_insert_id. }
  destruct ended as [|ex|]; [contradiction| |];
    cbv zeta in *; simpl; (repeat split; try apply Hclean; discriminate).
Qed.

Lemma ws_restores_registry_witness :
  ws 5 "page-2" 9 None
     (fun k => if (k <? 2)%nat then Message else ReceiveCancelled)
     Sample.connected
  = (WsCancelled, Sample.connected).
Proof.
  pose proof (ws_restores_registry 5 "page-2" 9
                (fun k => if (k <? 2)%nat then Message else ReceiveCancelled)
                Sample.connected ReceiveCancelled eq_refl) as (_ & _ & H & _).
  cbv zeta in H. specialize (H eq_refl).
  transitivity
    (WsCancelled,
     (ws 5 "page-2" 9 None
         (fun k => if (k <? 2)%nat then Message else ReceiveCancelled)
         Sample.connected).2); [reflexivity|].
  now rewrite H.
Defined.

(** X4: after the listener has cleaned up, a status message for its
    session raises [KeyError] and nothing is sent. *)
Theorem notify_after_disconnect_is_a_key_error
    w fuel page_instance_id sink inbox clients ended message s :
  ws_receive fuel inbox 0 = Some ended ->
  clients_at w (clock s)
    = (ws fuel page_instance_id sink None inbox clients).2 ->
  set_status_message w message page_instance_id s
  = (Raise (KeyError page_instance_id), s).
Proof.
  intros Hend Hreg.
  rewrite set_status_message_cases, Hreg.
  rewrite (ws_ended_unregisters _ _ _ _ _ _ Hend), ws_unregister_lookup.
  reflexivity.
Qed.

Lemma notify_after_disconnect_witness :
  set_status_message Sample.lost_observer "Searching..." Sample.page_instance
    Sample.start
  = (Raise (KeyError "page-1"), Sample.start).
Proof.
  apply (notify_after_disconnect_is_a_key_error Sample.lost_observer 1
           Sample.page_instance 7 (fun _ => ReceiveFailed Sample.closed_socket)
           ∅ (ReceiveFailed Sample.closed_socket)); reflexivity.
Defined.

(** X5: a greeting that fails leaves the sink registered.  The
    greeting is sent before the [try], so its exception leaves the
    listener without the [finally]: the session stays in the registry,
    and a later status message for it is sent on that sink instead of
    raising [KeyError]. *)
Theorem failed_greeting_leaves_sink_registered
    w fuel page_instance_id sink ex inbox clients message s :
  let after_ws := ws fuel page_instance_id sink (Some ex) inbox clients in
  after_ws.1 = WsRaised ex
  /\ after_ws.2 !! page_instance_id = Some sink
  /\ (clients_at w (clock s) = after_ws.2 ->
      set_status_message w message page_instance_id s =
      match send_reply w (clock s) sink message with
      | None => (Ok tt, after s (EvNotify message page_instance_id))
      | Some ex' => (Raise ex', after s (EvNotify message page_instance_id))
      end).
Proof.
  cbv zeta. unfold ws. simpl. split; [reflexivity|].
  split; [apply ws_register_lookup|].
  intros Hreg. rewrite set_status_message_cases, Hreg, ws_register_lookup.
  reflexivity.
Qed.

Lemma failed_greeting_witness :
  (ws 3 Sample.page_instance 7 (Some Sample.closed_socket) (fun _ => Message) ∅).2
  = Sample.connected
  /\ set_status_message Sample.broken_pipe "Searching..." Sample.page_instance
       Sample.start
  = (Raise Sample.closed_socket, MkState 1 [EvNotify "Searching..." "page-1"]).
Proof.
  split; [reflexivity|].
  destruct (failed_greeting_leaves_sink_registered Sample.broken_pipe 3
              Sample.page_instance 7 Sample.closed_socket (fun _ => Message) ∅
              "Searching..." Sample.start) as (_ & _ & H).
  rewrite (H eq_refl). reflexivity.
Defined.

(** ** [process_raw_response] *)

Lemma absorb_messages_from messages combined :
  absorb_messages messages combined
  = (combined +:+ (absorb_messages messages "").1,
     (absorb_messages messages "").2).
Proof.
  revert combined.
  induction messages as [|message messages IH]; intros combined; simpl.
  - now rewrite append_empty_r.
  - destruct message as [| | | | |items|entries];
      try (now rewrite append_empty_r).
    destruct (py_get entries "content" (PStr "")) as [| | | |content| |];
      try (now rewrite append_empty_r).
    rewrite IH. rewrite (IH ("" +:+ content)). simpl.
    now rewrite append_assoc.
Qed.

Lemma absorb_choices_from choices combined :
  absorb_choices choices combined
  = (combined +:+ (absorb_choices choices "").1,
     (absorb_choices choices "").2).
Proof.
  revert combined.
  induction choices as [|choice choices IH]; intros combined; simpl.
  - now rewrite append_empty_r.
  - destruct choice as [| | | | |items|entries];
      try (now rewrite append_empty_r).
    destruct (py_iter (py_get entries "messages" (PList []))) as [messages| |];
      try (now rewrite append_empty_r).
    rewrite (absorb_messages_from messages combined).
    rewrite (absorb_messages_from messages "").
    destruct (absorb_messages messages "") as [text ok]. simpl.
    destruct ok; [|reflexivity].
    rewrite IH. rewrite (IH ("" +:+ text)). simpl.
    now rewrite append_assoc.
Qed.

(** What one chunk adds to [combined_content]. *)
Lemma absorb_content st obj :
  combined_content (absorb st obj)
  = combined_content st +:+ combined_content (absorb raw_initial obj).
Proof.
  destruct obj as [| | | | |items|entries]; simpl;
    try (now rewrite append_empty_r).
  destruct (py_iter (py_get entries "choices" (PList []))) as [choices| |].
  - destruct (is_none (final_model st)); simpl;
      rewrite (absorb_choices_from choices (combined_content st));
      reflexivity.
  - destruct (is_none (final_model st)); simpl; now rewrite append_empty_r.
  - destruct (is_none (final_model st)); simpl; now rewrite append_empty_r.
Qed.

Lemma fold_absorb_content objs st :
  combined_content (fold_left absorb objs st)
  = combined_content st +:+ chunks_content objs.
Proof.
  unfold chunks_content. revert st.
  induction objs as [|obj objs IH]; intros st; simpl.
  - now rewrite append_empty_r.
  - rewrite IH, (IH (absorb raw_initial obj)), absorb_content.
    now rewrite append_assoc.
Qed.

(** The content of a response is the content of its first chunks
    followed by the content of the remaining ones. *)
Lemma chunks_content_app objs1 objs2 :
  chunks_content (objs1 ++ objs2)
  = chunks_content objs1 +:+ chunks_content objs2.
Proof.
  unfold chunks_content at 1. rewrite fold_left_app, fold_absorb_content.
  reflexivity.
Qed.

(** X6: a chunk that is not an object changes nothing.  The
    [except] of the loop moves on to the next chunk: the content, the
    model, the history metadata and the id are what they are without
    that chunk. *)
Theorem non_object_chunk_is_skipped objs1 obj objs2 :
  (forall entries, obj <> PDict entries) ->
  fold_left absorb (objs1 ++ obj :: objs2) raw_initial
  = fold_left absorb (objs1 ++ objs2) raw_initial.
Proof.
  intros Hobj. rewrite !fold_left_app. simpl.
  destruct obj; try reflexivity. now destruct (Hobj entries).
Qed.

Lemma non_object_chunk_witness :
  fold_left absorb
    ([PDict [("model", PStr "m")]] ++ PList [PNone] :: [PDict [("id", PStr "x")]])
    raw_initial
  = MkRaw "" (PStr "m") PNone PNone.
Proof.
  rewrite (non_object_chunk_is_skipped [PDict [("model", PStr "m")]]
             (PList [PNone]) [PDict [("id", PStr "x")]]);
    [reflexivity|discriminate].
Defined.

Lemma absorb_plain_messages messages parts :
  Forall2 (fun message part => plain_message message = Some part) messages parts ->
  absorb_messages messages "" = (concat_strings parts, true).
Proof.
  induction 1 as [|message part messages parts Hm Hrest IH]; [reflexivity|].
  simpl. unfold plain_message in Hm.
  destruct message as [| | | | |items|entries]; try discriminate.
  destruct (py_get entries "content" (PStr "")) as [| | | |content| |];
    try discriminate.
  injection Hm as <-.
  rewrite absorb_messages_from, IH. reflexivity.
Qed.

Lemma absorb_plain_choices choices texts :
  Forall2 choice_says choices texts ->
  absorb_choices choices "" = (concat_strings texts, true).
Proof.
  induction 1 as [|choice text choices texts Hc Hrest IH]; [reflexivity|].
  destruct Hc as (entries & messages & parts & -> & Hget & Hparts & ->).
  simpl. rewrite Hget. simpl py_iter. cbv iota.
  rewrite (absorb_plain_messages _ _ Hparts).
  rewrite absorb_choices_from, IH. reflexivity.
Qed.

Lemma chunk_says_content obj text :
  chunk_says obj text -> combined_content (absorb raw_initial obj) = text.
Proof.
  intros (entries & choices & texts & -> & Hget & Hall & ->).
  simpl. rewrite Hget. simpl.
  now rewrite (absorb_plain_choices _ _ Hall).
Qed.

(** The content of well-formed chunks is the concatenation of their
    message contents, in order. *)
Lemma well_formed_chunks_concatenate objs texts :
  Forall2 chunk_says objs texts ->
  chunks_content objs = concat_strings texts.
Proof.
  induction 1 as [|obj text objs texts Hc Hrest IH]; [reflexivity|].
  change (obj :: objs) with ([obj] ++ objs).
  rewrite chunks_content_app, IH. unfold chunks_content at 1. simpl.
  now rewrite (chunk_says_content _ _ Hc).
Qed.

Lemma sample_chunk_says id model content :
  chunk_says (SampleChunks.chunk id model content) content.
Proof.
  eexists _, _, [content]. split; [reflexivity|]. split; [reflexivity|].
  split; [|simpl; now rewrite append_empty_r].
  repeat constructor.
  eexists _, _, [content]. split; [reflexivity|]. split; [reflexivity|].
  split; [repeat constructor|simpl; now rewrite append_empty_r].
Defined.

Lemma absorb_without_model st obj :
  is_none (final_model st) = true ->
  has_model obj = false ->
  is_none (final_model (absorb st obj)) = true.
Proof.
  intros Hst Hobj. destruct obj as [| | | | |items|entries]; try exact Hst.
  simpl in *. rewrite Hst. apply negb_false_iff in Hobj.
  destruct (py_iter (py_get entries "choices" (PList []))); exact Hobj.
Qed.

Lemma absorb_keeps_model st obj :
  is_none (final_model st) = false ->
  final_model (absorb st obj) = final_model st
  /\ final_history_metadata (absorb st obj) = final_history_metadata st
  /\ chat_id (absorb st obj) = chat_id st.
Proof.
  intros Hst. destruct obj as [| | | | |items|entries]; try easy.
  simpl. rewrite Hst.
  destruct (py_iter (py_get entries "choices" (PList []))); easy.
Qed.

Lemma fold_absorb_keeps_model objs st :
  is_none (final_model st) = false ->
  final_model (fold_left absorb objs st) = final_model st
  /\ final_history_metadata (fold_left absorb objs st) = final_history_metadata st
  /\ chat_id (fold_left absorb objs st) = chat_id st.
Proof.
  revert st. induction objs as [|obj objs IH]; intros st Hst; [easy|].
  simpl. destruct (absorb_keeps_model st obj Hst) as (Hm & Hh & Hi).
  destruct (IH (absorb st obj)) as (Hm' & Hh' & Hi'); [now rewrite Hm|].
  now rewrite Hm', Hh', Hi'.
Qed.

Lemma fold_absorb_without_model before st :
  is_none (final_model st) = true ->
  Forall (fun obj => has_model obj = false) before ->
  is_none (final_model (fold_left absorb before st)) = true.
Proof.
  revert st. induction before as [|obj before IH]; intros st Hst Hall;
    [exact Hst|].
  inversion Hall; subst. simpl. apply IH; [|assumption].
  now apply absorb_without_model.
Qed.

(** X7: the model, the history metadata and the id are those of the
    first chunk that carries a model.  Chunks before it leave the
    model unset, and no chunk after it changes any of the three. *)
Theorem metadata_of_first_chunk_with_model before entries later :
  Forall (fun obj => has_model obj = false) before ->
  has_model (PDict entries) = true ->
  let st := fold_left absorb (before ++ PDict entries :: later) raw_initial in
  final_model st = py_get entries "model" PNone
  /\ final_history_metadata st = py_get entries "history_metadata" PNone
  /\ chat_id st = py_get entries "id" PNone.
Proof.
  intros Hbefore Hhas. cbv zeta. rewrite fold_left_app. cbn [fold_left].
  assert (Hnone : is_none (final_model (fold_left absorb before raw_initial)) = true)
    by (now apply fold_absorb_without_model).
  set (st0 := fold_left absorb before raw_initial) in *.
  assert (Hfirst : final_model (absorb st0 (PDict entries)) = py_get entries "model" PNone
                   /\ final_history_metadata (absorb st0 (PDict entries))
                      = py_get entries "history_metadata" PNone
                   /\ chat_id (absorb st0 (PDict entries)) = py_get entries "id" PNone).
  { simpl. rewrite Hnone.
    destruct (py_iter (py_get entries "choices" (PList []))); easy. }
  destruct Hfirst as (Hm & Hh & Hi).
  destruct (fold_absorb_keeps_model later (absorb st0 (PDict entries)))
    as (Hm' & Hh' & Hi').
  { rewrite Hm. simpl in Hhas. now apply negb_true_iff in Hhas. }
  now rewrite Hm', Hh', Hi'.
Qed.

Lemma metadata_witness :
  let st :=
    fold_left absorb
      ([PList []; PDict [("id", PStr "c0")]]
         ++ PDict [("id", PStr "c1"); ("model", PStr "gpt")]
         :: [PDict [("id", PStr "c2"); ("model", PStr "other")]])
      raw_initial in
  final_model st = PStr "gpt" /\ chat_id st = PStr "c1".
Proof.
  destruct (metadata_of_first_chunk_with_model
              [PList []; PDict [("id", PStr "c0")]]
              [("id", PStr "c1"); ("model", PStr "gpt")]
              [PDict [("id", PStr "c2"); ("model", PStr "other")]])
    as (Hm & _ & Hi); [repeat constructor|reflexivity|].
  cbv zeta in *. now rewrite Hm, Hi.
Defined.

Section RawLines.

Variable rt : Runtime.

Lemma load_lines_app lines1 lines2 :
  load_lines rt (lines1 ++ lines2) =
  match load_lines rt lines1 with
  | Ok objs1 =>
      match load_lines rt lines2 with
      | Ok objs2 => Ok (objs1 ++ objs2)
      | other => other
      end
  | other => other
  end.
Proof.
  induction lines1 as [|line lines1 IH]; simpl.
  - destruct (load_lines rt lines2); reflexivity.
  - destruct (json_loads rt line); [|reflexivity].
    rewrite IH. destruct (load_lines rt lines1); [|reflexivity..].
    destruct (load_lines rt lines2); reflexivity.
Qed.

Lemma load_lines_loadable lines :
  Forall (line_loads rt) lines ->
  exists objs,
    load_lines rt (List.filter (fun line => negb (all_space line)) lines) = Ok objs.
Proof.
  induction 1 as [|line lines Hline Hrest IH]; [now exists []|].
  destruct IH as (objs & IH). simpl.
  destruct (all_space line) eqn:E; simpl; [eauto|].
  destruct Hline as [Hs|(obj & Hobj)]; [congruence|].
  rewrite Hobj, IH. eauto.
Qed.

(** X8: the first line that does not parse ends the function.  When
    the lines before it are blank or parse, a line that is not blank
    and does not parse raises its parse error, and no answer is
    returned, whatever follows. *)
Theorem malformed_line_raises date text before line later ex :
  split_lines text = before ++ line :: later ->
  Forall (line_loads rt) before ->
  all_space line = false ->
  json_loads rt line = inr ex ->
  process_raw_response rt date text = Raise ex.
Proof.
  intros Hsplit Hbefore Hline Hbad. unfold process_raw_response.
  rewrite Hsplit, List.filter_app, load_lines_app.
  destruct (load_lines_loadable _ Hbefore) as (objs & ->).
  simpl. rewrite Hline. simpl. now rewrite Hbad.
Qed.

Lemma split_lines_nonempty s : split_lines s <> [].
Proof.
  destruct s as [|c s]; simpl; [discriminate|].
  destruct (Ascii.eqb c "010"); [discriminate|].
  destruct (split_lines s); discriminate.
Qed.

Lemma split_lines_app a b :
  split_lines (a +:+ nl +:+ b) = split_lines a ++ split_lines b.
Proof.
  induction a as [|c a IH]; [reflexivity|].
  rewrite append_cons. simpl. rewrite IH.
  destruct (Ascii.eqb c "010"); [reflexivity|].
  destruct (split_lines a) as [|line lines] eqn:E; [|reflexivity].
  now apply split_lines_nonempty in E.
Qed.

Lemma split_one_line s : one_line s = true -> split_lines s = [s].
Proof.
  induction s as [|c s IH]; [reflexivity|]. simpl.
  intros H. apply andb_true_iff in H as [Hc Hs].
  apply negb_true_iff in Hc. now rewrite Hc, (IH Hs).
Qed.

(** X9: blank lines between chunks are ignored.  A line of white
    space inserted between two lines of the text changes nothing of
    the result. *)
Theorem blank_line_is_ignored date a blank b :
  all_space blank = true ->
  one_line blank = true ->
  process_raw_response rt date (a +:+ nl +:+ blank +:+ nl +:+ b)
  = process_raw_response rt date (a +:+ nl +:+ b).
Proof.
  intros Hblank Hone. unfold process_raw_response.
  rewrite !split_lines_app, (split_one_line _ Hone), !List.filter_app.
  simpl. now rewrite Hblank.
Qed.

(** X10: a private chat returns the pieces of the answer, joined.  When
    the lines of the response that are not blank parse to well-formed
    chunks, [process_raw_response] returns, indexing its result with
    [["messages"][0]["content"]] succeeds, and the value is the
    concatenation of the message contents of the chunks, in order. *)
Theorem private_chat_answer_concatenates date text objs texts :
  load_lines rt (List.filter (fun line => negb (all_space line))
                             (split_lines text)) = Ok objs ->
  Forall2 chunk_says objs texts ->
  exists combined_json,
    process_raw_response rt date text = Ok combined_json
    /\ messages_0_content combined_json = Ok (PStr (concat_strings texts)).
Proof.
  intros Hload Hsay. unfold process_raw_response. rewrite Hload.
  eexists. split; [reflexivity|].
  rewrite <- (well_formed_chunks_concatenate _ _ Hsay). reflexivity.
Qed.

End RawLines.

Lemma malformed_line_witness :
  process_raw_response Sample.rt "now"
    (SampleChunks.chunk_line "c1" "gpt" "Hel" +:+ nl +:+ "oops" +:+ nl
     +:+ SampleChunks.chunk_line "c1" "gpt" "lo")
  = Raise (JSONDecodeError "oops").
Proof.
  apply (malformed_line_raises Sample.rt "now" _
           [SampleChunks.chunk_line "c1" "gpt" "Hel"] "oops"
           [SampleChunks.chunk_line "c1" "gpt" "lo"]); try reflexivity.
  constructor; [|constructor]. right. eexists. reflexivity.
Defined.

Lemma blank_line_witness :
  process_raw_response Sample.rt "now"
    (SampleChunks.chunk_line "c1" "gpt" "Hel" +:+ nl +:+ "  " +:+ nl
     +:+ SampleChunks.chunk_line "c1" "gpt" "lo")
  = Ok (final_json "now" (MkRaw "Hello" (PStr "gpt") PNone (PStr "c1"))).
Proof.
  rewrite (blank_line_is_ignored Sample.rt "now"
             (SampleChunks.chunk_line "c1" "gpt" "Hel") "  "
             (SampleChunks.chunk_line "c1" "gpt" "lo") eq_refl eq_refl).
  reflexivity.
Defined.


Lemma private_chat_answer_witness :
  exists combined_json,
    process_raw_response Sample.rt "now"
      (SampleChunks.chunk_line "c1" "gpt" "Hel" +:+ nl
       +:+ SampleChunks.chunk_line "c1" "gpt" "lo") = Ok combined_json
    /\ messages_0_content combined_json = Ok (PStr (concat_strings ["Hel"; "lo"])).
Proof.
  apply (private_chat_answer_concatenates Sample.rt "now" _
           [SampleChunks.chunk "c1" "gpt" "Hel"; SampleChunks.chunk "c1" "gpt" "lo"]
           ["Hel"; "lo"]).
  - vm_compute. reflexivity.
  - repeat constructor; apply sample_chunk_says.
Defined.

(** ** The messages sent to the model *)

Lemma last_slice_snoc {A} (history : list A) message :
  last_slice (history ++ [message]) = [message].
Proof. unfold last_slice. now rewrite last_snoc. Qed.

Lemma includes_system_message st (system_preamble system_prompt : option string) :
  system_preamble <> None \/ system_prompt <> None ->
  negb (st_datasource st) || bool_decide (is_Some system_preamble)
  || bool_decide (is_Some system_prompt) = true.
Proof.
  intros [H|H].
  - destruct system_preamble; [|contradiction].
    rewrite (bool_decide_eq_true_2 (is_Some (Some s))) by eauto.
    now rewrite orb_true_r.
  - destruct system_prompt; [|contradiction].
    rewrite (bool_decide_eq_true_2 (is_Some (Some s))) by eauto.
    now rewrite orb_true_r.
Qed.

(** X11: a private chat sends the model the last message of the
    conversation and nothing before it.  With an instruction given
    (as preamble or as prompt) the model receives the system message
    followed by the role and content of the last message: the earlier
    turns, and the other fields of the last one, are left out. *)
Theorem private_chat_sends_last_message_only
    st history message role content system_preamble system_prompt :
  dict_get "role" message = Some role ->
  eq_str role "tool" = false ->
  dict_get "content" message = Some content ->
  system_preamble <> None \/ system_prompt <> None ->
  private_chat_messages st (history ++ [message]) system_preamble system_prompt
  = Ok [ [("role", PStr "system");
          ("content", PStr (system_content st system_preamble system_prompt))];
         [("role", role); ("content", content)] ].
Proof.
  intros Hrole Hnot Hcontent Hgiven.
  unfold private_chat_messages, send_chat_request, prepare_model_args.
  rewrite last_slice_snoc, (includes_system_message _ _ _ Hgiven).
  unfold filtered_messages, role_is_tool. simpl. rewrite Hrole, Hnot. simpl.
  destruct message as [|entry message]; [discriminate|].
  now rewrite Hrole, Hcontent.
Qed.

Lemma private_chat_witness :
  private_chat_messages (MkSettings "Be brief." true)
    ([[("role", PStr "user"); ("content", PStr "first question")];
      [("role", PStr "assistant"); ("content", PStr "first answer")]]
       ++ [[("id", PStr "m3"); ("role", PStr "user");
            ("content", PStr "second question")]])
    (Some "Plan the searches.") None
  = Ok [ [("role", PStr "system");
          ("content", PStr ("Plan the searches." +:+ nl +:+ nl +:+ "Be brief."))];
         [("role", PStr "user"); ("content", PStr "second question")] ].
Proof.
  apply private_chat_sends_last_message_only; try reflexivity.
  left. discriminate.
Defined.

(** X12: when the conversation is empty, or its last message is a
    tool message, a private chat sends the model the system message
    alone. *)
Theorem private_chat_without_user_turn
    st messages system_preamble system_prompt :
  messages = []
  \/ (exists history message,
         messages = history ++ [message] /\ role_is_tool message = true) ->
  system_preamble <> None \/ system_prompt <> None ->
  private_chat_messages st messages system_preamble system_prompt
  = Ok [ [("role", PStr "system");
          ("content", PStr (system_content st system_preamble system_prompt))] ].
Proof.
  intros Hm Hgiven.
  unfold private_chat_messages, send_chat_request, prepare_model_args.
  rewrite (includes_system_message _ _ _ Hgiven).
  destruct Hm as [->|(history & message & -> & Htool)].
  - reflexivity.
  - rewrite last_slice_snoc. unfold filtered_messages. simpl.
    rewrite Htool. reflexivity.
Qed.

Lemma private_chat_without_user_turn_witness :
  private_chat_messages (MkSettings "Be brief." false)
    ([[("role", PStr "user"); ("content", PStr "question")]]
       ++ [[("role", PStr "tool"); ("content", PStr "{}")]])
    None (Some "Choose the pages.")
  = Ok [[("role", PStr "system"); ("content", PStr "Choose the pages.")]].
Proof.
  apply private_chat_without_user_turn.
  - right. eexists _, _. split; reflexivity.
  - right. discriminate.
Defined.

Lemma copy_messages_shape request_messages copied :
  copy_messages request_messages = Ok copied ->
  Forall (fun message => role_is_tool message = false) request_messages ->
  Forall (fun message =>
            map fst message = ["role"; "content"]
            /\ role_is_tool message = false) copied.
Proof.
  revert copied.
  induction request_messages as [|message rest IH]; intros copied Hc Hall.
  - injection Hc as <-. constructor.
  - inversion Hall as [|? ? Hm Hrest]; subst.
    destruct message as [|entry message]; [now apply IH|].
    cbn [copy_messages] in Hc.
    destruct (dict_get "role" (entry :: message)) as [role|] eqn:Er;
      [|discriminate].
    destruct (dict_get "content" (entry :: message)) as [content|];
      [|discriminate].
    destruct (copy_messages rest) as [copied'| |]; try discriminate.
    injection Hc as <-. constructor; [|now apply IH].
    split; [reflexivity|].
    unfold role_is_tool in *. rewrite Er in Hm. simpl. exact Hm.
Qed.

(** X13: no tool message reaches the model, and nothing but roles and
    contents does.  Every message [send_chat_request] hands to the
    completion endpoint has exactly the two fields ["role"] and
    ["content"], and none of them has the role ['tool']. *)
Theorem sent_messages_have_role_and_content
    st messages system_preamble system_prompt sent :
  send_chat_request st messages system_preamble system_prompt = Ok sent ->
  Forall (fun message =>
            map fst message = ["role"; "content"]
            /\ role_is_tool message = false) sent.
Proof.
  unfold send_chat_request, prepare_model_args.
  destruct (copy_messages (filtered_messages messages)) as [copied| |] eqn:E;
    try discriminate.
  intros [= <-]. apply Forall_app. split.
  - destruct (_ || _); repeat constructor.
  - apply (copy_messages_shape _ _ E).
    unfold filtered_messages. apply Forall_forall. intros m Hin.
    apply list_elem_of_In, List.filter_In in Hin as [_ Hin].
    now apply negb_true_iff in Hin.
Qed.

Lemma sent_messages_witness :
  send_chat_request (MkSettings "Be brief." false)
    [ [("role", PStr "user"); ("content", PStr "q"); ("date", PStr "today")];
      [("role", PStr "tool"); ("content", PStr "{}")];
      [];
      [("role", PStr "assistant"); ("content", PStr "a"); ("id", PStr "m2")] ]
    None None
  = Ok [ [("role", PStr "system"); ("content", PStr "Be brief.")];
         [("role", PStr "user"); ("content", PStr "q")];
         [("role", PStr "assistant"); ("content", PStr "a")] ]
  /\ Forall (fun message =>
               map fst message = ["role"; "content"]
               /\ role_is_tool message = false)
            [ [("role", PStr "system"); ("content", PStr "Be brief.")];
              [("role", PStr "user"); ("content", PStr "q")];
              [("role", PStr "assistant"); ("content", PStr "a")] ].
Proof.
  split; [reflexivity|].
  apply (sent_messages_have_role_and_content (MkSettings "Be brief." false)
           [ [("role", PStr "user"); ("content", PStr "q"); ("date", PStr "today")];
             [("role", PStr "tool"); ("content", PStr "{}")];
             [];
             [("role", PStr "assistant"); ("content", PStr "a"); ("id", PStr "m2")] ]
           None None).
  reflexivity.
Defined.

Lemma copy_messages_app messages1 messages2 :
  copy_messages (messages1 ++ messages2) =
  match copy_messages messages1 with
  | Ok copied1 =>
      match copy_messages messages2 with
      | Ok copied2 => Ok (copied1 ++ copied2)
      | other => other
      end
  | other => other
  end.
Proof.
  induction messages1 as [|message messages1 IH].
  - simpl. destruct (copy_messages messages2); reflexivity.
  - destruct message as [|entry message]; [exact IH|].
    cbn [app copy_messages].
    destruct (dict_get "role" (entry :: message)); [|reflexivity].
    destruct (dict_get "content" (entry :: message)); [|reflexivity].
    rewrite IH. destruct (copy_messages messages1); [|reflexivity..].
    destruct (copy_messages messages2); reflexivity.
Qed.

(** X14: a message without content stops the request.  When the
    messages before it can be sent, a message that is not a tool
    message and has a role but no ["content"] key raises [KeyError],
    whatever follows it. *)
Theorem message_without_content_raises
    st before message later role sendable system_preamble system_prompt :
  copy_messages (filtered_messages before) = Ok sendable ->
  dict_get "role" message = Some role ->
  eq_str role "tool" = false ->
  dict_get "content" message = None ->
  send_chat_request st (before ++ message :: later) system_preamble system_prompt
  = Raise (KeyError "content").
Proof.
  intros Hbefore Hrole Hnot Hcontent.
  unfold send_chat_request, prepare_model_args, filtered_messages in *.
  rewrite List.filter_app, copy_messages_app, Hbefore. simpl.
  unfold role_is_tool at 1. rewrite Hrole, Hnot. simpl.
  destruct message as [|entry message]; [discriminate|].
  now rewrite Hrole, Hcontent.
Qed.

Lemma message_without_content_witness :
  send_chat_request (MkSettings "Be brief." false)
    ([[("role", PStr "user"); ("content", PStr "q")]]
       ++ [("role", PStr "assistant"); ("tool_calls", PList [])]
       :: [[("role", PStr "user"); ("content", PStr "again")]])
    None None
  = Raise (KeyError "content").
Proof.
  eapply message_without_content_raises; reflexivity.
Defined.

(** ** [generate_title] *)

Lemma role_content_snoc history msg role content copied :
  role_content history = Ok copied ->
  dict_get "role" msg = Some role ->
  dict_get "content" msg = Some content ->
  role_content (history ++ [msg])
  = Ok (copied ++ [[("role", role); ("content", content)]]).
Proof.
  revert copied. induction history as [|m history IH]; intros copied Hc Hr Hct.
  - injection Hc as <-. simpl. now rewrite Hr, Hct.
  - simpl in *.
    destruct (dict_get "role" m); [|discriminate].
    destruct (dict_get "content" m); [|discriminate].
    destruct (role_content history) as [copied'| |]; try discriminate.
    injection Hc as <-. now rewrite (IH copied' eq_refl Hr Hct).
Qed.

Lemma second_last_snoc2 {A} (l : list A) x y :
  second_last (l ++ [x] ++ [y]) = Some x.
Proof.
  unfold second_last. rewrite app_assoc, !rev_app_distr. reflexivity.
Qed.

(** X15: when the title request fails, the title is the content of
    the last message of the conversation. *)
Theorem generate_title_falls_back_to_last_message
    completion history msg role content copied ex :
  role_content history = Ok copied ->
  dict_get "role" msg = Some role ->
  dict_get "content" msg = Some content ->
  completion (copied ++ [[("role", role); ("content", content)]]
                ++ [[("role", PStr "user"); ("content", PStr title_prompt)]])
    = inr ex ->
  generate_title completion (history ++ [msg]) = Ok content.
Proof.
  intros Hc Hr Hct Hfail. unfold generate_title.
  rewrite (role_content_snoc _ _ _ _ _ Hc Hr Hct).
  rewrite <- app_assoc, Hfail, second_last_snoc2. reflexivity.
Qed.

Lemma generate_title_fallback_witness :
  generate_title (fun _ => inr (ExternalError "unavailable" (Some 503%Z)))
    ([[("role", PStr "user"); ("content", PStr "first")]]
       ++ [[("id", PStr "m2"); ("role", PStr "user"); ("content", PStr "second")]])
  = Ok (PStr "second").
Proof.
  eapply generate_title_falls_back_to_last_message; reflexivity.
Defined.

(** X16: for an empty conversation a failed title request is not
    recovered: the fallback indexes the message before the title
    instruction, there is none, and [IndexError] leaves the function. *)
Theorem generate_title_of_empty_conversation completion ex :
  completion [[("role", PStr "user"); ("content", PStr title_prompt)]] = inr ex ->
  generate_title completion [] = Raise IndexError.
Proof.
  intros Hfail. unfold generate_title. simpl. now rewrite Hfail.
Qed.

Lemma generate_title_empty_witness :
  generate_title (fun _ => inr (ExternalError "unavailable" (Some 503%Z))) []
  = Raise IndexError.
Proof. now apply generate_title_of_empty_conversation with
         (ex := ExternalError "unavailable" (Some 503%Z)). Defined.

(** ** The request boundary and the rounds *)

Section BoundaryFacts.

Variable rt : Runtime.
Variable w : World.

(** X17: a request without ["page_instance_id"] is refused before
    anything happens.  The lookup raises [KeyError]; no external call
    is issued, for any bound on the rounds, and the request is answered
    with status 500. *)
Theorem request_without_page_instance_id fuel rb s :
  rb_page_instance_id rb = None ->
  search_and_add_background_references rt w fuel rb s
  = (Raise (KeyError "page_instance_id"), s)
  /\ conversation_internal rt w fuel rb s
     = (Ok (ErrorResponse (KeyError "page_instance_id") 500), s).
Proof.
  intros Hrb.
  assert (H : search_and_add_background_references rt w fuel rb s
              = (Raise (KeyError "page_instance_id"), s)).
  { unfold search_and_add_background_references. now rewrite Hrb. }
  split; [exact H|]. now rewrite (conversation_internal_raises _ _ _ _ _ _ _ H).
Qed.

(** X18: [conversation_internal] never raises.  Whatever the services
    do, the request is answered with the streamed completion or with
    an error response that carries the exception and its status code
    (500 when it has none), unless the loop is still running. *)
Theorem conversation_internal_never_raises fuel rb s r s' :
  conversation_internal rt w fuel rb s = (r, s') ->
  r = Diverge
  \/ (exists body, r = Ok (StreamResponse body))
  \/ (exists ex, r = Ok (error_response ex)).
Proof.
  destruct (search_and_add_background_references rt w fuel rb s)
    as [[system_preamble|ex|] s1] eqn:E.
  - rewrite (conversation_internal_returns _ _ _ _ _ _ _ E). cbv zeta.
    destruct (stream_reply w (clock s1) _) as [body|ex]; intros [= <- <-]; eauto.
  - rewrite (conversation_internal_raises _ _ _ _ _ _ _ E).
    intros [= <- <-]. eauto.
  - unfold conversation_internal, try_except.
    rewrite (bind_Diverge _ _ _ _ E). intros [= <- <-]. eauto.
Qed.

Lemma str_last_app a b : b <> "" -> str_last (a +:+ b) = str_last b.
Proof.
  intros Hb. induction a as [|c a IH]; [reflexivity|].
  rewrite append_cons. simpl. rewrite IH.
  destruct (a +:+ b) eqn:E; [|reflexivity].
  now apply append_is_empty in E.
Qed.

Lemma background_info_is_no_sentinel Summaries :
  String.eqb (background_info rt Summaries) "Search error." = false.
Proof.
  apply String.eqb_neq. intros H.
  assert (Hl : str_last (background_info rt Summaries) = Some "010"%char).
  { unfold background_info.
    rewrite str_last_app
      by (intros E; apply append_is_empty in E; discriminate E).
    rewrite str_last_app by discriminate. reflexivity. }
  rewrite H in Hl. discriminate.
Qed.

(** X19: what the orchestrator returns is what the answer is given.
    When it returns [None] the completion is requested without a
    preamble, and when it returns an evidence preamble the completion
    is requested with exactly that preamble: a preamble is never taken
    for the search-error sentinel. *)
Theorem orchestrator_result_reaches_completion fuel rb s system_preamble s1 :
  search_and_add_background_references rt w fuel rb s = (Ok system_preamble, s1) ->
  system_preamble = None
  \/ (exists Summaries, system_preamble = Some (background_info rt Summaries)) ->
  conversation_internal rt w fuel rb s =
  match stream_reply w (clock s1) system_preamble with
  | inl body => (Ok (StreamResponse body), after s1 (EvStream system_preamble))
  | inr ex => (Ok (error_response ex), after s1 (EvStream system_preamble))
  end.
Proof.
  intros Hrun Hshape. rewrite (conversation_internal_returns _ _ _ _ _ _ _ Hrun).
  cbv zeta.
  assert (Hd : differs_from system_preamble "Search error." = true).
  { destruct Hshape as [->|(Summaries & ->)]; [reflexivity|].
    simpl. now rewrite background_info_is_no_sentinel. }
  now rewrite Hd.
Qed.

(** The round up to the sufficiency check. *)
Lemma research_loop_browsed fuel page_instance_id Summaries s newSummaries s6 :
  round_browsed rt w page_instance_id s newSummaries s6 ->
  research_loop rt w (S fuel) page_instance_id Summaries s =
  (AreWeDone <- is_background_info_sufficient rt w
                  (accumulated Summaries newSummaries) ;;
   if AreWeDone then
     set_status_message w "Generating answer..." page_instance_id ;;;
     ret (Some (background_info rt (accumulated Summaries newSummaries)))
   else
     research_loop rt w fuel page_instance_id
       (Some (accumulated Summaries newSummaries))) s6.
Proof.
  intros (URLsToBrowse & s4 & s5
          & (searches & s1 & s2 & s3 & Hid & Hsome & Hn1 & Hurls & Hne & Hn2)
          & Hsum & Hn3).
  rewrite research_loop_S, (bind_Ok _ _ _ _ _ Hid), Hsome.
  rewrite (bind_Ok _ _ _ _ _ Hn1), (bind_Ok _ _ _ _ _ Hurls).
  apply String.eqb_neq in Hne. rewrite Hne.
  rewrite (bind_Ok _ _ _ _ _ Hn2), (bind_Ok _ _ _ _ _ Hsum).
  now rewrite (bind_Ok _ _ _ _ _ Hn3).
Qed.

(** X20: a round whose sufficiency check is satisfied ends the loop
    with the evidence of all rounds.  Any answer other than
    ["More information needed."] counts as satisfied; the orchestrator
    then sends ["Generating answer..."] and returns the evidence
    preamble: the ["background_info_preamble"] prompt, the
    serialisation, indented by four, of the earlier summaries followed
    by the new ones, and the heading of the original system prompt. *)
Theorem satisfied_round_returns_the_evidence
    fuel page_instance_id Summaries s newSummaries s6 response sink :
  round_browsed rt w page_instance_id s newSummaries s6 ->
  chat_reply w (clock s6)
    (Some (sufficiency_instruction rt (accumulated Summaries newSummaries))) None
    = inl response ->
  response <> "More information needed." ->
  clients_at w (S (clock s6)) !! page_instance_id = Some sink ->
  send_reply w (S (clock s6)) sink "Generating answer..." = None ->
  research_loop rt w (S fuel) page_instance_id Summaries s
  = (Ok (Some (prompts rt "background_info_preamble"
               +:+ json_dumps_indent4 rt
                     (PList (accumulated Summaries newSummaries))
               +:+ nl +:+ nl +:+ "Original System Prompt:" +:+ nl +:+ nl)),
     after (after s6 (EvChat ByIsBackgroundInfoSufficient
                        (Some (sufficiency_instruction rt
                                 (accumulated Summaries newSummaries))) None))
           (EvNotify "Generating answer..." page_instance_id)).
Proof.
  intros Hround Hreply Hne Hreg Hsend.
  rewrite (research_loop_browsed _ _ _ _ _ _ Hround).
  rewrite bind_Ok with (a := true)
    (s' := after s6 (EvChat ByIsBackgroundInfoSufficient
                       (Some (sufficiency_instruction rt
                                (accumulated Summaries newSummaries))) None)).
  2:{ rewrite is_background_info_sufficient_cases, Hreply. cbv zeta.
      apply String.eqb_neq in Hne. now rewrite Hne. }
  cbv iota.
  rewrite (bind_Ok _ _ _ _ _
             (set_status_message_delivered w "Generating answer..."
                page_instance_id
                (after s6 (EvChat ByIsBackgroundInfoSufficient
                             (Some (sufficiency_instruction rt
                                      (accumulated Summaries newSummaries)))
                             None))
                sink Hreg Hsend)).
  reflexivity.
Qed.

(** X21: a round whose sufficiency check asks for more hands all the
    summaries to the next round.  The loop goes on with the earlier
    summaries followed by the new ones, none dropped and none
    reordered, and without notifying. *)
Theorem unsatisfied_round_keeps_all_summaries
    fuel page_instance_id Summaries s newSummaries s6 :
  round_browsed rt w page_instance_id s newSummaries s6 ->
  chat_reply w (clock s6)
    (Some (sufficiency_instruction rt (accumulated Summaries newSummaries))) None
    = inl "More information needed." ->
  research_loop rt w (S fuel) page_instance_id Summaries s
  = research_loop rt w fuel page_instance_id
      (Some (accumulated Summaries newSummaries))
      (after s6 (EvChat ByIsBackgroundInfoSufficient
                   (Some (sufficiency_instruction rt
                            (accumulated Summaries newSummaries))) None))
  /\ (forall earlier, Summaries = Some earlier ->
        accumulated Summaries newSummaries = earlier ++ newSummaries)
  /\ (Summaries = None -> accumulated Summaries newSummaries = newSummaries).
Proof.
  intros Hround Hreply. split; [|split; [now intros earlier ->|now intros ->]].
  rewrite (research_loop_browsed _ _ _ _ _ _ Hround).
  rewrite bind_Ok with (a := false)
    (s' := after s6 (EvChat ByIsBackgroundInfoSufficient
                       (Some (sufficiency_instruction rt
                                (accumulated Summaries newSummaries))) None)).
  - reflexivity.
  - rewrite is_background_info_sufficient_cases, Hreply. reflexivity.
Qed.

(** X22: a URL reply that is not JSON ends the request.  The reply of
    the URL choice is parsed as it is, without the bracket repair of
    the planning reply: when it does not parse, the round has announced
    the browsing, fetches no page, and the parse error leaves the
    loop. *)
Theorem unreadable_url_reply_raises
    fuel page_instance_id Summaries s URLsToBrowse s4 ex :
  round_searched rt w page_instance_id s URLsToBrowse s4 ->
  json_loads rt URLsToBrowse = inr ex ->
  get_article_summaries rt w URLsToBrowse s4 = (Raise ex, s4)
  /\ research_loop rt w (S fuel) page_instance_id Summaries s = (Raise ex, s4).
Proof.
  intros (searches & s1 & s2 & s3 & Hid & Hsome & Hn1 & Hurls & Hne & Hn2) Hp.
  assert (Hsum : get_article_summaries rt w URLsToBrowse s4 = (Raise ex, s4)).
  { unfold get_article_summaries.
    apply bind_Raise. rewrite loads_parsed. unfold parsed. now rewrite Hp. }
  split; [exact Hsum|].
  rewrite research_loop_S, (bind_Ok _ _ _ _ _ Hid), Hsome.
  rewrite (bind_Ok _ _ _ _ _ Hn1), (bind_Ok _ _ _ _ _ Hurls).
  apply String.eqb_neq in Hne. rewrite Hne.
  rewrite (bind_Ok _ _ _ _ _ Hn2). now rewrite (bind_Raise _ _ _ _ _ Hsum).
Qed.

Lemma join_no_tasks {A} order :
  join order ([] : list (res A * list event)) [] = Ok [].
Proof. induction order as [|i order IH]; [reflexivity|exact IH]. Qed.

(** X23: an empty URL list costs nothing.  When the URL reply parses
    to the empty list, no page is fetched and no summary requested,
    whatever the completion order: the batch is empty and the state is
    unchanged. *)
Theorem empty_url_list_gathers_nothing text s :
  json_loads rt text = inl (PList []) ->
  get_article_summaries rt w text s = (Ok [], s).
Proof.
  intros Hp. unfold get_article_summaries.
  rewrite (bind_Ok _ _ s (PList []) s)
    by (rewrite loads_parsed; unfold parsed; now rewrite Hp).
  rewrite (bind_Ok _ _ s [] s) by reflexivity.
  rewrite (bind_Ok _ _ s [] s); [reflexivity|].
  unfold gather. simpl. rewrite join_no_tasks. simpl.
  destruct s as [c tr]. simpl. rewrite app_nil_r. f_equal. f_equal. lia.
Qed.

(** X24: an empty plan is not the end of the round.  For the empty
    query list no search call is issued and no sentinel returned; the
    planner is still asked to choose URLs, from the serialisation of
    [None]. *)
Theorem empty_plan_still_asks_for_urls s :
  get_search_results w (PList []) s = (Ok PNone, s)
  /\ get_urls_to_browse rt w (PList []) s =
     let ev := EvChat ByGetUrlsToBrowse None (Some (browse_instruction rt PNone)) in
     match chat_reply w (clock s) None (Some (browse_instruction rt PNone)) with
     | inl URLsToBrowse => (Ok URLsToBrowse, after s ev)
     | inr ex => (Raise ex, after s ev)
     end.
Proof.
  split; [reflexivity|].
  rewrite get_urls_to_browse_cases, get_search_results_nil. reflexivity.
Qed.

End BoundaryFacts.

Lemma request_without_page_instance_id_witness :
  conversation_internal Sample.rt Sample.restless 3 (MkRequest None) Sample.start
  = (Ok (ErrorResponse (KeyError "page_instance_id") 500), Sample.start).
Proof.
  now apply (request_without_page_instance_id Sample.rt Sample.restless 3
               (MkRequest None) Sample.start).
Defined.

Lemma conversation_internal_never_raises_witness :
  (exists body, Ok (ErrorResponse (KeyError "page-1") 500) = Ok (StreamResponse body))
  \/ (exists ex, Ok (ErrorResponse (KeyError "page-1") 500) = Ok (error_response ex)).
Proof.
  destruct (conversation_internal_never_raises Sample.rt Sample.lost_observer 1
              Sample.request Sample.start
              (Ok (ErrorResponse (KeyError "page-1") 500))
              (MkState 1 [EvChat ByIdentifySearches (Some "<identify_searches>") None])
              eq_refl) as [H|H]; [discriminate H|exact H].
Defined.

Lemma orchestrator_result_witness :
  conversation_internal Sample.rt Sample.no_search_needed 1 Sample.request
    Sample.start
  = (Ok (StreamResponse "answer"),
     MkState 3 [EvChat ByIdentifySearches (Some "<identify_searches>") None;
                EvNotify "Generating answer..." "page-1"; EvStream None]).
Proof.
  rewrite (orchestrator_result_reaches_completion Sample.rt Sample.no_search_needed
             1 Sample.request Sample.start None
             (MkState 2 [EvChat ByIdentifySearches (Some "<identify_searches>") None;
                         EvNotify "Generating answer..." "page-1"])
             eq_refl); [reflexivity|now left].
Defined.

Lemma one_round_browsed :
  exists s6,
    round_browsed Sample.rt one_round Sample.page_instance Sample.start
      [Sample.entry "http://a" "sum a"] s6
    /\ clock s6 = 8.
Proof.
  eexists. split.
  - do 3 eexists. split.
    + do 4 eexists.
      split; [cbv; reflexivity|]. split; [reflexivity|].
      split; [cbv; reflexivity|]. split; [cbv; reflexivity|].
      split; [|cbv; reflexivity].
      intros H; vm_compute in H; discriminate H.
    + split; cbv; reflexivity.
  - reflexivity.
Defined.

Lemma satisfied_round_witness :
  (research_loop Sample.rt one_round 1 Sample.page_instance None Sample.start).1
  = Ok (Some ("<background_info_preamble>[" +:+ nl
              +:+ "    {" +:+ nl
              +:+ "        " +:+ dq +:+ "URL" +:+ dq +:+ ": "
              +:+ dq +:+ "http://a" +:+ dq +:+ "," +:+ nl
              +:+ "        " +:+ dq +:+ "summary" +:+ dq +:+ ": "
              +:+ dq +:+ "sum a" +:+ dq +:+ nl
              +:+ "    }" +:+ nl
              +:+ "]" +:+ nl +:+ nl +:+ "Original System Prompt:" +:+ nl +:+ nl)).
Proof.
  destruct one_round_browsed as (s6 & Hround & Hclock).
  rewrite (satisfied_round_returns_the_evidence Sample.rt one_round 0
             Sample.page_instance None Sample.start _ s6 "Yes." 7 Hround);
    try reflexivity.
  discriminate.
Defined.

Lemma two_rounds_browsed :
  exists s6,
    round_browsed Sample.rt Sample.two_rounds Sample.page_instance Sample.start
      [Sample.entry "http://a" "sum a"] s6
    /\ clock s6 = 8.
Proof.
  eexists. split.
  - do 3 eexists. split.
    + do 4 eexists.
      split; [cbv; reflexivity|]. split; [reflexivity|].
      split; [cbv; reflexivity|]. split; [cbv; reflexivity|].
      split; [|cbv; reflexivity].
      intros H; vm_compute in H; discriminate H.
    + split; cbv; reflexivity.
  - reflexivity.
Defined.

Lemma unsatisfied_round_witness :
  exists s7,
    research_loop Sample.rt Sample.two_rounds 2 Sample.page_instance None
      Sample.start
    = research_loop Sample.rt Sample.two_rounds 1 Sample.page_instance
        (Some [Sample.entry "http://a" "sum a"]) s7.
Proof.
  destruct two_rounds_browsed as (s6 & Hround & Hclock).
  eexists.
  apply (unsatisfied_round_keeps_all_summaries Sample.rt Sample.two_rounds 1
           Sample.page_instance None Sample.start _ s6 Hround).
  rewrite Hclock. reflexivity.
Defined.

Lemma unreadable_urls_searched :
  exists s4,
    round_searched Sample.rt unreadable_urls Sample.page_instance Sample.start
      "http://a and http://b" s4.
Proof.
  eexists. do 4 eexists.
  split; [cbv; reflexivity|]. split; [reflexivity|].
  split; [cbv; reflexivity|]. split; [cbv; reflexivity|].
  split; [|cbv; reflexivity].
  intros H; vm_compute in H; discriminate H.
Defined.

Lemma unreadable_url_reply_witness :
  (research_loop Sample.rt unreadable_urls 1 Sample.page_instance None
     Sample.start).1
  = Raise (JSONDecodeError "http://a and http://b").
Proof.
  destruct unreadable_urls_searched as (s4 & Hround).
  destruct (unreadable_url_reply_raises Sample.rt unreadable_urls 0
              Sample.page_instance None Sample.start _ s4
              (JSONDecodeError "http://a and http://b") Hround eq_refl)
    as (_ & H).
  now rewrite H.
Defined.

Lemma empty_url_list_witness :
  get_article_summaries Sample.rt Sample.three_pages "[]" Sample.start
  = (Ok [], Sample.start).
Proof.
  now apply (empty_url_list_gathers_nothing Sample.rt Sample.three_pages "[]"
               Sample.start).
Defined.

(** ** The calls of the orchestrator *)

Section OrchestratorCalls.

Variable rt : Runtime.
Variable w : World.
Variable page_instance_id : string.

Local Ltac emit_step :=
  first [ apply emits_ret | apply emits_raise | apply emits_lift
        | apply emits_external; constructor ].

Lemma calls_set_status_message message :
  In message status_messages ->
  emits (orchestrator_call rt page_instance_id)
    (set_status_message w message page_instance_id).
Proof.
  intros Hm s r s'. unfold set_status_message.
  destruct (clients_at w (clock s) !! page_instance_id).
  - apply emits_external. now constructor.
  - apply emits_raise.
Qed.

Lemma calls_get_urls_to_browse searches :
  emits (orchestrator_call rt page_instance_id) (get_urls_to_browse rt w searches).
Proof.
  unfold get_urls_to_browse, get_search_results.
  apply emits_bind.
  - apply emits_bind; [emit_step|]. intros items.
    apply emits_bind.
    + apply emits_for_each. intros x acc. unfold get_search_results_body.
      apply emits_bind; [unfold search_bing; emit_step|].
      intros [results|]; emit_step.
    + intros [acc|v]; emit_step.
  - intros searchresults.
    destruct (eq_str searchresults "Search error."); [emit_step|].
    apply emits_external. apply call_browse.
Qed.

Lemma calls_process_url URL :
  emits (orchestrator_call rt page_instance_id) (process_url rt w URL).
Proof.
  unfold process_url, fetch_and_parse_url.
  apply emits_bind.
  - apply emits_bind; [emit_step|].
    intros response. destruct (response.1 =? 200)%Z; emit_step.
  - intros [page_content|]; [|emit_step].
    destruct URL; try emit_step.
    apply emits_bind; [unfold send_private_chat; emit_step|].
    intros summary. emit_step.
Qed.

Lemma calls_get_article_summaries text :
  emits (orchestrator_call rt page_instance_id) (get_article_summaries rt w text).
Proof.
  unfold get_article_summaries.
  apply emits_bind; [emit_step|]. intros v.
  apply emits_bind; [emit_step|]. intros urls.
  apply emits_bind; [|intros; emit_step].
  apply emits_gather. apply calls_process_url.
Qed.

Lemma calls_identify_searches :
  emits (orchestrator_call rt page_instance_id) (identify_searches rt w None).
Proof.
  unfold identify_searches.
  apply emits_bind.
  - apply emits_external. apply call_plan.
  - intros searches.
    destruct (String.eqb searches "No searches required."); [emit_step|].
    destruct searches; emit_step.
Qed.

Lemma calls_is_background_info_sufficient Summaries :
  emits (orchestrator_call rt page_instance_id)
    (is_background_info_sufficient rt w Summaries).
Proof.
  unfold is_background_info_sufficient.
  apply emits_bind; [apply emits_external; apply call_sufficiency|].
  intros response.
  destruct (String.eqb response "More information needed."); emit_step.
Qed.

Local Ltac notify :=
  apply calls_set_status_message; unfold status_messages; simpl; tauto.

Lemma calls_research_loop fuel :
  forall Summaries,
    emits (orchestrator_call rt page_instance_id)
      (research_loop rt w fuel page_instance_id Summaries).
Proof.
  induction fuel as [|fuel IH]; intros Summaries; [apply emits_lift|].
  rewrite research_loop_S.
  apply emits_bind; [apply calls_identify_searches|]. intros searches.
  destruct (is_none searches).
  { apply emits_bind; [notify|]. intros _. apply emits_ret. }
  apply emits_bind; [notify|]. intros _.
  apply emits_bind; [apply calls_get_urls_to_browse|]. intros URLsToBrowse.
  destruct (String.eqb URLsToBrowse "Search error."); [apply emits_ret|].
  apply emits_bind; [notify|]. intros _.
  apply emits_bind; [apply calls_get_article_summaries|]. intros newSummaries.
  apply emits_bind; [notify|]. intros _.
  apply emits_bind; [apply calls_is_background_info_sufficient|].
  intros [|]; [|apply IH].
  apply emits_bind; [notify|]. intros _. apply emits_ret.
Qed.

(** The calls of a batch of page tasks are those of all its tasks, in
    the order of the URL list, whether the batch returns or raises. *)
Lemma get_article_summaries_issues_all text urls s :
  json_loads rt text = inl (PList urls) ->
  (get_article_summaries rt w text s).2
  = MkState (clock s + 2 * length urls)
      (trace s
       ++ issued (imap (fun i URL => run_task (process_url rt w URL)
                                      (clock s + 2 * i)) urls)).
Proof.
  intros Hp. unfold get_article_summaries.
  rewrite (bind_Ok _ _ s (PList urls) s)
    by (rewrite loads_parsed; unfold parsed; now rewrite Hp).
  rewrite (bind_Ok _ _ s urls s) by reflexivity.
  rewrite <- (gather_issues_all w (process_url rt w) urls s).
  unfold bind, ret. destruct (gather w (process_url rt w) urls s) as [[r| |] s1];
    reflexivity.
Qed.

(** X25: every external call of the orchestrator, in a request of the
    session [page_instance_id], is one of: the first-round planning
    request, a search, the URL choice, a page fetch, a page summary, the
    sufficiency check, or one of the four status messages, sent to that
    session and to no other.  In particular the orchestrator never
    streams a completion itself.  The calls of a batch of page tasks
    are all among them: the batch issues the calls of every task, in
    the order of the URL list, also when one of the tasks raises and
    the batch is lost. *)
Theorem orchestrator_issues_only_its_calls fuel rb :
  rb_page_instance_id rb = Some page_instance_id ->
  emits (orchestrator_call rt page_instance_id)
    (search_and_add_background_references rt w fuel rb)
  /\ (forall text urls s,
        json_loads rt text = inl (PList urls) ->
        trace (get_article_summaries rt w text s).2
        = trace s
          ++ concat (map (fun task => snd task)
                       (imap (fun i URL => run_task (process_url rt w URL)
                                             (clock s + 2 * i)) urls))).
Proof.
  intros Hid. split.
  - rewrite (search_and_add_registered rt w fuel rb _ Hid).
    apply calls_research_loop.
  - intros text urls s Hp.
    now rewrite (get_article_summaries_issues_all text urls s Hp).
Qed.

(** X26: a request streams at most one completion, and only after the
    orchestrator has issued its last call: the calls of
    [conversation_internal], those of every page task included, are
    calls of the orchestrator followed by at most one streamed
    completion. *)
Theorem request_streams_once_and_last fuel rb s r s' :
  rb_page_instance_id rb = Some page_instance_id ->
  conversation_internal rt w fuel rb s = (r, s') ->
  exists evs, trace s' = trace s ++ evs /\ request_calls rt page_instance_id evs.
Proof.
  intros Hid. unfold conversation_internal, try_except, bind.
  rewrite (search_and_add_registered rt w fuel rb _ Hid).
  destruct (research_loop rt w fuel page_instance_id None s)
    as [[system_preamble|ex|] s1] eqn:E;
    destruct (calls_research_loop fuel None _ _ _ E) as (calls & Htr & F).
  - set (p := if differs_from system_preamble "Search error."
              then system_preamble
              else Some (prompts rt "search_error_preamble")).
    assert (Hs : (if differs_from system_preamble "Search error."
                  then stream_chat_request w system_preamble
                  else stream_chat_request w
                         (Some (prompts rt "search_error_preamble"))) s1
                 = stream_chat_request w p s1).
    { subst p. now destruct (differs_from _ _). }
    rewrite Hs. unfold stream_chat_request, external.
    destruct (stream_reply w (clock s1) p) as [result|ex];
      [|destruct (exn_status_code ex)]; intros [= <- <-]; simpl;
      exists (calls ++ [EvStream p]);
      (split; [rewrite Htr; now rewrite app_assoc|]);
      exists calls, [EvStream p]; eauto.
  - destruct (exn_status_code ex); intros [= <- <-];
      exists calls; (split; [exact Htr|]);
      exists calls, []; rewrite app_nil_r; auto.
  - intros [= <- <-]. exists calls. split; [exact Htr|].
    exists calls, []. rewrite app_nil_r. auto.
Qed.

End OrchestratorCalls.

Lemma orchestrator_calls_witness :
  emits (orchestrator_call Sample.rt Sample.page_instance)
    (search_and_add_background_references Sample.rt Sample.two_rounds 2
       Sample.request)
  /\ trace (get_article_summaries Sample.rt Sample.failing_summary
              Sample.three_urls Sample.start).2
     = [EvFetch (PStr "http://a");
        EvChat ByProcessUrl None (Some (summary_prompt "http://a" "page a"));
        EvFetch (PStr "http://b");
        EvFetch (PStr "http://c");
        EvChat ByProcessUrl None (Some (summary_prompt "http://c" "page c"))].
Proof.
  destruct (orchestrator_issues_only_its_calls Sample.rt Sample.two_rounds
              Sample.page_instance 2 Sample.request eq_refl) as [Hcalls _].
  destruct (orchestrator_issues_only_its_calls Sample.rt Sample.failing_summary
              Sample.page_instance 2 Sample.request eq_refl) as [_ Hbatch].
  split; [exact Hcalls|].
  rewrite (Hbatch Sample.three_urls
             [PStr "http://a"; PStr "http://b"; PStr "http://c"] Sample.start
             eq_refl).
  reflexivity.
Defined.

(** A request whose batch is lost, call by call: the three page
    tasks have issued their fetches and the two summary requests when
    the refusal of the second one ends the request, which is answered
    with the status of the refusal and streams nothing. *)
Example lost_batch_calls :
  conversation_internal Sample.rt lost_batch 1 Sample.request Sample.start
  = (Ok (ErrorResponse Sample.rate_limited 429),
     MkState 11
       [EvChat ByIdentifySearches (Some "<identify_searches>") None;
        EvNotify "Searching..." "page-1";
        EvSearch (PStr "a");
        EvChat ByGetUrlsToBrowse None
          (Some (browse_instruction Sample.rt
                   (PList [PDict [("name", PStr "A"); ("url", PStr "http://a");
                                  ("snippet", PStr "about a")]])));
        EvNotify "Browsing and analyzing..." "page-1";
        EvFetch (PStr "http://a");
        EvChat ByProcessUrl None (Some (summary_prompt "http://a" "page a"));
        EvFetch (PStr "http://b");
        EvFetch (PStr "http://c");
        EvChat ByProcessUrl None (Some (summary_prompt "http://c" "page c"))]).
Proof. vm_compute. reflexivity. Qed.

Lemma request_streams_witness :
  exists evs,
    trace (conversation_internal Sample.rt lost_batch 1 Sample.request
             Sample.start).2
    = trace Sample.start ++ evs
    /\ request_calls Sample.rt Sample.page_instance evs.
Proof.
  apply (request_streams_once_and_last Sample.rt lost_batch Sample.page_instance
           1 Sample.request Sample.start
           (conversation_internal Sample.rt lost_batch 1 Sample.request
              Sample.start).1).
  - reflexivity.
  - apply surjective_pairing.
Defined.

(** ** Stripping, bracket repair and the system message *)

(** X27: stripping is idempotent.  The loop of [get_search_results]
    strips the whole accumulated list again at every pass; a result that
    has been stripped is left as it is by the next stripping. *)
Theorem strip_obj_idempotent obj : strip_obj (strip_obj obj) = strip_obj obj.
Proof.
  rewrite !strip_obj_filter.
  induction obj as [|kv obj IH]; [reflexivity|]. simpl.
  destruct (negb (denied kv.1)) eqn:E; simpl; [|exact IH].
  now rewrite E, IH.
Qed.

Section Repair.

Variable rt : Runtime.
Variable w : World.

Lemma emits_impl {A} (P Q : event -> Prop) (m : M A) :
  (forall ev, P ev -> Q ev) -> emits P m -> emits Q m.
Proof.
  intros HPQ Hm s r s' E. destruct (Hm _ _ _ E) as (evs & Htr & F).
  exists evs. split; [exact Htr|]. eapply Forall_impl; eauto.
Qed.

Lemma orchestrator_call_system_content st page_instance_id ev :
  orchestrator_call rt page_instance_id ev -> system_content_by_caller st ev.
Proof.
  intros [| | | | | |]; simpl; try exact I;
    eexists; (split; [reflexivity|]); (split; [reflexivity|]);
    rewrite ?append_assoc; reflexivity.
Qed.

(** X28: in every private chat of the orchestrator, those of every
    page task of a batch included, the planning and the sufficiency
    check send the model their instruction followed by a blank line and
    the configured system message, and the URL choice and the page
    summary send their instruction alone, without the configured system
    message. *)
Theorem orchestrator_system_messages st fuel rb page_instance_id :
  rb_page_instance_id rb = Some page_instance_id ->
  emits (system_content_by_caller st)
    (search_and_add_background_references rt w fuel rb).
Proof.
  intros Hid. rewrite (search_and_add_registered rt w fuel rb _ Hid).
  apply (emits_impl (orchestrator_call rt page_instance_id)).
  - apply orchestrator_call_system_content.
  - apply calls_research_loop.
Qed.

Lemma str_last_nonempty c s : exists d, str_last (String c s) = Some d.
Proof.
  revert c. induction s as [|c' s IH]; intros c; simpl; [eauto|apply IH].
Qed.

(** X29: the plan is parsed as a bracketed text.  For a reply of the
    planner that is neither empty nor the sentinel, the text handed to
    [json.loads] is the reply with at most a ["["] put before it and at
    most a ["]"] put after it; it begins with ["["] and ends with ["]"],
    and a reply that already does is parsed as it is. *)
Theorem plan_is_parsed_bracketed response s :
  chat_reply w (clock s) (Some (first_plan rt)) None = inl response ->
  response <> "No searches required." ->
  response <> "" ->
  exists pre post text,
    identify_searches rt w None s
    = (parsed rt text,
       after s (EvChat ByIdentifySearches (Some (first_plan rt)) None))
    /\ text = pre +:+ response +:+ post
    /\ (pre = "" \/ pre = "[") /\ (post = "" \/ post = "]")
    /\ (exists rest, text = String "[" rest)
    /\ str_last text = Some "]"%char
    /\ ((exists rest, response = String "[" rest) -> pre = "")
    /\ (str_last response = Some "]"%char -> post = "").
Proof.
  intros Hr Hs He.
  rewrite (identify_searches_parses rt w response s Hr Hs He).
  destruct response as [|c rest]; [contradiction|].
  unfold with_brackets.
  set (opened := if Ascii.eqb c "[" then String c rest
                 else "[" +:+ String c rest).
  assert (Hopened : exists pre,
             opened = pre +:+ String c rest
             /\ (pre = "" \/ pre = "[")
             /\ (exists rest', opened = String "[" rest')
             /\ ((exists rest', String c rest = String "[" rest') -> pre = "")
             /\ str_last opened = str_last (String c rest)).
  { subst opened. destruct (Ascii.eqb c "[") eqn:E.
    - apply Ascii.eqb_eq in E. subst c. exists "". repeat split; eauto.
    - exists "[". repeat split; eauto.
      intros (rest' & [= -> _]). now rewrite Ascii.eqb_refl in E. }
  destruct Hopened as (pre & Ho & Hpre & (rest' & Hhead) & Hverb & Hlast).
  unfold last_differs.
  destruct (str_last_nonempty c rest) as (d & Hd).
  rewrite Hlast, Hd.
  destruct (Ascii.eqb d "]") eqn:E; cbn [negb].
  - apply Ascii.eqb_eq in E. subst d.
    exists pre, "", opened. split; [reflexivity|].
    rewrite append_empty_r. repeat split; eauto.
    now rewrite Hlast.
  - exists pre, "]", (opened +:+ "]"). split; [reflexivity|].
    split; [now rewrite Ho, append_assoc|].
    repeat split; eauto.
    + rewrite Hhead, append_cons. eauto.
    + now apply str_last_app.
    + intros H. injection H as ->.
      now rewrite Ascii.eqb_refl in E.
Qed.

End Repair.

Lemma orchestrator_system_messages_witness :
  emits (system_content_by_caller (MkSettings "You are helpful." false))
    (search_and_add_background_references Sample.rt lost_batch 2
       Sample.request).
Proof.
  apply (orchestrator_system_messages Sample.rt lost_batch
           (MkSettings "You are helpful." false) 2 Sample.request
           Sample.page_instance).
  reflexivity.
Defined.

Lemma plan_is_parsed_bracketed_witness :
  exists pre post text,
    identify_searches Sample.rt Sample.lost_observer None Sample.start
    = (parsed Sample.rt text,
       after Sample.start
         (EvChat ByIdentifySearches (Some (first_plan Sample.rt)) None))
    /\ text = pre +:+ Sample.array_text ["q"] +:+ post
    /\ (pre = "" \/ pre = "[") /\ (post = "" \/ post = "]")
    /\ (exists rest, text = String "[" rest)
    /\ str_last text = Some "]"%char
    /\ ((exists rest, Sample.array_text ["q"] = String "[" rest) -> pre = "")
    /\ (str_last (Sample.array_text ["q"]) = Some "]"%char -> post = "").
Proof.
  apply (plan_is_parsed_bracketed Sample.rt Sample.lost_observer
           (Sample.array_text ["q"])
           Sample.start).
  - reflexivity.
  - discriminate.
  - discriminate.
Defined.

(** ** The status channel and the orchestrator *)

Section ChannelFacts.

Variable rt : Runtime.
Variable w : World.

(** Rounds that end with the verdict that more is needed are run one
    after the other. *)
Lemma research_loop_rounds page_instance_id n Summaries s Summaries' s' :
  rounds_run rt w page_instance_id n Summaries s Summaries' s' ->
  forall fuel,
    research_loop rt w (n + fuel) page_instance_id Summaries s
    = research_loop rt w fuel page_instance_id Summaries' s'.
Proof.
  induction 1 as [|n Sm s Sm1 s1 Sm2 s2 (new & s6 & Hround & Hsuff & ->) _ IH];
    intros fuel; [reflexivity|].
  change (S n + fuel) with (S (n + fuel)).
  rewrite (research_loop_browsed rt w _ _ _ _ _ _ Hround).
  rewrite (bind_Ok _ _ _ _ _ Hsuff). apply IH.
Qed.

(** A status message that raises ends the round it is sent in,
    whichever of the five it is. *)
Lemma research_loop_notification_raises
    fuel page_instance_id Summaries s0 message s ex s' :
  notifies rt w page_instance_id Summaries s0 message s ->
  set_status_message w message page_instance_id s = (Raise ex, s') ->
  research_loop rt w (S fuel) page_instance_id Summaries s0 = (Raise ex, s').
Proof.
  intros Hsite Hnote.
  destruct Hsite as
    [searches s Hid Hnone
    |searches s Hid Hsome
    |searches s1 s2 URLsToBrowse s Hid Hsome Hn1 Hurls Hne
    |URLsToBrowse s4 newSummaries s
       (searches & s1 & s2 & s3 & Hid & Hsome & Hn1 & Hurls & Hne & Hn2) Hsum
    |newSummaries s6 s Hround Hsuff].
  - rewrite research_loop_S, (bind_Ok _ _ _ _ _ Hid), Hnone.
    now rewrite (bind_Raise _ _ _ _ _ Hnote).
  - rewrite research_loop_S, (bind_Ok _ _ _ _ _ Hid), Hsome.
    now rewrite (bind_Raise _ _ _ _ _ Hnote).
  - rewrite research_loop_S, (bind_Ok _ _ _ _ _ Hid), Hsome.
    rewrite (bind_Ok _ _ _ _ _ Hn1), (bind_Ok _ _ _ _ _ Hurls).
    apply String.eqb_neq in Hne. rewrite Hne.
    now rewrite (bind_Raise _ _ _ _ _ Hnote).
  - rewrite research_loop_S, (bind_Ok _ _ _ _ _ Hid), Hsome.
    rewrite (bind_Ok _ _ _ _ _ Hn1), (bind_Ok _ _ _ _ _ Hurls).
    apply String.eqb_neq in Hne. rewrite Hne.
    rewrite (bind_Ok _ _ _ _ _ Hn2), (bind_Ok _ _ _ _ _ Hsum).
    now rewrite (bind_Raise _ _ _ _ _ Hnote).
  - rewrite (research_loop_browsed rt w _ _ _ _ _ _ Hround).
    rewrite (bind_Ok _ _ _ _ _ Hsuff). cbv iota.
    now rewrite (bind_Raise _ _ _ _ _ Hnote).
Qed.

(** C8, as the source has it: [set_status_message] completes only when
    the session is registered and the send succeeds.  When the
    listener has removed the session it raises [KeyError]; when the
    send fails it raises the send's exception.  The exception reaches
    the orchestrator and ends it: at each of the five calls of
    [set_status_message] in the loop, in the first round or after any
    number of rounds, the exception leaves the round, leaves
    [search_and_add_background_references], and is answered with an
    error response at the request boundary. *)
Theorem set_status_message_raises_to_caller message page_instance_id s :
  (forall sink,
      clients_at w (clock s) !! page_instance_id = Some sink ->
      send_reply w (clock s) sink message = None ->
      set_status_message w message page_instance_id s
      = (Ok tt, after s (EvNotify message page_instance_id)))
  /\ (clients_at w (clock s) !! page_instance_id = None ->
      set_status_message w message page_instance_id s
      = (Raise (KeyError page_instance_id), s))
  /\ (forall sink ex,
        clients_at w (clock s) !! page_instance_id = Some sink ->
        send_reply w (clock s) sink message = Some ex ->
        set_status_message w message page_instance_id s
        = (Raise ex, after s (EvNotify message page_instance_id)))
  /\ (forall fuel Summaries s0 ex s',
        notifies rt w page_instance_id Summaries s0 message s ->
        set_status_message w message page_instance_id s = (Raise ex, s') ->
        research_loop rt w (S fuel) page_instance_id Summaries s0
        = (Raise ex, s'))
  /\ (forall n fuel rb s0 Summaries s1 ex s',
        rb_page_instance_id rb = Some page_instance_id ->
        rounds_run rt w page_instance_id n None s0 Summaries s1 ->
        notifies rt w page_instance_id Summaries s1 message s ->
        set_status_message w message page_instance_id s = (Raise ex, s') ->
        search_and_add_background_references rt w (n + S fuel) rb s0
        = (Raise ex, s')
        /\ conversation_internal rt w (n + S fuel) rb s0
           = (Ok (error_response ex), s')).
Proof.
  split; [|split; [|split; [|split]]].
  - intros sink Hc Hs. now apply set_status_message_delivered with sink.
  - intros Hc. rewrite set_status_message_cases. now rewrite Hc.
  - intros sink ex Hc Hs. rewrite set_status_message_cases. now rewrite Hc, Hs.
  - intros fuel Sm s0 ex s' Hsite Hnote.
    now apply research_loop_notification_raises with message s.
  - intros n fuel rb s0 Sm s1 ex s' Hrb Hrounds Hsite Hnote.
    assert (Hrun : search_and_add_background_references rt w (n + S fuel) rb s0
                   = (Raise ex, s')).
    { rewrite (search_and_add_registered rt w _ _ _ Hrb).
      rewrite (research_loop_rounds _ _ _ _ _ _ Hrounds).
      now apply research_loop_notification_raises with message s. }
    split; [exact Hrun|]. now apply conversation_internal_raises.
Qed.

End ChannelFacts.

Local Ltac run := cbv; reflexivity.

Local Ltac searched :=
  do 4 eexists;
  split; [run|]; split; [reflexivity|]; split; [run|]; split; [run|];
  split; [|run];
  let H := fresh in intros H; vm_compute in H; discriminate H.

Local Ltac browsed :=
  do 3 eexists; split; [searched|]; split; run.

Local Ltac one_more_round :=
  eapply rounds_more; [|apply rounds_none];
  do 2 eexists; split; [browsed|]; split; [run|reflexivity].

Lemma set_status_message_witness :
  set_status_message Sample.search_world "Searching..." Sample.page_instance
    Sample.start
  = (Ok tt, MkState 1 [EvNotify "Searching..." "page-1"])
  /\ set_status_message Sample.lost_observer "Searching..." Sample.page_instance
       Sample.start
  = (Raise (KeyError "page-1"), Sample.start)
  /\ set_status_message Sample.broken_pipe "Searching..." Sample.page_instance
       Sample.start
  = (Raise Sample.closed_socket, MkState 1 [EvNotify "Searching..." "page-1"])
  /\ research_loop Sample.rt Sample.broken_pipe 1 Sample.page_instance None
       Sample.start
  = (Raise Sample.closed_socket,
     MkState 2 [EvChat ByIdentifySearches (Some "<identify_searches>") None;
                EvNotify "Searching..." "page-1"])
  /\ (conversation_internal Sample.rt unobserved_no_search 1 Sample.request
        Sample.start).1
     = Ok (ErrorResponse (KeyError "page-1") 500)
  /\ (conversation_internal Sample.rt (pipe_breaks_at 4) 1 Sample.request
        Sample.start).1
     = Ok (ErrorResponse Sample.closed_socket 500)
  /\ (conversation_internal Sample.rt (pipe_breaks_at 16) 2 Sample.request
        Sample.start).1
     = Ok (ErrorResponse Sample.closed_socket 500)
  /\ (conversation_internal Sample.rt (pipe_breaks_at 18) 2 Sample.request
        Sample.start).1
     = Ok (ErrorResponse Sample.closed_socket 500).
Proof.
  split; [|split; [|split; [|split; [|split; [|split; [|split]]]]]].
  - apply (set_status_message_raises_to_caller Sample.rt Sample.search_world
             "Searching..." Sample.page_instance Sample.start) with (sink := 7);
      reflexivity.
  - apply (set_status_message_raises_to_caller Sample.rt Sample.lost_observer
             "Searching..." Sample.page_instance Sample.start).
    reflexivity.
  - apply (set_status_message_raises_to_caller Sample.rt Sample.broken_pipe
             "Searching..." Sample.page_instance Sample.start) with (sink := 7);
      reflexivity.
  - apply (set_status_message_raises_to_caller Sample.rt Sample.broken_pipe
             "Searching..." Sample.page_instance
             (MkState 1 [EvChat ByIdentifySearches (Some "<identify_searches>") None])).
    + apply notifies_searching with (searches := PList [PStr "q"]); reflexivity.
    + reflexivity.
  - edestruct (set_status_message_raises_to_caller Sample.rt unobserved_no_search
                 "Generating answer..." Sample.page_instance)
      as (_ & _ & _ & _ & Hrun).
    edestruct (Hrun 0 0 Sample.request Sample.start) as [_ Hc];
      [reflexivity|apply rounds_none
      |eapply notifies_no_search; [run|reflexivity]|run|].
    exact (f_equal fst Hc).
  - edestruct (set_status_message_raises_to_caller Sample.rt (pipe_breaks_at 4)
                 "Browsing and analyzing..." Sample.page_instance)
      as (_ & _ & _ & _ & Hrun).
    edestruct (Hrun 0 0 Sample.request Sample.start) as [_ Hc];
      [reflexivity|apply rounds_none
      |eapply notifies_browsing; [run|reflexivity|run|run|]|run|].
    { intros H; vm_compute in H; discriminate H. }
    exact (f_equal fst Hc).
  - edestruct (set_status_message_raises_to_caller Sample.rt (pipe_breaks_at 16)
                 "Double checking sources..." Sample.page_instance)
      as (_ & _ & _ & _ & Hrun).
    edestruct (Hrun 1 0 Sample.request Sample.start) as [_ Hc];
      [reflexivity|one_more_round
      |eapply notifies_double_checking; [searched|run]|run|].
    exact (f_equal fst Hc).
  - edestruct (set_status_message_raises_to_caller Sample.rt (pipe_breaks_at 18)
                 "Generating answer..." Sample.page_instance)
      as (_ & _ & _ & _ & Hrun).
    edestruct (Hrun 1 0 Sample.request Sample.start) as [_ Hc];
      [reflexivity|one_more_round
      |eapply notifies_generating; [browsed|run]|run|].
    exact (f_equal fst Hc).
Defined.
